(** * The Gaussian primitive store of gaussian-splatting-cuda

    A shallow embedding of [src/gaussian.cu]: the [GaussianModel] with its
    six optimizable tensors, its three bookkeeping tensors and the Adam
    optimizer bound to them, together with the structural mutations
    ([prune_points], [densification_postfix], [densify_and_clone],
    [densify_and_split], [Densify_and_prune]), [Reset_opacity],
    [Add_densification_stats] and [Save_as_ply]; then the rest of the
    interface ([One_up_sh_degree], [Get_features], [Create_from_pcd],
    [Training_setup], [Update_learning_rate], [Get_covariance]) and, of
    [src/utils.cu], [getProjectionMatrix] and [rotmat2qvec] on doubles.

    Tensor elements are kept abstract (class [Scalar]): the source computes
    in 32-bit floating point on the device, and the statements below hold
    for every arithmetic unless they name one.  Two instances are given:
    the real numbers with a NaN, on which the runs at the end of the file
    are made, and the arithmetic of binary32, on which the statistics are
    computed bit for bit. *)

From Stdlib Require Import Reals Lra QArith Qpower.
From Stdlib Require Import Floats.SpecFloat.
From stdpp Require Import base list gmap strings.

Set Default Proof Using "Type".

(** ** Tensor elements *)

(** The arithmetic and the comparisons that the source applies to
    elements.  [fle] and [flt] are the comparisons [<=] and [<]; the
    source's [>=] and [>] are these with the operands exchanged.  [fconst]
    reads a decimal literal.  [fsum] is the reduction behind [norm] and
    [bmm], whose order of summation libtorch leaves open. *)
Class Scalar (F : Type) := {
  fzero : F;
  fone : F;
  fconst : Q -> F;
  fadd : F -> F -> F;
  fmul : F -> F -> F;
  fdiv : F -> F -> F;
  fsqrt : F -> F;
  fsum : list F -> F;
  fmax : F -> F -> F;
  fle : F -> F -> bool;
  flt : F -> F -> bool;
  fisnan : F -> bool;
}.

(** The functions of libtorch beyond the arithmetic of the format. *)
Class Transcendental (F : Type) := {
  torch_exp : F -> F;
  torch_log : F -> F;
  torch_sigmoid : F -> F;
}.

Definition fge {F} `{Scalar F} (a b : F) : bool := fle b a.
Definition fgt {F} `{Scalar F} (a b : F) : bool := flt b a.

(** The helpers that [gaussian.cu] calls and that are declared outside the
    files at hand: [inverse_sigmoid] on one element and [build_rotation]
    from a quaternion row to the rows of a 3x3 matrix. *)
Class Helpers (F : Type) := {
  inverse_sigmoid : F -> F;
  build_rotation : list F -> list (list F);
}.

(** ** Outcomes of a call *)

Inductive exn :=
| runtime_error (what : string)   (* [throw std::runtime_error(what)] *)
| c10_error                       (* an error raised inside a libtorch call *)
| undefined_behaviour.            (* null dereference, [operator[]] out of range *)

Inductive outcome (A : Type) :=
| Returns (a : A)
| Throws (e : exn).
Arguments Returns {A} a.
Arguments Throws {A} e.

(** ** Index arithmetic on dimension 0 *)

Fixpoint nonzero_from (i : nat) (mask : list bool) : list nat :=
  match mask with
  | [] => []
  | b :: rest => (if b then [i] else []) ++ nonzero_from (S i) rest
  end.

(** [torch::nonzero(mask)] followed by the selection of the row
    coordinate. *)
Definition nonzero (mask : list bool) : list nat := nonzero_from 0 mask.

(** [mask.sum()] of a boolean tensor. *)
Definition count_true (mask : list bool) : nat :=
  length (filter (fun b => b = true) mask).

(** The same for a mask with a second dimension: one row index for every
    true entry, in row-major order. *)
Fixpoint nonzero_rows_from (i : nat) (mask : list (list bool)) : list nat :=
  match mask with
  | [] => []
  | row :: rest =>
      replicate (count_true row) i
        ++ nonzero_rows_from (S i) rest
  end.

Definition nonzero_rows (mask : list (list bool)) : list nat :=
  nonzero_rows_from 0 mask.

(** [t.index_select(0, idx)]: fails when an index is out of range. *)
Definition index_select {A} (t : list A) (idx : list nat) : option (list A) :=
  mapM (fun i => t !! i) idx.

(** [t.repeat({n, 1, ...})]: [n] copies of the whole tensor along
    dimension 0. *)
Fixpoint tile {A} (n : nat) (t : list A) : list A :=
  match n with
  | O => []
  | S k => t ++ tile k t
  end.

(** Broadcasting of a binary operation along one dimension. *)
Definition broadcast2 {A B C} (f : A -> B -> C) (xs : list A) (ys : list B)
  : option (list C) :=
  if Nat.eqb (length xs) (length ys) then Some (zip_with f xs ys)
  else match xs, ys with
       | [x], _ => Some (map (f x) ys)
       | _, [y] => Some (map (fun x => f x y) xs)
       | _, _ => None
       end.

(** A binary element-wise operation on two tensors of two dimensions. *)
Definition tensor_op2 {A B C} (f : A -> B -> C)
    (t1 : list (list A)) (t2 : list (list B)) : option (list (list C)) :=
  match broadcast2 (broadcast2 f) t1 t2 with
  | Some rs => mapM (fun r => r) rs
  | None => None
  end.

(** ** Calls as state transformers

    A member function is a function from the state before the call to the
    outcome and the state after it; after a [throw] the state is the one
    reached when the exception left. *)

Definition M (S A : Type) : Type := S -> outcome A * S.

Definition ret {S A} (a : A) : M S A := fun s => (Returns a, s).

Definition bind {S A B} (c : M S A) (k : A -> M S B) : M S B :=
  fun s =>
    match c s with
    | (Returns a, s') => k a s'
    | (Throws e, s') => (Throws e, s')
    end.

Definition throw {S A} (e : exn) : M S A := fun s => (Throws e, s).

Definition get {S} : M S S := fun s => (Returns s, s).

Definition gets {S A} (f : S -> A) : M S A := fun s => (Returns (f s), s).

Definition modify {S} (f : S -> S) : M S unit := fun s => (Returns tt, f s).

(** The result of a libtorch call that may raise. *)
Definition torch_try {S A} (o : option A) : M S A :=
  match o with
  | Some a => ret a
  | None => throw c10_error
  end.

(** An access that is undefined when its target is missing. *)
Definition defined {S A} (o : option A) : M S A :=
  match o with
  | Some a => ret a
  | None => throw undefined_behaviour
  end.

Declare Scope call_scope.
Delimit Scope call_scope with call.
Notation "x <- c ;; k" := (bind c (fun x => k))
  (at level 100, c at next level, right associativity) : call_scope.
Notation "c ;; k" := (bind c (fun _ => k))
  (at level 100, right associativity) : call_scope.
Open Scope call_scope.

(** ** The data model *)

Section Model.
Context {F : Type}.

(** A [torch::Tensor] handle.  [impl] stands for the address of the
    [TensorImpl] behind the handle, which is what keys the optimizer
    state; [rows] are the entries along dimension 0, each one flattened
    (a tensor of one dimension has rows of one element); [grad] is
    [None] while [.grad()] is undefined.  The sizes beyond dimension 0 are
    not kept: the tensor of size {0} that the constructor leaves and a
    tensor of size {0, 3} both have no rows. *)
Record Tensor := mkTensor {
  impl : nat;
  rows : list (list F);
  grad : option (list (list F));
}.

(** [torch::optim::AdamParamState]. *)
Record AdamParamState := mkAdamParamState {
  step : Z;
  exp_avg : list (list F);
  exp_avg_sq : list (list F);
}.

(** [torch::optim::Adam]: the parameter tensors of every group, and the
    state map from a parameter's [impl] to its moments.  The options of
    a group (learning rate, epsilon) are read by no operation below and
    are left out. *)
Record Adam := mkAdam {
  param_groups : list (list Tensor);
  state : gmap nat AdamParamState;
}.

(** The members of [GaussianModel].  [_optimizer] is [None] for the null
    [std::unique_ptr] that the constructor leaves.  [next_impl] is not a
    member: it is the allocator, every tensor made so far has an [impl]
    below it. *)
Record GaussianModel := mkGaussianModel {
  _active_sh_degree : Z;
  _max_sh_degree : Z;
  _spatial_lr_scale : F;
  _percent_dense : F;
  _xyz : Tensor;
  _features_dc : Tensor;
  _features_rest : Tensor;
  _scaling : Tensor;
  _rotation : Tensor;
  _opacity : Tensor;
  _max_radii2D : Tensor;
  _xyz_gradient_accum : Tensor;
  _denom : Tensor;
  _optimizer : option Adam;
  next_impl : nat;
}.

(** The six optimizable members, in the order of their parameter
    groups; [prune_optimizer] and [cat_tensors_to_optimizer] receive one
    of them by reference. *)
Inductive member :=
| m_xyz | m_features_dc | m_features_rest | m_scaling | m_rotation | m_opacity.

Definition get_member (f : member) (m : GaussianModel) : Tensor :=
  match f with
  | m_xyz => _xyz m
  | m_features_dc => _features_dc m
  | m_features_rest => _features_rest m
  | m_scaling => _scaling m
  | m_rotation => _rotation m
  | m_opacity => _opacity m
  end.

Definition set_xyz (t : Tensor) (m : GaussianModel) : GaussianModel :=
  mkGaussianModel (_active_sh_degree m) (_max_sh_degree m)
    (_spatial_lr_scale m) (_percent_dense m)
    t (_features_dc m) (_features_rest m)
    (_scaling m) (_rotation m) (_opacity m)
    (_max_radii2D m) (_xyz_gradient_accum m) (_denom m)
    (_optimizer m) (next_impl m).

Definition set_features_dc (t : Tensor) (m : GaussianModel) : GaussianModel :=
  mkGaussianModel (_active_sh_degree m) (_max_sh_degree m)
    (_spatial_lr_scale m) (_percent_dense m)
    (_xyz m) t (_features_rest m)
    (_scaling m) (_rotation m) (_opacity m)
    (_max_radii2D m) (_xyz_gradient_accum m) (_denom m)
    (_optimizer m) (next_impl m).

Definition set_features_rest (t : Tensor) (m : GaussianModel) : GaussianModel :=
  mkGaussianModel (_active_sh_degree m) (_max_sh_degree m)
    (_spatial_lr_scale m) (_percent_dense m)
    (_xyz m) (_features_dc m) t
    (_scaling m) (_rotation m) (_opacity m)
    (_max_radii2D m) (_xyz_gradient_accum m) (_denom m)
    (_optimizer m) (next_impl m).

Definition set_scaling (t : Tensor) (m : GaussianModel) : GaussianModel :=
  mkGaussianModel (_active_sh_degree m) (_max_sh_degree m)
    (_spatial_lr_scale m) (_percent_dense m)
    (_xyz m) (_features_dc m) (_features_rest m)
    t (_rotation m) (_opacity m)
    (_max_radii2D m) (_xyz_gradient_accum m) (_denom m)
    (_optimizer m) (next_impl m).

Definition set_rotation (t : Tensor) (m : GaussianModel) : GaussianModel :=
  mkGaussianModel (_active_sh_degree m) (_max_sh_degree m)
    (_spatial_lr_scale m) (_percent_dense m)
    (_xyz m) (_features_dc m) (_features_rest m)
    (_scaling m) t (_opacity m)
    (_max_radii2D m) (_xyz_gradient_accum m) (_denom m)
    (_optimizer m) (next_impl m).

Definition set_opacity (t : Tensor) (m : GaussianModel) : GaussianModel :=
  mkGaussianModel (_active_sh_degree m) (_max_sh_degree m)
    (_spatial_lr_scale m) (_percent_dense m)
    (_xyz m) (_features_dc m) (_features_rest m)
    (_scaling m) (_rotation m) t
    (_max_radii2D m) (_xyz_gradient_accum m) (_denom m)
    (_optimizer m) (next_impl m).

Definition set_member (f : member) : Tensor -> GaussianModel -> GaussianModel :=
  match f with
  | m_xyz => set_xyz
  | m_features_dc => set_features_dc
  | m_features_rest => set_features_rest
  | m_scaling => set_scaling
  | m_rotation => set_rotation
  | m_opacity => set_opacity
  end.

Definition set_max_radii2D (t : Tensor) (m : GaussianModel) : GaussianModel :=
  mkGaussianModel (_active_sh_degree m) (_max_sh_degree m)
    (_spatial_lr_scale m) (_percent_dense m)
    (_xyz m) (_features_dc m) (_features_rest m)
    (_scaling m) (_rotation m) (_opacity m)
    t (_xyz_gradient_accum m) (_denom m)
    (_optimizer m) (next_impl m).

Definition set_xyz_gradient_accum (t : Tensor) (m : GaussianModel)
  : GaussianModel :=
  mkGaussianModel (_active_sh_degree m) (_max_sh_degree m)
    (_spatial_lr_scale m) (_percent_dense m)
    (_xyz m) (_features_dc m) (_features_rest m)
    (_scaling m) (_rotation m) (_opacity m)
    (_max_radii2D m) t (_denom m)
    (_optimizer m) (next_impl m).

Definition set_denom (t : Tensor) (m : GaussianModel) : GaussianModel :=
  mkGaussianModel (_active_sh_degree m) (_max_sh_degree m)
    (_spatial_lr_scale m) (_percent_dense m)
    (_xyz m) (_features_dc m) (_features_rest m)
    (_scaling m) (_rotation m) (_opacity m)
    (_max_radii2D m) (_xyz_gradient_accum m) t
    (_optimizer m) (next_impl m).

Definition set_optimizer (o : option Adam) (m : GaussianModel)
  : GaussianModel :=
  mkGaussianModel (_active_sh_degree m) (_max_sh_degree m)
    (_spatial_lr_scale m) (_percent_dense m)
    (_xyz m) (_features_dc m) (_features_rest m)
    (_scaling m) (_rotation m) (_opacity m)
    (_max_radii2D m) (_xyz_gradient_accum m) (_denom m)
    o (next_impl m).

Definition set_next_impl (n : nat) (m : GaussianModel) : GaussianModel :=
  mkGaussianModel (_active_sh_degree m) (_max_sh_degree m)
    (_spatial_lr_scale m) (_percent_dense m)
    (_xyz m) (_features_dc m) (_features_rest m)
    (_scaling m) (_rotation m) (_opacity m)
    (_max_radii2D m) (_xyz_gradient_accum m) (_denom m)
    (_optimizer m) n.

(** *** Allocation and the optimizer's handles *)

Definition new_tensor (data : list (list F)) : M GaussianModel Tensor :=
  fun m =>
    (Returns (mkTensor (next_impl m) data None),
     set_next_impl (S (next_impl m)) m).

(** [optimizer->param_groups()[param_position].params()[0] = t]. *)
Definition set_group_param (param_position : nat) (t : Tensor)
  : M GaussianModel unit :=
  m <- get ;;
  opt <- defined (_optimizer m) ;;
  group <- defined (param_groups opt !! param_position) ;;
  match group with
  | [] => throw undefined_behaviour
  | _ :: others =>
      modify (set_optimizer
                (Some (mkAdam (<[param_position := t :: others]> (param_groups opt))
                              (state opt))))
  end.

Definition mapping : list string :=
  ["xyz"; "features_dc"; "features_rest"; "scaling"; "rotation"; "opacity"]%string.

(** *** Pruning *)

Definition prune_optimizer (mask : list nat) (old_tensor : member)
    (param_position : nat) : M GaussianModel unit :=
  old <- gets (get_member old_tensor) ;;
  data <- torch_try (index_select (rows old) mask) ;;
  t <- new_tensor data ;;
  modify (set_member old_tensor t) ;;
  set_group_param param_position t.

Definition prune_points (mask : list bool) : M GaussianModel unit :=
  let indices := nonzero mask in
  prune_optimizer indices m_xyz 0 ;;
  prune_optimizer indices m_features_dc 1 ;;
  prune_optimizer indices m_features_rest 2 ;;
  prune_optimizer indices m_scaling 3 ;;
  prune_optimizer indices m_rotation 4 ;;
  prune_optimizer indices m_opacity 5 ;;
  let valid_points_mask := map negb mask in
  let indices := nonzero valid_points_mask in
  accum <- gets _xyz_gradient_accum ;;
  data <- torch_try (index_select (rows accum) indices) ;;
  t <- new_tensor data ;;
  modify (set_xyz_gradient_accum t) ;;
  denom <- gets _denom ;;
  data <- torch_try (index_select (rows denom) indices) ;;
  t <- new_tensor data ;;
  modify (set_denom t) ;;
  radii <- gets _max_radii2D ;;
  data <- torch_try (index_select (rows radii) indices) ;;
  t <- new_tensor data ;;
  modify (set_max_radii2D t).

(** *** Appending *)

(** [torch::cat] along dimension 0 raises when the sizes beyond that
    dimension differ; here rows of any width are appended, and the
    theorems about a call are conditional on its return, or append rows
    that were taken from the tensor itself. *)
Definition cat_tensors_to_optimizer (extension_tensor : list (list F))
    (old_tensor : member) (name : string) (param_position : nat)
  : M GaussianModel unit :=
  old <- gets (get_member old_tensor) ;;
  t <- new_tensor (rows old ++ extension_tensor) ;;
  modify (set_member old_tensor t) ;;
  set_group_param param_position t.

(** The loop of [densification_postfix] over the groups; its counter [i]
    is never advanced, so the name in the message is [mapping[0]]. *)
Fixpoint postfix_check_groups (i : nat) (groups : list (list Tensor))
  : M GaussianModel unit :=
  match groups with
  | [] => ret tt
  | group :: rest =>
      name <- defined (mapping !! i) ;;
      if negb (Nat.eqb (length group) 1)
      then throw (runtime_error ("too many params: " +:+ name))
      else postfix_check_groups i rest
  end.

Context `{!Scalar F} `{!Transcendental F} `{!Helpers F}.

(** [torch::zeros({n, 1})] and [torch::zeros({n})]. *)
Definition zeros (n : nat) : list (list F) := replicate n [fzero].

Definition densification_postfix
    (new_xyz new_features_dc new_features_rest
     new_scaling new_rotation new_opacity : list (list F))
  : M GaussianModel unit :=
  m <- get ;;
  opt <- defined (_optimizer m) ;;
  if negb (Nat.eqb (length (param_groups opt)) 6)
  then throw (runtime_error "optimizer param groups size not 6")
  else
    postfix_check_groups 0 (param_groups opt) ;;
    cat_tensors_to_optimizer new_xyz m_xyz "xyz" 0 ;;
    cat_tensors_to_optimizer new_features_dc m_features_dc "features_dc" 1 ;;
    cat_tensors_to_optimizer new_features_rest m_features_rest "features_rest" 2 ;;
    cat_tensors_to_optimizer new_scaling m_scaling "scaling" 3 ;;
    cat_tensors_to_optimizer new_rotation m_rotation "rotation" 4 ;;
    cat_tensors_to_optimizer new_opacity m_opacity "opacity" 5 ;;
    xyz <- gets _xyz ;;
    t <- new_tensor (zeros (length (rows xyz))) ;;
    modify (set_xyz_gradient_accum t) ;;
    xyz <- gets _xyz ;;
    t <- new_tensor (zeros (length (rows xyz))) ;;
    modify (set_denom t) ;;
    xyz <- gets _xyz ;;
    t <- new_tensor (zeros (length (rows xyz))) ;;
    modify (set_max_radii2D t).

(** *** Activated views *)

(** Modelled from the spec: [Get_scaling] is declared in gaussian.cuh,
    which is not among the files at hand; the spec gives actual scale =
    exp(logScale). *)
Definition Get_scaling (m : GaussianModel) : list (list F) :=
  map (map torch_exp) (rows (_scaling m)).

(** Modelled from the spec: [Get_opacity] is declared in gaussian.cuh,
    which is not among the files at hand; the spec gives actual opacity =
    sigmoid(rawOpacity). *)
Definition Get_opacity (m : GaussianModel) : list (list F) :=
  map (map torch_sigmoid) (rows (_opacity m)).

(** [t.norm()]: the 2-norm of all elements. *)
Definition norm (t : list (list F)) : F :=
  fsqrt (fsum (map (fun x => fmul x x) (concat t))).

(** [std::get<0>(t.max(1))]: the largest element of every row.  The
    source raises on a tensor without dimension 1, as the constructor
    leaves it; a tensor without rows stands here for one of size {0, k},
    and the theorems that a call through [max_dim1] returns take a
    scaling tensor with a row, or the one that [Create_from_pcd] made. *)
Definition row_max (r : list F) : option F :=
  match r with
  | [] => None
  | x :: xs => Some (foldl fmax x xs)
  end.

Definition max_dim1 (t : list (list F)) : option (list F) := mapM row_max t.

(** [t.squeeze()] of a column [n, 1] with [n] other than one: the vector
    of its elements.  A row of another width is reported as an error. *)
Definition squeeze_column {A} (t : list (list A)) : option (list A) :=
  mapM (fun r => match r with [x] => Some x | _ => None end) t.

(** *** Cloning *)

(** The mask that [densify_and_clone] selects with; it has the two
    dimensions of [grads]. *)
Definition clone_selected_mask (grads : list (list F))
    (grad_threshold scene_extent : F) : M GaussianModel (list (list bool)) :=
  let selected_pts_mask :=
    map (map (fun _ => fge (norm grads) grad_threshold)) grads in
  m <- get ;;
  maxs <- torch_try (max_dim1 (Get_scaling m)) ;;
  let small :=
    map (fun s => [fle s (fmul (_percent_dense m) scene_extent)]) maxs in
  torch_try (tensor_op2 andb selected_pts_mask small).

Definition densify_and_clone (grads : list (list F))
    (grad_threshold scene_extent : F) : M GaussianModel unit :=
  selected_pts_mask <- clone_selected_mask grads grad_threshold scene_extent ;;
  let indices := nonzero_rows selected_pts_mask in
  m <- get ;;
  new_xyz <- torch_try (index_select (rows (_xyz m)) indices) ;;
  new_features_dc <- torch_try (index_select (rows (_features_dc m)) indices) ;;
  new_features_rest <- torch_try (index_select (rows (_features_rest m)) indices) ;;
  new_opacity <- torch_try (index_select (rows (_opacity m)) indices) ;;
  new_scaling <- torch_try (index_select (rows (_scaling m)) indices) ;;
  new_rotation <- torch_try (index_select (rows (_rotation m)) indices) ;;
  densification_postfix new_xyz new_features_dc new_features_rest
    new_scaling new_rotation new_opacity.

(** *** Splitting *)

(** [padded_grad]: a vector of [n_init_points] zeros whose leading slice
    receives [grads.squeeze()].  The slice is clamped to the vector, and
    the copy raises when the sizes differ, unless [grads] has the single
    element that [squeeze] turns into a scalar. *)
Definition padded_grad (n_init_points : nat) (grads : list (list F))
  : option (list F) :=
  match squeeze_column grads with
  | None => None
  | Some g =>
      if Nat.leb (length g) n_init_points
      then Some (g ++ replicate (n_init_points - length g) fzero)
      else if Nat.eqb (length g) 1 then Some (replicate n_init_points fzero)
      else None
  end.

(** The mask that [densify_and_split] selects with. *)
Definition split_selected_mask (grads : list (list F))
    (grad_threshold scene_extent : F) : M GaussianModel (list bool) :=
  m <- get ;;
  let n_init_points := length (rows (_xyz m)) in
  padded <- torch_try (padded_grad n_init_points grads) ;;
  let selected_pts_mask := map (fun g => fge g grad_threshold) padded in
  maxs <- torch_try (max_dim1 (Get_scaling m)) ;;
  let big := map (fun s => fgt s (fmul (_percent_dense m) scene_extent)) maxs in
  torch_try (broadcast2 andb selected_pts_mask big).

(** [torch::bmm(rots, samples.unsqueeze(-1)).squeeze(-1)]. *)
Definition matvec (rot : list (list F)) (v : list F) : option (list F) :=
  mapM (fun r => if Nat.eqb (length r) (length v)
                 then Some (fsum (zip_with fmul r v)) else None) rot.

Definition bmm (rots : list (list (list F))) (samples : list (list F))
  : option (list (list F)) :=
  if Nat.eqb (length rots) (length samples)
  then mapM (fun p => matvec p.1 p.2) (zip rots samples)
  else None.

(** The draw of [torch::randn]: the sample at a row and a column. *)
Variable randn : nat -> nat -> F.

Definition densify_and_split (grads : list (list F))
    (grad_threshold scene_extent : F) (N : nat) : M GaussianModel unit :=
  selected_pts_mask <- split_selected_mask grads grad_threshold scene_extent ;;
  let selected := nonzero selected_pts_mask in
  m <- get ;;
  scaling_sel <- torch_try (index_select (Get_scaling m) selected) ;;
  let stds := tile N scaling_sel in
  let means := replicate (length stds) [fzero; fzero; fzero] in
  let noise := imap (fun i row => imap (fun j s => fmul (randn i j) s) row) stds in
  samples <- torch_try (tensor_op2 fadd noise means) ;;
  rotation_sel <- torch_try (index_select (rows (_rotation m)) selected) ;;
  let rots := tile N (map build_rotation rotation_sel) in
  xyz_sel <- torch_try (index_select (rows (_xyz m)) selected) ;;
  rotated <- torch_try (bmm rots samples) ;;
  new_xyz <- torch_try (tensor_op2 fadd rotated (tile N xyz_sel)) ;;
  let divisor := fconst ((8 # 10) * inject_Z (Z.of_nat N))%Q in
  let new_scaling :=
    map (map (fun s => torch_log (fdiv s divisor))) (tile N scaling_sel) in
  let new_rotation := tile N rotation_sel in
  features_dc_sel <- torch_try (index_select (rows (_features_dc m)) selected) ;;
  let new_features_dc := tile N features_dc_sel in
  features_rest_sel <- torch_try (index_select (rows (_features_rest m)) selected) ;;
  let new_features_rest := tile N features_rest_sel in
  opacity_sel <- torch_try (index_select (rows (_opacity m)) selected) ;;
  let new_opacity := tile N opacity_sel in
  densification_postfix new_xyz new_features_dc new_features_rest
    new_scaling new_rotation new_opacity ;;
  let prune_filter :=
    selected_pts_mask ++ replicate (N * count_true selected_pts_mask) false in
  prune_points prune_filter.

(** *** The densification cycle *)

(** [Densify_and_prune] calls [densify_and_split] without its last
    argument.  Modelled from the spec: the default value is declared in
    gaussian.cuh, which is not among the files at hand; the spec gives
    N_split=2. *)
Definition default_N : nat := 2.

(** The first two statements of [Densify_and_prune]: the quotient of the
    accumulated gradient by the update count, with every NaN overwritten
    by zero. *)
Definition mean_gradient (m : GaussianModel) : option (list (list F)) :=
  match tensor_op2 fdiv (rows (_xyz_gradient_accum m)) (rows (_denom m)) with
  | Some quotient =>
      Some (map (map (fun g => if fisnan g then fzero else g)) quotient)
  | None => None
  end.

(** The statements of [Densify_and_prune] after [grads] is filled. *)
Definition densify_and_prune_with (grads : list (list F))
    (max_grad min_opacity extent max_screen_size : F) : M GaussianModel unit :=
  densify_and_clone grads max_grad extent ;;
  densify_and_split grads max_grad extent default_N ;;
  m <- get ;;
  prune_mask <- torch_try (squeeze_column
                   (map (map (fun o => flt o min_opacity)) (Get_opacity m))) ;;
  if fgt max_screen_size fzero
  then
    let big_points_vs :=
      map (fun r => fgt r max_screen_size) (concat (rows (_max_radii2D m))) in
    maxs <- torch_try (max_dim1 (Get_scaling m)) ;;
    let big_points_ws :=
      map (fun s => fgt s (fmul (fconst (1 # 10)) extent)) maxs in
    big <- torch_try (broadcast2 orb big_points_vs big_points_ws) ;;
    prune_mask <- torch_try (broadcast2 orb prune_mask big) ;;
    prune_points prune_mask
  else
    (* [squeeze] turns the mask of a single primitive into a scalar, whose
       [nonzero] has two dimensions and is refused by [index_select] *)
    if Nat.eqb (length prune_mask) 1 then throw c10_error
    else prune_points prune_mask.

Definition Densify_and_prune
    (max_grad min_opacity extent max_screen_size : F) : M GaussianModel unit :=
  m <- get ;;
  grads <- torch_try (mean_gradient m) ;;
  densify_and_prune_with grads max_grad min_opacity extent max_screen_size.

(** *** Densification statistics *)

(** [t.index_put_({mask}, values)] with a boolean mask over dimension 0. *)
Fixpoint masked_put {A} (t : list A) (mask : list bool) (values : list A)
  : list A :=
  match t, mask with
  | x :: t', true :: mask' =>
      match values with
      | v :: values' => v :: masked_put t' mask' values'
      | [] => x :: masked_put t' mask' []
      end
  | x :: t', false :: mask' => x :: masked_put t' mask' values
  | _, _ => t
  end.

Definition index_put_ {A} (t : list A) (mask : list bool) (values : list A)
  : option (list A) :=
  if Nat.eqb (length mask) (length t) && Nat.eqb (length values) (count_true mask)
  then Some (masked_put t mask values)
  else None.

Definition Add_densification_stats (viewspace_point_tensor : Tensor)
    (update_filter : list bool) : M GaussianModel unit :=
  let visible := nonzero update_filter in
  m <- get ;;
  let accum := _xyz_gradient_accum m in
  accum_sel <- torch_try (index_select (rows accum) visible) ;;
  g <- torch_try (grad viewspace_point_tensor) ;;
  grad_sel <- torch_try (index_select g visible) ;;
  let norms := map (fun r => [norm [take 2 r]]) grad_sel in
  values <- torch_try (tensor_op2 fadd accum_sel norms) ;;
  updated <- torch_try (index_put_ (rows accum) update_filter values) ;;
  modify (set_xyz_gradient_accum (mkTensor (impl accum) updated (grad accum))) ;;
  m <- get ;;
  let denom := _denom m in
  denom_sel <- torch_try (index_select (rows denom) visible) ;;
  let values := map (map (fun d => fadd d fone)) denom_sel in
  updated <- torch_try (index_put_ (rows denom) update_filter values) ;;
  modify (set_denom (mkTensor (impl denom) updated (grad denom))).

(** *** Persistence and opacity reset *)

Definition Save_as_ply (filename : string) : M GaussianModel unit :=
  throw (runtime_error "Not implemented").

(** The loop of [Reset_opacity] over the groups. *)
Fixpoint reset_check_groups (i : nat) (groups : list (list Tensor))
  : M GaussianModel unit :=
  match groups with
  | [] => ret tt
  | group :: rest =>
      name <- defined (mapping !! i) ;;
      if negb (Nat.eqb (length group) 1)
      then throw (runtime_error ("too many params: " +:+ name))
      else
        p <- defined (group !! 0) ;;
        match grad p with
        | None => throw (runtime_error ("param grad not defined: " +:+ name))
        | Some _ => reset_check_groups (S i) rest
        end
  end.

Definition zeros_like (t : list (list F)) : list (list F) :=
  map (map (fun _ => fzero)) t.

Definition Reset_opacity : M GaussianModel unit :=
  m <- get ;;
  opt <- defined (_optimizer m) ;;
  reset_check_groups 0 (param_groups opt) ;;
  new_opacity <- new_tensor
    (map (map (fun _ => inverse_sigmoid (fmul fone (fconst (1 # 100)))))
         (Get_opacity m)) ;;
  group <- defined (param_groups opt !! 5) ;;
  p <- defined (group !! 0) ;;
  (* [operator[]] inserts a null pointer for a missing key, which the
     source dereferences *)
  opacityAdamParamStates <- defined (state opt !! impl p) ;;
  let zeroed :=
    mkAdamParamState (step opacityAdamParamStates)
      (zeros_like (rows new_opacity)) (zeros_like (rows new_opacity)) in
  modify (set_optimizer
            (Some (mkAdam (param_groups opt) (<[impl p := zeroed]> (state opt))))) ;;
  set_group_param 5 new_opacity ;;
  modify (set_member m_opacity new_opacity).

End Model.

Arguments Tensor : clear implicits.
Arguments AdamParamState : clear implicits.
Arguments Adam : clear implicits.
Arguments GaussianModel : clear implicits.

Arguments count_true : simpl never.
Arguments norm : simpl never.

(** ** Predicates of the statements *)

(** The rows of [t] that [mask] marks. *)
Fixpoint masked_select {A} (t : list A) (mask : list bool) : list A :=
  match t, mask with
  | x :: t', b :: mask' =>
      if b then x :: masked_select t' mask' else masked_select t' mask'
  | _, _ => []
  end.

Section Predicates.
Context {F : Type}.
Implicit Types m : GaussianModel F.

(** A group that [Reset_opacity] rejects. *)
Definition faulty_group (group : list (Tensor F)) : Prop :=
  length group <> 1 \/ exists p, group !! 0 = Some p /\ grad p = None.

(** [m'] is [m] except for the rows of the two statistics tensors. *)
Definition stats_frame m m' : Prop :=
  m' = set_denom
         (mkTensor (impl (_denom m)) (rows (_denom m')) (grad (_denom m)))
         (set_xyz_gradient_accum
            (mkTensor (impl (_xyz_gradient_accum m))
                      (rows (_xyz_gradient_accum m'))
                      (grad (_xyz_gradient_accum m))) m).

(** What a call leaves of the optimizer: the moments are the ones before
    the call, and the groups are as many. *)
Definition optimizer_kept m m' : Prop :=
  exists opt opt',
    _optimizer m = Some opt /\ _optimizer m' = Some opt'
    /\ state opt' = state opt
    /\ length (param_groups opt') = length (param_groups opt).

(** The members that a call leaves alone. *)
Definition bookkeeping_kept m m' : Prop :=
  _xyz_gradient_accum m' = _xyz_gradient_accum m
  /\ _denom m' = _denom m
  /\ _max_radii2D m' = _max_radii2D m.

End Predicates.

(** ** An instance: real arithmetic with NaN

    Elements are real numbers, computed without rounding, together with a
    NaN that every operation propagates and every comparison rejects.
    The quotient by zero, the logarithm outside the positive numbers and
    the square root of a negative number are NaN. *)

Inductive xreal :=
| XNaN
| XReal (r : R).

Definition xlift1 (f : R -> R) (a : xreal) : xreal :=
  match a with
  | XReal x => XReal (f x)
  | XNaN => XNaN
  end.

Definition xlift2 (f : R -> R -> R) (a b : xreal) : xreal :=
  match a, b with
  | XReal x, XReal y => XReal (f x y)
  | _, _ => XNaN
  end.

Definition xdiv (a b : xreal) : xreal :=
  match a, b with
  | XReal x, XReal y => if Req_dec_T y 0 then XNaN else XReal (x / y)
  | _, _ => XNaN
  end.

Definition xsqrt (a : xreal) : xreal :=
  match a with
  | XReal x => if Rlt_dec x 0 then XNaN else XReal (sqrt x)
  | XNaN => XNaN
  end.

Definition xlog (a : xreal) : xreal :=
  match a with
  | XReal x => if Rlt_dec 0 x then XReal (ln x) else XNaN
  | XNaN => XNaN
  end.

Definition xle (a b : xreal) : bool :=
  match a, b with
  | XReal x, XReal y => if Rle_dec x y then true else false
  | _, _ => false
  end.

Definition xlt (a b : xreal) : bool :=
  match a, b with
  | XReal x, XReal y => if Rlt_dec x y then true else false
  | _, _ => false
  end.

Definition xisnan (a : xreal) : bool :=
  match a with
  | XNaN => true
  | XReal _ => false
  end.

#[global] Instance xreal_Scalar : Scalar xreal := {|
  fzero := XReal 0;
  fone := XReal 1;
  fconst q := XReal (Q2R q);
  fadd := xlift2 Rplus;
  fmul := xlift2 Rmult;
  fdiv := xdiv;
  fsqrt := xsqrt;
  fsum := foldr (xlift2 Rplus) (XReal 0);
  fmax := xlift2 Rmax;
  fle := xle;
  flt := xlt;
  fisnan := xisnan;
|}.

#[global] Instance xreal_Transcendental : Transcendental xreal := {|
  torch_exp := xlift1 exp;
  torch_log := xlog;
  torch_sigmoid := xlift1 (fun x => 1 / (1 + exp (- x)))%R;
|}.

(** The rotation matrix of the normalized quaternion [r; x; y; z]. *)
Definition xbuild_rotation (q : list xreal) : list (list xreal) :=
  match q with
  | [r0; x0; y0; z0] =>
      let sq a := xlift2 Rmult a a in
      let n := xsqrt (foldr (xlift2 Rplus) (XReal 0) [sq r0; sq x0; sq y0; sq z0]) in
      let r := xdiv r0 n in
      let x := xdiv x0 n in
      let y := xdiv y0 n in
      let z := xdiv z0 n in
      let mul := xlift2 Rmult in
      let add := xlift2 Rplus in
      let sub := xlift2 Rminus in
      let two a := mul (XReal 2) a in
      [[sub (XReal 1) (two (add (mul y y) (mul z z)));
        two (sub (mul x y) (mul r z));
        two (add (mul x z) (mul r y))];
       [two (add (mul x y) (mul r z));
        sub (XReal 1) (two (add (mul x x) (mul z z)));
        two (sub (mul y z) (mul r x))];
       [two (sub (mul x z) (mul r y));
        two (add (mul y z) (mul r x));
        sub (XReal 1) (two (add (mul x x) (mul y y)))]]
  | _ => []
  end.

#[global] Instance xreal_Helpers : Helpers xreal := {|
  inverse_sigmoid x := xlog (xdiv x (xlift2 Rminus (XReal 1) x));
  build_rotation := xbuild_rotation;
|}.

(** A model of three primitives after [Training_setup] and one backward
    pass: six groups of one parameter each, every parameter with a
    gradient and with Adam moments of three rows. *)

Definition xrow (l : list R) : list xreal := map XReal l.

Definition xtensor (i : nat) (data : list (list R)) : Tensor xreal :=
  mkTensor i (map xrow data) (Some (map (map (fun _ => XReal 0)) data)).

Definition xmoments (data : list (list R)) : AdamParamState xreal :=
  mkAdamParamState 1 (map (map (fun _ => XReal 1)) data)
                     (map (map (fun _ => XReal 1)) data).

Definition three_xyz : list (list R) := [[0; 0; 0]; [1; 0; 0]; [0; 1; 0]]%R.
Definition three_features_dc : list (list R) := [[1; 1; 1]; [2; 2; 2]; [3; 3; 3]]%R.
Definition three_features_rest : list (list R) := [[]; []; []].
Definition three_scaling : list (list R) := [[0; 0; 0]; [0; 0; 0]; [0; 0; 0]]%R.
Definition three_rotation : list (list R) := [[1; 0; 0; 0]; [1; 0; 0; 0]; [1; 0; 0; 0]]%R.
Definition three_opacity : list (list R) := [[5]; [6]; [7]]%R.

Definition three_optimizer : Adam xreal :=
  mkAdam
    [[xtensor 0 three_xyz]; [xtensor 1 three_features_dc];
     [xtensor 2 three_features_rest]; [xtensor 3 three_scaling];
     [xtensor 4 three_rotation]; [xtensor 5 three_opacity]]
    (<[0 := xmoments three_xyz]>
     (<[1 := xmoments three_features_dc]>
      (<[2 := xmoments three_features_rest]>
       (<[3 := xmoments three_scaling]>
        (<[4 := xmoments three_rotation]>
         (<[5 := xmoments three_opacity]> ∅)))))).

Definition three_primitives : GaussianModel xreal :=
  {| _active_sh_degree := 0;
     _max_sh_degree := 0;
     _spatial_lr_scale := XReal 1;
     _percent_dense := XReal (Q2R (1 # 100));
     _xyz := xtensor 0 three_xyz;
     _features_dc := xtensor 1 three_features_dc;
     _features_rest := xtensor 2 three_features_rest;
     _scaling := xtensor 3 three_scaling;
     _rotation := xtensor 4 three_rotation;
     _opacity := xtensor 5 three_opacity;
     _max_radii2D := mkTensor 6 [[XReal 0]; [XReal 0]; [XReal 0]] None;
     _xyz_gradient_accum := mkTensor 7 [[XReal 3]; [XReal 4]; [XReal 0]] None;
     _denom := mkTensor 8 [[XReal 1]; [XReal 1]; [XReal 0]] None;
     _optimizer := Some three_optimizer;
     next_impl := 9 |}.

(** The mean gradients of the three primitives, and a draw of the noise. *)
Definition grads_3_4_0 : list (list xreal) := [[XReal 3]; [XReal 4]; [XReal 0]].

Definition unit_noise (i j : nat) : xreal := XReal 1.

(** A gradient vector shorter than the model, as [densify_and_split]
    receives it after a clone. *)
Definition grads_3_4 : list (list xreal) := [[XReal 3]; [XReal 4]].

(** The view-space tensor of one iteration: its gradient has three
    components per primitive. *)
Definition viewspace_three : Tensor xreal :=
  mkTensor 9 (map xrow three_xyz)
    (Some (map xrow [[3; 4; 9]; [1; 1; 1]; [0; 0; 0]]%R)).

(** The same model before the backward pass reached the opacity: the
    parameter of group 5 has no gradient. *)
Definition three_without_grad : GaussianModel xreal :=
  set_optimizer
    (Some (mkAdam
             (<[5 := [mkTensor 5 (map xrow three_opacity) None]]>
                (param_groups three_optimizer))
             (state three_optimizer)))
    three_primitives.

(** The states that the runs below end in. *)
Definition extended_three : GaussianModel xreal :=
  (densification_postfix [xrow [2; 2; 2]%R] [xrow [4; 4; 4]%R] [[]]
     [xrow [0; 0; 0]%R] [xrow [1; 0; 0; 0]%R] [xrow [8]%R] three_primitives).2.

Definition pruned_three : GaussianModel xreal :=
  (prune_points [true; false; false] three_primitives).2.

Definition cloned_three : GaussianModel xreal :=
  (densify_and_clone grads_3_4_0 (XReal (9 / 2)) (XReal 1000) three_primitives).2.

Definition split_three : GaussianModel xreal :=
  (densify_and_split unit_noise grads_3_4_0 (XReal (7 / 2)) (XReal 1) 2
     three_primitives).2.

Definition reset_three : GaussianModel xreal := (Reset_opacity three_primitives).2.

(** ** An instance: the arithmetic of binary32

    The format of the device tensors: 24 bits of precision, exponents up
    to 128, rounding to nearest even, as [SpecFloat] specifies it on
    integers.  It covers the arithmetic and the comparisons; the
    exponential, the logarithm and the sigmoid have no specification to
    take. *)

Definition binary32 : Type := spec_float.

Definition b32_of_Z (z : Z) : binary32 := binary_normalize 24 128 z 0%Z false.

Definition b32_isnan (a : binary32) : bool :=
  match a with
  | S754_nan => true
  | _ => false
  end.

Definition b32_max (a b : binary32) : binary32 :=
  if b32_isnan a then a
  else if b32_isnan b then b
  else if SFltb a b then b else a.

#[global] Instance binary32_Scalar : Scalar binary32 := {|
  fzero := S754_zero false;
  fone := b32_of_Z 1%Z;
  fconst q := SFdiv 24 128 (b32_of_Z (Qnum q)) (b32_of_Z (Zpos (Qden q)));
  fadd := SFadd 24 128;
  fmul := SFmul 24 128;
  fdiv := SFdiv 24 128;
  fsqrt := SFsqrt 24 128;
  fsum := foldl (SFadd 24 128) (S754_zero false);
  fmax := b32_max;
  fle := SFleb;
  flt := SFltb;
  fisnan := b32_isnan;
|}.

(** The number that a value of binary32 stands for; an infinity and a NaN
    stand for none. *)
Definition b32_value (a : binary32) : option Q :=
  match a with
  | S754_zero _ => Some 0%Q
  | S754_finite s m e => Some (inject_Z (cond_Zopp s (Zpos m)) * 2 ^ e)%Q
  | _ => None
  end.

Definition b32_column (l : list Z) : list (list binary32) :=
  map (fun z => [b32_of_Z z]) l.

(** A model fresh from the constructor, with statistics of three
    primitives written in. *)
Definition b32_statistics : GaussianModel binary32 :=
  {| _active_sh_degree := 0;
     _max_sh_degree := 0;
     _spatial_lr_scale := b32_of_Z 1%Z;
     _percent_dense := fconst (1 # 100);
     _xyz := mkTensor 0 [] None;
     _features_dc := mkTensor 1 [] None;
     _features_rest := mkTensor 2 [] None;
     _scaling := mkTensor 3 [] None;
     _rotation := mkTensor 4 [] None;
     _opacity := mkTensor 5 [] None;
     _max_radii2D := mkTensor 6 [] None;
     _xyz_gradient_accum := mkTensor 7 (b32_column [3; 4; 0]%Z) None;
     _denom := mkTensor 8 (b32_column [1; 1; 0]%Z) None;
     _optimizer := None;
     next_impl := 9 |}.

Definition b32_viewspace : Tensor binary32 :=
  mkTensor 9 []
    (Some [[b32_of_Z 3%Z; b32_of_Z 4%Z; b32_of_Z 9%Z];
           [b32_of_Z 1%Z; b32_of_Z 1%Z; b32_of_Z 1%Z];
           [b32_of_Z 0%Z; b32_of_Z 0%Z; b32_of_Z 0%Z]]).


(** ** The rest of the model's interface

    The members of [GaussianModel] that the structural mutations do not
    call: [One_up_sh_degree], [Get_features], [Create_from_pcd],
    [Training_setup], [Update_learning_rate] and [Get_covariance]. *)

(** The range of an [int]. *)
Definition INT_MAX : Z := 2147483647.
Definition INT_MIN : Z := -2147483648.

Definition int_range (z : Z) : Prop := (INT_MIN <= z <= INT_MAX)%Z.

(** [n] calls in a row. *)
Fixpoint times {S} (n : nat) (c : M S unit) : M S unit :=
  match n with
  | O => ret tt
  | S k => c ;; times k c
  end.

(** The six optimizable members in the order of [mapping], and the
    position of each one's parameter group. *)
Definition members : list member :=
  [m_xyz; m_features_dc; m_features_rest; m_scaling; m_rotation; m_opacity].

Definition position (f : member) : nat :=
  match f with
  | m_xyz => 0
  | m_features_dc => 1
  | m_features_rest => 2
  | m_scaling => 3
  | m_rotation => 4
  | m_opacity => 5
  end.

Section Interface.
Context {F : Type}.
Implicit Types m : GaussianModel F.

Definition set_active_sh_degree (d : Z) m : GaussianModel F :=
  mkGaussianModel d (_max_sh_degree m)
    (_spatial_lr_scale m) (_percent_dense m)
    (_xyz m) (_features_dc m) (_features_rest m)
    (_scaling m) (_rotation m) (_opacity m)
    (_max_radii2D m) (_xyz_gradient_accum m) (_denom m)
    (_optimizer m) (next_impl m).

Definition set_spatial_lr_scale (s : F) m : GaussianModel F :=
  mkGaussianModel (_active_sh_degree m) (_max_sh_degree m)
    s (_percent_dense m)
    (_xyz m) (_features_dc m) (_features_rest m)
    (_scaling m) (_rotation m) (_opacity m)
    (_max_radii2D m) (_xyz_gradient_accum m) (_denom m)
    (_optimizer m) (next_impl m).

Definition set_percent_dense (p : F) m : GaussianModel F :=
  mkGaussianModel (_active_sh_degree m) (_max_sh_degree m)
    (_spatial_lr_scale m) p
    (_xyz m) (_features_dc m) (_features_rest m)
    (_scaling m) (_rotation m) (_opacity m)
    (_max_radii2D m) (_xyz_gradient_accum m) (_denom m)
    (_optimizer m) (next_impl m).

(** *** The degree of the spherical harmonics *)

(** [_active_sh_degree++] is on an [int], whose overflow is undefined. *)
Definition One_up_sh_degree : M (GaussianModel F) unit :=
  m <- get ;;
  if (_active_sh_degree m <? _max_sh_degree m)%Z
  then
    if (_active_sh_degree m + 1 <=? INT_MAX)%Z
    then modify (set_active_sh_degree (_active_sh_degree m + 1))
    else throw undefined_behaviour
  else ret tt.

(** *** Features *)

(** [torch::cat({a, b}, 1)] on flattened rows: the tensors need as many
    rows, and the row of the result is the row of [a] followed by the row
    of [b].  The source raises on tensors without dimension 1, as the
    constructor leaves them; the theorems about [Get_features] take a
    model with a row. *)
Definition cat_dim1 (a b : list (list F)) : option (list (list F)) :=
  if Nat.eqb (length a) (length b) then Some (zip_with app a b) else None.

Definition Get_features m : option (list (list F)) :=
  let features_dc := _features_dc m in
  let features_rest := _features_rest m in
  cat_dim1 (rows features_dc) (rows features_rest).

(** *** The binding of the optimizer *)

(** The optimizer holds one group per optimizable member, in the order of
    [mapping], and the single parameter of a group is the handle that the
    member holds. *)
Definition bound m : Prop :=
  exists opt,
    _optimizer m = Some opt
    /\ param_groups opt = map (fun f => [get_member f m]) members.

(** Every key of the optimizer state is the [impl] of a tensor made
    before now: it is below [next_impl]. *)
Definition allocated m : Prop :=
  forall opt k, _optimizer m = Some opt -> is_Some (state opt !! k) ->
    k < next_impl m.

Context `{!Scalar F} `{!Transcendental F} `{!Helpers F}.

(** *** Initialisation from a point cloud *)

(** Modelled from the spec: [PointCloud] is declared in a header that is
    not among the files at hand; the spec gives a position and an RGB
    colour per point.  [Create_from_pcd] reads three floats per point and
    three bytes per colour. *)
Record PointCloud := mkPointCloud {
  _points : list (F * F * F);
  _colors : list (Byte.byte * Byte.byte * Byte.byte);
}.

(** [RGB2SH] and [distCUDA2] are declared outside the files at hand.
    Modelled from the spec: [RGB2SH] converts every colour value by one
    fixed transform; [distCUDA2] gives a vector with the squared distance
    of a point to its nearest neighbours. *)
Variable RGB2SH : F -> F.
Variable distCUDA2 : list (list F) -> list F.

(** The conversion of an unsigned byte to the element type. *)
Definition of_byte (b : Byte.byte) : F :=
  fconst (inject_Z (Z.of_N (Byte.to_N b))).

(** The size of the last dimension of [features] is the square of
    [_max_sh_degree + 1], an [int] sum, computed by [std::pow]; it is exact
    wherever a tensor of that size can exist.  [features] is a tensor of
    zeros whose coefficient 0 receives the colours; the selection at index
    0 raises when there is no coefficient.  The second [index_put_] selects
    from row 3 of a dimension of size 3 and writes nothing. *)
Definition Create_from_pcd (pcd : PointCloud) (spatial_lr_scale : F)
  : M (GaussianModel F) unit :=
  modify (set_spatial_lr_scale spatial_lr_scale) ;;
  let fused_point_cloud := map (fun p => [p.1.1; p.1.2; p.2]) (_points pcd) in
  let fused_color :=
    map (fun c => map (fun b => RGB2SH (fdiv (of_byte b) (fconst 255)))
                      [c.1.1; c.1.2; c.2]) (_colors pcd) in
  m <- get ;;
  if negb (_max_sh_degree m + 1 <=? INT_MAX)%Z then throw undefined_behaviour
  else
    let coefficients := Z.to_nat ((_max_sh_degree m + 1) ^ 2) in
    if Nat.eqb coefficients 0 then throw c10_error
    else
      let dist2 :=
        map (fun d => fmax d (fconst (1 # 10000000)))
            (distCUDA2 fused_point_cloud) in
      let scales := map (fun d => replicate 3 (torch_log (fsqrt d))) dist2 in
      let rots := map (fun _ => [fone; fzero; fzero; fzero]) fused_point_cloud in
      let opacities :=
        map (fun _ => [inverse_sigmoid (fmul (fconst (1 # 2)) fone)])
            fused_point_cloud in
      t <- new_tensor fused_point_cloud ;;
      modify (set_xyz t) ;;
      t <- new_tensor fused_color ;;
      modify (set_features_dc t) ;;
      t <- new_tensor
             (map (fun _ => replicate (3 * (coefficients - 1)) fzero) fused_color) ;;
      modify (set_features_rest t) ;;
      t <- new_tensor scales ;;
      modify (set_scaling t) ;;
      t <- new_tensor rots ;;
      modify (set_rotation t) ;;
      t <- new_tensor opacities ;;
      modify (set_opacity t) ;;
      xyz <- gets _xyz ;;
      t <- new_tensor (zeros (length (rows xyz))) ;;
      modify (set_max_radii2D t).

(** *** Training setup *)

(** [torch::optim::AdamOptions], as far as the source sets it. *)
Record AdamOptions := mkAdamOptions {
  lr : F;
  eps : F;
}.

(** [AdamOptions(lr)]: the epsilon is the default of libtorch. *)
Definition AdamOptions_of (rate : F) : AdamOptions :=
  mkAdamOptions rate (fconst (1 # 100000000)).

Definition set_lr (rate : F) (o : AdamOptions) : AdamOptions :=
  mkAdamOptions rate (eps o).

Definition set_eps (e : F) (o : AdamOptions) : AdamOptions :=
  mkAdamOptions (lr o) e.

(** Modelled from the spec: [OptimizationParameters] is declared in a
    header that is not among the files at hand; the spec lists it as
    external configuration, values only. *)
Record OptimizationParameters := mkOptimizationParameters {
  percent_dense : F;
  position_lr_init : F;
  position_lr_final : F;
  position_lr_delay_mult : F;
  position_lr_max_steps : F;
  feature_lr : F;
  scaling_lr : F;
  rotation_lr : F;
  opacity_lr : F;
}.

(** [torch::optim::OptimizerParamGroup]: the parameters and the options. *)
Record OptimizerParamGroup := mkOptimizerParamGroup {
  params : list (Tensor F);
  options : AdamOptions;
}.

(** The model together with the members that only the setup and the
    schedule touch: the arguments that [_xyz_scheduler_args] was
    constructed with, the vector [_optimizer_params_groups], and the
    options of the groups of [*_optimizer], which [Adam] copies from that
    vector when it is constructed. *)
Record Training := mkTraining {
  gaussians : GaussianModel F;
  _xyz_scheduler_args : list F;
  _optimizer_params_groups : list OptimizerParamGroup;
  optimizer_options : list AdamOptions;
}.

Definition set_gaussians (g : GaussianModel F) (t : Training) : Training :=
  mkTraining g (_xyz_scheduler_args t) (_optimizer_params_groups t)
    (optimizer_options t).

Definition set_xyz_scheduler_args (a : list F) (t : Training) : Training :=
  mkTraining (gaussians t) a (_optimizer_params_groups t) (optimizer_options t).

Definition set_optimizer_params_groups (g : list OptimizerParamGroup)
    (t : Training) : Training :=
  mkTraining (gaussians t) (_xyz_scheduler_args t) g (optimizer_options t).

Definition set_optimizer_options (o : list AdamOptions) (t : Training)
  : Training :=
  mkTraining (gaussians t) (_xyz_scheduler_args t) (_optimizer_params_groups t) o.

(** A call on the model as a call on the whole. *)
Definition on_gaussians {A} (c : M (GaussianModel F) A) : M Training A :=
  fun t =>
    match c (gaussians t) with
    | (o, g) => (o, set_gaussians g t)
    end.

(** [_optimizer_params_groups.push_back(OptimizerParamGroup({p}, AdamOptions(rate)))]. *)
Definition push_group (p : Tensor F) (rate : F) : M Training unit :=
  modify (fun t =>
    set_optimizer_params_groups
      (_optimizer_params_groups t
         ++ [mkOptimizerParamGroup [p] (AdamOptions_of rate)]) t).

(** [_optimizer_params_groups[i].options().eps(e)]. *)
Definition group_eps (i : nat) (e : F) : M Training unit :=
  t <- get ;;
  group <- defined (_optimizer_params_groups t !! i) ;;
  modify (set_optimizer_params_groups
            (<[i := mkOptimizerParamGroup (params group) (set_eps e (options group))]>
               (_optimizer_params_groups t))).

(** [set_requires_grad(true)] changes neither the handle nor its
    gradient, and is left out.  The new [Adam] takes a copy of every group
    of [_optimizer_params_groups]; its state is empty. *)
Definition Training_setup (parameters : OptimizationParameters) : M Training unit :=
  on_gaussians (modify (set_percent_dense (percent_dense parameters))) ;;
  on_gaussians (xyz <- gets _xyz ;;
                t <- new_tensor (zeros (length (rows xyz))) ;;
                modify (set_xyz_gradient_accum t)) ;;
  on_gaussians (xyz <- gets _xyz ;;
                t <- new_tensor (zeros (length (rows xyz))) ;;
                modify (set_denom t)) ;;
  scale <- gets (fun t => _spatial_lr_scale (gaussians t)) ;;
  modify (set_xyz_scheduler_args
            [fmul (position_lr_init parameters) scale;
             fmul (position_lr_final parameters) scale;
             position_lr_delay_mult parameters;
             position_lr_max_steps parameters]) ;;
  g <- gets gaussians ;;
  push_group (_xyz g) (fmul (position_lr_init parameters) (_spatial_lr_scale g)) ;;
  push_group (_features_dc g) (feature_lr parameters) ;;
  push_group (_features_rest g) (fdiv (feature_lr parameters) (fconst 20)) ;;
  push_group (_scaling g) (fmul (scaling_lr parameters) (_spatial_lr_scale g)) ;;
  push_group (_rotation g) (rotation_lr parameters) ;;
  push_group (_opacity g) (opacity_lr parameters) ;;
  group_eps 0 (fconst (1 # 1000000000000000)) ;;
  group_eps 1 (fconst (1 # 1000000000000000)) ;;
  group_eps 2 (fconst (1 # 1000000000000000)) ;;
  group_eps 3 (fconst (1 # 1000000000000000)) ;;
  group_eps 4 (fconst (1 # 1000000000000000)) ;;
  group_eps 5 (fconst (1 # 1000000000000000)) ;;
  groups <- gets _optimizer_params_groups ;;
  on_gaussians (modify (set_optimizer (Some (mkAdam (map params groups) ∅)))) ;;
  modify (set_optimizer_options (map options groups)).

(** The call operator of [Expon_lr_func], declared outside the files at
    hand, on the arguments of its constructor and the iteration. *)
Variable Expon_lr_func : list F -> F -> F.

Definition Update_learning_rate (iteration : F) : M Training unit :=
  t <- get ;;
  let rate := Expon_lr_func (_xyz_scheduler_args t) iteration in
  opt <- defined (_optimizer (gaussians t)) ;;
  defined (param_groups opt !! 0) ;;
  o <- defined (optimizer_options t !! 0) ;;
  modify (set_optimizer_options (<[0 := set_lr rate o]> (optimizer_options t))).

End Interface.

Arguments PointCloud : clear implicits.
Arguments AdamOptions : clear implicits.
Arguments OptimizationParameters : clear implicits.
Arguments OptimizerParamGroup : clear implicits.
Arguments Training : clear implicits.

(** *** The covariance

    [Get_covariance] passes the result [L] of [build_scaling_rotation],
    which is declared outside the files at hand, through
    [L.transpose(1, 2)] and [torch::mm]; what these accept depends on the
    sizes of [L] alone. *)

(** The sizes of [t.transpose(d0, d1)]: both dimensions have to exist. *)
Definition transpose_sizes (d0 d1 : nat) (sizes : list nat) : option (list nat) :=
  match sizes !! d0, sizes !! d1 with
  | Some s0, Some s1 => Some (<[d0 := s1]> (<[d1 := s0]> sizes))
  | _, _ => None
  end.

(** The sizes of [torch::mm(a, b)]: both are matrices, and the columns of
    [a] are as many as the rows of [b]. *)
Definition mm_sizes (a b : list nat) : option (list nat) :=
  match a, b with
  | [n; k], [k'; p] => if Nat.eqb k k' then Some [n; p] else None
  | _, _ => None
  end.

(** [Get_covariance] on the sizes of [L]; [strip_symmetric], declared
    outside the files at hand, is a parameter. *)
Definition Get_covariance_sizes (strip_symmetric : list nat -> outcome (list nat))
    (L : list nat) : outcome (list nat) :=
  match transpose_sizes 1 2 L with
  | None => Throws c10_error
  | Some transposed =>
      match mm_sizes L transposed with
      | None => Throws c10_error
      | Some actual_covariance => strip_symmetric actual_covariance
      end
  end.

(** ** Camera utilities

    [getProjectionMatrix] and [rotmat2qvec] of [src/utils.cu], on doubles
    as [SpecFloat] specifies them: 53 bits of precision, exponents up to
    1024, rounding to nearest even.  The inversions of [getWorld2View2]
    and the conversions of [qvec2rotmat] belong to Eigen, and the focal
    length and the field of view go through [std::tan] and [std::atan];
    the source fixes the rounding of none of them. *)

Definition binary64 : Type := spec_float.

Definition b64_of_Z (z : Z) : binary64 := binary_normalize 53 1024 z 0%Z false.

Definition b64_isnan (a : binary64) : bool :=
  match a with
  | S754_nan => true
  | _ => false
  end.

Definition b64_iszero (a : binary64) : bool :=
  match a with
  | S754_zero _ => true
  | _ => false
  end.

Definition b64_isinf (a : binary64) : bool :=
  match a with
  | S754_infinity _ => true
  | _ => false
  end.

(** An [Eigen::Matrix4d] is the function from a row and a column to the
    coefficient. *)
Definition Matrix4d : Type := nat -> nat -> binary64.

(** [M(i, j)], [Matrix4d::Zero()] and [M(r, c) = v]. *)
Definition coeff (M : Matrix4d) (i j : nat) : binary64 := M i j.

Definition Zero : Matrix4d := fun _ _ => S754_zero false.

Definition set_coeff (M : Matrix4d) (r c : nat) (v : binary64) : Matrix4d :=
  fun i j => if (i =? r) && (j =? c) then v else M i j.

(** [std::tan] belongs to the C library and is a parameter. *)
Definition getProjectionMatrix (tan : binary64 -> binary64)
    (znear zfar fovX fovY : binary64) : Matrix4d :=
  let add := SFadd 53 1024 in
  let sub := SFsub 53 1024 in
  let mul := SFmul 53 1024 in
  let div := SFdiv 53 1024 in
  let tanHalfFovY := tan (div fovY (b64_of_Z 2)) in
  let tanHalfFovX := tan (div fovX (b64_of_Z 2)) in
  let top := mul tanHalfFovY znear in
  let bottom := SFopp top in
  let right := mul tanHalfFovX znear in
  let left := SFopp right in
  let P := Zero in
  let z_sign := b64_of_Z 1 in
  let P := set_coeff P 0 0 (div (mul (b64_of_Z 2) znear) (sub right left)) in
  let P := set_coeff P 1 1 (div (mul (b64_of_Z 2) znear) (sub top bottom)) in
  let P := set_coeff P 0 2 (div (add right left) (sub right left)) in
  let P := set_coeff P 1 2 (div (add top bottom) (sub top bottom)) in
  let P := set_coeff P 3 2 z_sign in
  let P := set_coeff P 2 2 (div (mul z_sign zfar) (sub zfar znear)) in
  let P := set_coeff P 2 3 (div (SFopp (mul zfar znear)) (sub zfar znear)) in
  P.

(** *** The sign of a quaternion

    The constructor of [Eigen::Quaterniond] from a matrix belongs to Eigen
    and is a parameter. *)

(** The coefficients of an [Eigen::Quaterniond], in the order of
    [coeffs()]. *)
Record Quaterniond := mkQuaterniond {
  qx : binary64;
  qy : binary64;
  qz : binary64;
  qw : binary64;
}.

Definition rotmat2qvec {Matrix3d : Type}
    (Quaterniond_of_matrix : Matrix3d -> Quaterniond) (Rot : Matrix3d)
  : Quaterniond :=
  let qvec := Quaterniond_of_matrix Rot in
  if SFltb (qw qvec) (b64_of_Z 0)
  then
    let negate c := SFmul 53 1024 c (b64_of_Z (-1)) in
    mkQuaterniond (negate (qx qvec)) (negate (qy qvec))
                  (negate (qz qvec)) (negate (qw qvec))
  else qvec.

(** ** Models for the runs of the interface *)

(** Three primitives in binary32 after [Training_setup], one backward
    pass and one step of the optimizer. *)
Definition b32_tensor (i : nat) (data : list (list Z)) : Tensor binary32 :=
  mkTensor i (map (map b32_of_Z) data)
    (Some (map (map (fun _ => b32_of_Z 0%Z)) data)).

Definition b32_moments (data : list (list Z)) : AdamParamState binary32 :=
  mkAdamParamState 1 (map (map (fun _ => b32_of_Z 1%Z)) data)
                     (map (map (fun _ => b32_of_Z 1%Z)) data).

Definition b32_xyz : list (list Z) := [[0; 0; 0]; [1; 0; 0]; [0; 1; 0]]%Z.
Definition b32_features_dc : list (list Z) := [[1; 1; 1]; [2; 2; 2]; [3; 3; 3]]%Z.
Definition b32_features_rest : list (list Z) := [[]; []; []].
Definition b32_scaling : list (list Z) := [[0; 0; 0]; [0; 0; 0]; [0; 0; 0]]%Z.
Definition b32_rotation : list (list Z) :=
  [[1; 0; 0; 0]; [1; 0; 0; 0]; [1; 0; 0; 0]]%Z.
Definition b32_opacity : list (list Z) := [[5]; [6]; [7]]%Z.

Definition b32_optimizer : Adam binary32 :=
  mkAdam
    [[b32_tensor 0 b32_xyz]; [b32_tensor 1 b32_features_dc];
     [b32_tensor 2 b32_features_rest]; [b32_tensor 3 b32_scaling];
     [b32_tensor 4 b32_rotation]; [b32_tensor 5 b32_opacity]]
    (<[0 := b32_moments b32_xyz]>
     (<[1 := b32_moments b32_features_dc]>
      (<[2 := b32_moments b32_features_rest]>
       (<[3 := b32_moments b32_scaling]>
        (<[4 := b32_moments b32_rotation]>
         (<[5 := b32_moments b32_opacity]> ∅)))))).

Definition b32_three (sh_degree : Z) : GaussianModel binary32 :=
  {| _active_sh_degree := 0;
     _max_sh_degree := sh_degree;
     _spatial_lr_scale := b32_of_Z 1%Z;
     _percent_dense := fconst (1 # 100);
     _xyz := b32_tensor 0 b32_xyz;
     _features_dc := b32_tensor 1 b32_features_dc;
     _features_rest := b32_tensor 2 b32_features_rest;
     _scaling := b32_tensor 3 b32_scaling;
     _rotation := b32_tensor 4 b32_rotation;
     _opacity := b32_tensor 5 b32_opacity;
     _max_radii2D := mkTensor 6 (b32_column [0; 0; 0]%Z) None;
     _xyz_gradient_accum := mkTensor 7 (b32_column [3; 4; 0]%Z) None;
     _denom := mkTensor 8 (b32_column [1; 1; 0]%Z) None;
     _optimizer := Some b32_optimizer;
     next_impl := 9 |}.

(** The three primitives in real arithmetic before the first step of the
    optimizer: the state is empty. *)
Definition three_before_step : GaussianModel xreal :=
  set_optimizer (Some (mkAdam (param_groups three_optimizer) ∅)) three_primitives.

(** The three primitives with statistics that are zero, as after a
    densification. *)
Definition three_zero_statistics : GaussianModel xreal :=
  set_denom (mkTensor 8 (zeros 3) None)
    (set_xyz_gradient_accum (mkTensor 7 (zeros 3) None) three_primitives).

(** A cloud without points. *)
Definition no_points : PointCloud xreal := mkPointCloud [] [].

(** A cloud of three white points, a distance of one everywhere and the
    identity for the colour transform. *)
Definition three_points : PointCloud xreal :=
  mkPointCloud
    [(XReal 0, XReal 0, XReal 0); (XReal 1, XReal 0, XReal 0);
     (XReal 0, XReal 1, XReal 0)]
    [(Byte.xff, Byte.xff, Byte.xff); (Byte.xff, Byte.xff, Byte.xff);
     (Byte.xff, Byte.xff, Byte.xff)].

Definition unit_distances (points : list (list xreal)) : list xreal :=
  map (fun _ => XReal 1) points.

Definition three_before_setup : Training xreal :=
  mkTraining (set_optimizer None three_primitives) [XReal 0; XReal 1] [] [].

Definition xparameters : OptimizationParameters xreal :=
  {| percent_dense := XReal (Q2R (1 # 100));
     position_lr_init := XReal (Q2R (16 # 100000));
     position_lr_final := XReal (Q2R (16 # 10000000));
     position_lr_delay_mult := XReal (Q2R (1 # 100));
     position_lr_max_steps := XReal 30000;
     feature_lr := XReal (Q2R (25 # 10000));
     scaling_lr := XReal (Q2R (5 # 1000));
     rotation_lr := XReal (Q2R (1 # 1000));
     opacity_lr := XReal (Q2R (5 # 100)) |}.

(** Doubles for a run: fields of view of one radian, planes at 1 and 100,
    and the identity in the place of the tangent. *)
Definition b64_example : Matrix4d :=
  getProjectionMatrix (fun x => x)
    (b64_of_Z 1) (b64_of_Z 100) (b64_of_Z 1) (b64_of_Z 1).

(** * Properties *)

(** ** Runs of a call *)

Section RunLemmas.
Context {S A B : Type}.

Lemma bind_Returns (c : M S A) (k : A -> M S B) s b s' :
  bind c k s = (Returns b, s') ->
  exists a s1, c s = (Returns a, s1) /\ k a s1 = (Returns b, s').
Proof.
  unfold bind. destruct (c s) as [[a|e] s1]; intros Hk.
  - exists a, s1. split; [reflexivity | exact Hk].
  - discriminate.
Qed.

Lemma bind_run (c : M S A) (k : A -> M S B) s a s1 :
  c s = (Returns a, s1) -> bind c k s = k a s1.
Proof. unfold bind. intros ->. reflexivity. Qed.

Lemma bind_throw (c : M S A) (k : A -> M S B) s e s1 :
  c s = (Throws e, s1) -> bind c k s = (Throws e, s1).
Proof. unfold bind. intros ->. reflexivity. Qed.

Lemma bind_ret (a : A) (k : A -> M S B) s : bind (ret a) k s = k a s.
Proof. reflexivity. Qed.

Lemma bind_get (k : S -> M S B) s : bind get k s = k s s.
Proof. reflexivity. Qed.

Lemma bind_gets (f : S -> A) (k : A -> M S B) s : bind (gets f) k s = k (f s) s.
Proof. reflexivity. Qed.

Lemma bind_modify (f : S -> S) (k : unit -> M S B) s :
  bind (modify f) k s = k tt (f s).
Proof. reflexivity. Qed.

Lemma bind_torch_try (a : A) (k : A -> M S B) s :
  bind (torch_try (Some a)) k s = k a s.
Proof. reflexivity. Qed.

Lemma bind_defined (a : A) (k : A -> M S B) s :
  bind (defined (Some a)) k s = k a s.
Proof. reflexivity. Qed.

Lemma torch_try_Returns (o : option A) (s s' : S) a :
  torch_try o s = (Returns a, s') -> o = Some a /\ s' = s.
Proof. destruct o; cbn; intros [= ]; subst; auto. Qed.

Lemma defined_Returns (o : option A) (s s' : S) a :
  defined o s = (Returns a, s') -> o = Some a /\ s' = s.
Proof. destruct o; cbn; intros [= ]; subst; auto. Qed.

End RunLemmas.

(** One step of a call whose outcome is known. *)
Ltac run_step :=
  first [ rewrite bind_get | rewrite bind_gets | rewrite bind_ret
        | rewrite bind_modify | rewrite bind_torch_try | rewrite bind_defined ];
  cbv beta.

(** Projections of an updated model. *)
Tactic Notation "simpl_model" :=
  cbn [set_member set_xyz set_features_dc set_features_rest set_scaling
        set_rotation set_opacity set_optimizer set_next_impl set_denom
        set_xyz_gradient_accum set_max_radii2D get_member
        _active_sh_degree _max_sh_degree _spatial_lr_scale _percent_dense
        _xyz _features_dc _features_rest _scaling _rotation _opacity
        _max_radii2D _xyz_gradient_accum _denom _optimizer next_impl
        impl rows grad param_groups state step exp_avg exp_avg_sq].

Tactic Notation "simpl_model" "in" hyp(H) :=
  cbn [set_member set_xyz set_features_dc set_features_rest set_scaling
        set_rotation set_opacity set_optimizer set_next_impl set_denom
        set_xyz_gradient_accum set_max_radii2D get_member
        _active_sh_degree _max_sh_degree _spatial_lr_scale _percent_dense
        _xyz _features_dc _features_rest _scaling _rotation _opacity
        _max_radii2D _xyz_gradient_accum _denom _optimizer next_impl
        impl rows grad param_groups state step exp_avg exp_avg_sq] in H.

Section Proofs.
Context {F : Type} `{!Scalar F} `{!Transcendental F} `{!Helpers F}.
Implicit Types m : GaussianModel F.

(** C8: for every file name and every model, [Save_as_ply] throws the
    runtime error "Not implemented" and leaves the model as it was; no
    call returns. *)
Theorem Save_as_ply_not_implemented (filename : string) m :
  Save_as_ply filename m = (Throws (runtime_error "Not implemented"), m).
Proof. reflexivity. Qed.

Lemma set_group_param_Returns pos t m m' :
  set_group_param pos t m = (Returns tt, m') ->
  exists opt head others,
    _optimizer m = Some opt
    /\ param_groups opt !! pos = Some (head :: others)
    /\ m' = set_optimizer
              (Some (mkAdam (<[pos := t :: others]> (param_groups opt)) (state opt))) m.
Proof.
  unfold set_group_param. intros Hrun.
  apply bind_Returns in Hrun as (m0 & s0 & [= <- <-] & Hrun).
  apply bind_Returns in Hrun as (opt & s1 & Hopt & Hrun).
  apply defined_Returns in Hopt as [Hopt ->].
  apply bind_Returns in Hrun as (group & s2 & Hgroup & Hrun).
  apply defined_Returns in Hgroup as [Hgroup ->].
  destruct group as [|head others]; [discriminate|].
  injection Hrun as <-. exists opt, head, others. auto.
Qed.


Lemma reset_check_groups_throws groups : forall i m,
  i + length groups <= 6 ->
  Exists faulty_group groups ->
  exists what, reset_check_groups i groups m = (Throws (runtime_error what), m).
Proof.
  induction groups as [|g rest IH]; intros i m Hlen Hex.
  - inversion Hex.
  - cbn in Hlen. cbn [reset_check_groups].
    assert (Hi : i < length mapping) by (cbn; lia).
    destruct (lookup_lt_is_Some_2 _ _ Hi) as [name Hname].
    rewrite (bind_run _ _ m name m) by (rewrite Hname; reflexivity).
    destruct (Nat.eqb (length g) 1) eqn:Hg; cbn [negb].
    + apply Nat.eqb_eq in Hg.
      destruct g as [|p [|]]; try discriminate. cbn.
      destruct (grad p) eqn:Hp.
      * apply IH; [lia|].
        inversion Hex as [? ? Hf|]; subst; [|assumption].
        destruct Hf as [Hf | (q & [= <-] & Hq)]; [cbn in Hf; lia | congruence].
      * eexists. unfold bind. cbn. reflexivity.
    + eexists. reflexivity.
Qed.

(** C9: with six parameter groups, if some group does not hold exactly
    one parameter, or the parameter of some group has no gradient, then
    [Reset_opacity] throws a runtime error and the whole model, the
    opacity tensor and the Adam moments included, is the one before the
    call. *)
Theorem Reset_opacity_rejects m opt :
  _optimizer m = Some opt ->
  length (param_groups opt) = 6 ->
  Exists faulty_group (param_groups opt) ->
  exists what, Reset_opacity m = (Throws (runtime_error what), m).
Proof.
  intros Hopt Hlen Hex. unfold Reset_opacity.
  rewrite (bind_run _ _ m m m) by reflexivity.
  rewrite (bind_run _ _ m opt m) by (rewrite Hopt; reflexivity).
  destruct (reset_check_groups_throws (param_groups opt) 0 m) as [what Hthrow];
    [lia | assumption |].
  exists what. apply bind_throw. exact Hthrow.
Qed.

Lemma reset_check_groups_Returns groups : forall i m m',
  reset_check_groups i groups m = (Returns tt, m') ->
  Forall (fun group => exists p, group = [p] /\ is_Some (grad p)) groups.
Proof.
  induction groups as [|g rest IH]; intros i m m' Hrun; [constructor|].
  cbn [reset_check_groups] in Hrun.
  apply bind_Returns in Hrun as (name & s1 & Hname & Hrun).
  apply defined_Returns in Hname as [_ ->].
  destruct (Nat.eqb (length g) 1) eqn:Hg; cbn [negb] in Hrun; [|discriminate].
  apply Nat.eqb_eq in Hg. destruct g as [|p [|]]; try discriminate.
  cbn in Hrun. destruct (grad p) eqn:Hp; [|discriminate].
  constructor; [|eapply IH; exact Hrun].
  exists p. rewrite Hp. split; [reflexivity | eexists; reflexivity].
Qed.

End Proofs.

(** ** Masks and gathers *)

Section ListLemmas.
Context {A : Type}.
Implicit Types (t : list A) (mask : list bool).

Lemma nonzero_from_S mask : forall i,
  nonzero_from (S i) mask = map S (nonzero_from i mask).
Proof.
  induction mask as [|b mask IH]; intros i; cbn; [reflexivity|].
  rewrite map_app, IH. destruct b; reflexivity.
Qed.

Lemma index_select_cons_S x t idx :
  index_select (x :: t) (map S idx) = index_select t idx.
Proof.
  unfold index_select. induction idx as [|i idx IH]; cbn; [reflexivity|].
  rewrite IH. reflexivity.
Qed.

Lemma index_select_nonzero t : forall mask,
  length mask <= length t ->
  index_select t (nonzero mask) = Some (masked_select t mask).
Proof.
  unfold nonzero.
  induction t as [|x t IH]; intros [|b mask] Hlen; cbn in *; try reflexivity; try lia.
  rewrite nonzero_from_S.
  destruct b; cbn.
  - change (mapM (fun i => (x :: t) !! i) (map S (nonzero_from 0 mask)))
      with (index_select (x :: t) (map S (nonzero_from 0 mask))).
    rewrite index_select_cons_S, IH by lia. reflexivity.
  - change (mapM (fun i => (x :: t) !! i) (map S (nonzero_from 0 mask)))
      with (index_select (x :: t) (map S (nonzero_from 0 mask))).
    rewrite index_select_cons_S, IH by lia. reflexivity.
Qed.

Lemma count_true_cons b mask :
  count_true (b :: mask) = (if b then 1 else 0) + count_true mask.
Proof. unfold count_true. destruct b; reflexivity. Qed.

Lemma masked_select_length t : forall mask,
  length mask <= length t ->
  length (masked_select t mask) = count_true mask.
Proof.
  induction t as [|x t IH]; intros [|b mask] Hlen; cbn in *; try reflexivity; try lia.
  rewrite count_true_cons. destruct b; cbn; rewrite IH by lia; reflexivity.
Qed.

Lemma masked_select_lookup t : forall mask i,
  length mask <= length t ->
  mask !! i = Some true ->
  masked_select t mask !! count_true (take i mask) = t !! i.
Proof.
  induction t as [|x t IH]; intros [|b mask] i Hlen Hi; cbn in *;
    try discriminate; try lia.
  destruct i as [|i]; cbn in *.
  - injection Hi as ->. reflexivity.
  - rewrite count_true_cons. destruct b; cbn; apply IH; auto; lia.
Qed.

Lemma masked_put_lookup t : forall mask values i,
  length values = count_true mask ->
  masked_put t mask values !! i =
    match mask !! i with
    | Some true => if decide (i < length t)
                   then values !! count_true (take i mask) else None
    | _ => t !! i
    end.
Proof.
  induction t as [|x t IH]; intros mask values i Hlen.
  - assert (Hnil : masked_put [] mask values = []) by (destruct mask as [|[] ?]; reflexivity).
    rewrite Hnil, lookup_nil.
    destruct (mask !! i) as [[]|]; reflexivity.
  - destruct mask as [|b mask]; [cbn; rewrite lookup_nil; reflexivity|].
    rewrite count_true_cons in Hlen.
    destruct b; cbn [masked_put].
    + destruct values as [|v values]; [cbn in Hlen; lia|].
      cbn in Hlen. destruct i as [|i]; cbn; [reflexivity|].
      rewrite IH by lia. rewrite count_true_cons. cbn.
      destruct (mask !! i) as [[]|]; try reflexivity.
      destruct (decide (i < length t)), (decide (S i < S (length t)));
        try reflexivity; lia.
    + destruct i as [|i]; cbn; [reflexivity|].
      rewrite IH by (cbn in Hlen; lia). rewrite count_true_cons. cbn.
      destruct (mask !! i) as [[]|]; try reflexivity.
      destruct (decide (i < length t)), (decide (S i < S (length t)));
        try reflexivity; lia.
Qed.

Lemma masked_put_length t : forall mask (values : list A),
  length (masked_put t mask values) = length t.
Proof.
  induction t as [|x t IH]; intros mask values.
  - destruct mask as [|[] ?]; reflexivity.
  - destruct mask as [|[] mask]; cbn [masked_put]; [reflexivity| |].
    + destruct values as [|v values]; cbn; rewrite IH; reflexivity.
    + cbn. rewrite IH. reflexivity.
Qed.

End ListLemmas.

Section ListLemmas2.
Context {A B C : Type}.

Lemma broadcast2_column (f : A -> B -> C) (a : list A) (n : B) :
  broadcast2 f a [n] = Some (map (fun x => f x n) a).
Proof. destruct a as [|x [|y a]]; reflexivity. Qed.

Lemma tensor_op2_columns (f : A -> B -> C) (xs : list (list A)) : forall (ns : list B),
  length xs = length ns ->
  tensor_op2 f xs (map (fun n => [n]) ns) =
    Some (zip_with (fun a n => map (fun x => f x n) a) xs ns).
Proof.
  intros ns Hlen. unfold tensor_op2. unfold broadcast2 at 1.
  rewrite length_map, Hlen, Nat.eqb_refl.
  revert ns Hlen. induction xs as [|a xs IH]; intros [|n ns] Hlen; cbn in *;
    try reflexivity; try lia.
  rewrite broadcast2_column. cbn.
  rewrite IH by lia. reflexivity.
Qed.
End ListLemmas2.

Section Stats.
Context {F : Type} `{!Scalar F} `{!Transcendental F} `{!Helpers F}.
Implicit Types m : GaussianModel F.

(** C7: for a filter as long as the two statistics tensors and a defined
    view-space gradient with a row per primitive, [Add_densification_stats]
    returns.  Both statistics tensors keep their number of rows; where the
    filter is false both rows are the old ones; where it is true the
    accumulated gradient grows by the square root of the sum of the
    squares of the first two components of the primitive's gradient and
    the count grows by one; nothing else of the model changes. *)
Theorem Add_densification_stats_filtered (v : Tensor F) (update_filter : list bool)
    m (g : list (list F)) :
  grad v = Some g ->
  length update_filter = length (rows (_xyz_gradient_accum m)) ->
  length update_filter = length (rows (_denom m)) ->
  length update_filter <= length g ->
  exists m',
    Add_densification_stats v update_filter m = (Returns tt, m')
    /\ stats_frame m m'
    /\ length (rows (_xyz_gradient_accum m')) = length (rows (_xyz_gradient_accum m))
    /\ length (rows (_denom m')) = length (rows (_denom m))
    /\ (forall i, update_filter !! i = Some false ->
          rows (_xyz_gradient_accum m') !! i = rows (_xyz_gradient_accum m) !! i
          /\ rows (_denom m') !! i = rows (_denom m) !! i)
    /\ (forall i a d gi, update_filter !! i = Some true ->
          rows (_xyz_gradient_accum m) !! i = Some a ->
          rows (_denom m) !! i = Some d ->
          g !! i = Some gi ->
          rows (_xyz_gradient_accum m') !! i
            = Some (map (fun x =>
                           fadd x (fsqrt (fsum (map (fun c => fmul c c) (take 2 gi)))))
                        a)
          /\ rows (_denom m') !! i = Some (map (fun x => fadd x fone) d)).
Proof.
  intros Hg Hacc Hden Hgl.
  pose (accum := _xyz_gradient_accum m).
  set (vals := zip_with (fun a n => map (fun x => fadd x n) a)
                 (masked_select (rows accum) update_filter)
                 (map (fun r => norm [take 2 r]) (masked_select g update_filter))).
  set (vals2 := map (map (fun d => fadd d fone))
                 (masked_select (rows (_denom m)) update_filter)).
  assert (Hvals : length vals = count_true update_filter).
  { unfold vals, accum.
    rewrite length_zip_with, length_map, !masked_select_length by lia. lia. }
  assert (Hvals2 : length vals2 = count_true update_filter).
  { unfold vals2. rewrite length_map, masked_select_length by lia. reflexivity. }
  exists (set_denom
            (mkTensor (impl (_denom m))
               (masked_put (rows (_denom m)) update_filter vals2) (grad (_denom m)))
            (set_xyz_gradient_accum
               (mkTensor (impl accum)
                  (masked_put (rows accum) update_filter vals) (grad accum)) m)).
  split; [|split; [|split; [|split; [|split]]]].
  - unfold Add_densification_stats. run_step.
    rewrite index_select_nonzero by lia. run_step.
    rewrite Hg. run_step.
    rewrite index_select_nonzero by lia. run_step.
    rewrite <- (map_map (fun r => norm [take 2 r]) (fun n => [n])).
    rewrite tensor_op2_columns
      by (rewrite length_map, !masked_select_length by lia; reflexivity).
    run_step.
    change (zip_with _ _ _) with vals. unfold index_put_.
    rewrite (proj2 (Nat.eqb_eq _ _) Hacc), (proj2 (Nat.eqb_eq _ _) Hvals).
    cbn [andb].
    do 3 run_step. simpl_model.
    rewrite index_select_nonzero by lia. run_step.
    change (map _ (masked_select _ _)) with vals2. unfold index_put_.
    rewrite (proj2 (Nat.eqb_eq _ _) Hden), (proj2 (Nat.eqb_eq _ _) Hvals2).
    cbn [andb].
    run_step. reflexivity.
  - reflexivity.
  - simpl_model. apply masked_put_length.
  - simpl_model. apply masked_put_length.
  - intros i Hi. simpl_model.
    rewrite !masked_put_lookup, Hi by assumption. auto.
  - intros i a d gi Hi Ha Hd Hgi. simpl_model.
    rewrite !masked_put_lookup, Hi by assumption.
    assert (Hlt : i < length update_filter) by (eapply lookup_lt_Some; exact Hi).
    destruct (decide (i < length (rows accum))) as [_|Hn]; [|unfold accum in Hn; lia].
    destruct (decide (i < length (rows (_denom m)))) as [_|Hn]; [|lia].
    unfold vals, vals2. split.
    + rewrite lookup_zip_with, list_lookup_fmap.
      rewrite !masked_select_lookup by (unfold accum; auto; lia).
      unfold accum. rewrite Ha, Hgi. cbn [fmap option_fmap option_map mbind option_bind].
      unfold norm. cbn [concat]. rewrite app_nil_r. reflexivity.
    + rewrite list_lookup_fmap, masked_select_lookup by (auto; lia).
      rewrite Hd. reflexivity.
Qed.
End Stats.

Lemma broadcast2_same_length {A B C} (f : A -> B -> C) xs ys :
  length xs = length ys -> broadcast2 f xs ys = Some (zip_with f xs ys).
Proof. intros Hlen. unfold broadcast2. rewrite Hlen, Nat.eqb_refl. reflexivity. Qed.

Section ListLemmas3.
Context {A B C : Type}.

Lemma tensor_op2_same_shape (f : A -> B -> C) xs : forall ys,
  Forall2 (fun a b => length a = length b) xs ys ->
  tensor_op2 f xs ys = Some (zip_with (zip_with f) xs ys).
Proof.
  intros ys Hshape. unfold tensor_op2.
  rewrite broadcast2_same_length by (eapply Forall2_length; exact Hshape).
  induction Hshape as [|a b xs ys Hab _ IH]; cbn; [reflexivity|].
  rewrite broadcast2_same_length by exact Hab. cbn.
  rewrite IH. reflexivity.
Qed.

Lemma squeeze_column_lookup (t : list (list A)) v i x :
  squeeze_column t = Some v -> t !! i = Some [x] -> v !! i = Some x.
Proof.
  unfold squeeze_column. intros Hsq Hi.
  apply mapM_Some in Hsq.
  destruct (Forall2_lookup_l _ _ _ _ _ Hsq Hi) as (y & Hy & Hxy).
  cbn in Hxy. congruence.
Qed.

Lemma squeeze_column_length (t : list (list A)) v :
  squeeze_column t = Some v -> length v = length t.
Proof. unfold squeeze_column. intros Hsq. symmetry. eapply length_mapM, Hsq. Qed.

End ListLemmas3.

Section Split.
Context {F : Type} `{!Scalar F} `{!Transcendental F} `{!Helpers F}.
Implicit Types m : GaussianModel F.

Lemma padded_grad_Some n grads padded :
  padded_grad n grads = Some padded ->
  length padded = n
  /\ (forall i g, i < n -> grads !! i = Some [g] -> padded !! i = Some g)
  /\ (forall i, length grads <= i -> i < n -> padded !! i = Some fzero).
Proof.
  unfold padded_grad. destruct (squeeze_column grads) as [v|] eqn:Hsq; [|discriminate].
  pose proof (squeeze_column_length _ _ Hsq) as Hlen.
  destruct (Nat.leb (length v) n) eqn:Hle.
  - apply Nat.leb_le in Hle. intros [= <-]. split; [|split].
    + rewrite length_app, length_replicate. lia.
    + intros i g Hi Hg. rewrite lookup_app_l by (apply lookup_lt_Some in Hg; lia).
      eapply squeeze_column_lookup; eauto.
    + intros i Hge Hi. rewrite lookup_app_r by lia.
      apply lookup_replicate_2. lia.
  - apply Nat.leb_gt in Hle.
    destruct (Nat.eqb (length v) 1) eqn:H1; [|discriminate].
    apply Nat.eqb_eq in H1. intros [= <-]. split; [|split].
    + apply length_replicate.
    + intros i g Hi _. lia.
    + intros i _ Hi. apply lookup_replicate_2. exact Hi.
Qed.

(** C10: [densify_and_split] compares with the threshold a gradient
    vector padded with zeros up to the number of primitives; a primitive
    whose index is at or beyond the length of the incoming gradient
    vector has padded gradient zero, and it is selected only if the
    threshold is at most zero. *)
Theorem split_padding_selects (grads : list (list F)) (grad_threshold scene_extent : F)
    m mask m' :
  split_selected_mask grads grad_threshold scene_extent m = (Returns mask, m') ->
  length (rows (_scaling m)) = length (rows (_xyz m)) ->
  exists padded,
    padded_grad (length (rows (_xyz m))) grads = Some padded
    /\ length padded = length (rows (_xyz m))
    /\ length mask = length (rows (_xyz m))
    /\ (forall i, length grads <= i -> i < length (rows (_xyz m)) ->
          padded !! i = Some fzero)
    /\ (forall i, mask !! i = Some true ->
          exists g, padded !! i = Some g /\ fge g grad_threshold = true)
    /\ (forall i, length grads <= i -> mask !! i = Some true ->
          fle grad_threshold fzero = true).
Proof.
  intros Hrun Hrows. unfold split_selected_mask in Hrun.
  apply bind_Returns in Hrun as (m0 & s0 & [= <- <-] & Hrun).
  apply bind_Returns in Hrun as (padded & s1 & Hpad & Hrun).
  apply torch_try_Returns in Hpad as [Hpad ->].
  apply bind_Returns in Hrun as (maxs & s2 & Hmax & Hrun).
  apply torch_try_Returns in Hmax as [Hmax ->].
  apply torch_try_Returns in Hrun as [Hmask ->].
  destruct (padded_grad_Some _ _ _ Hpad) as (Hlen & Hlow & Hhigh).
  assert (Hmaxs : length maxs = length (rows (_xyz m))).
  { unfold max_dim1 in Hmax. apply length_mapM in Hmax.
    unfold Get_scaling in Hmax. rewrite length_map in Hmax. lia. }
  rewrite broadcast2_same_length in Hmask by (rewrite !length_map; lia).
  injection Hmask as <-.
  assert (Hsel : forall i, zip_with andb (map (fun g => fge g grad_threshold) padded)
                   (map (fun s => fgt s (fmul (_percent_dense m) scene_extent)) maxs)
                   !! i = Some true ->
                 exists g, padded !! i = Some g /\ fge g grad_threshold = true).
  { intros i Hi. rewrite lookup_zip_with, !list_lookup_fmap in Hi.
    destruct (padded !! i) as [g|]; [|discriminate]. cbn in Hi.
    destruct (maxs !! i) as [s|]; [|discriminate]. cbn in Hi.
    injection Hi as Hi. apply andb_true_iff in Hi as [Hg _]. eauto. }
  exists padded. split; [exact Hpad|]. split; [exact Hlen|]. split; [|split; [|split]].
  - rewrite length_zip_with, !length_map. lia.
  - exact Hhigh.
  - exact Hsel.
  - intros i Hge Hi. destruct (Hsel i Hi) as (g & Hg & Hthr).
    rewrite Hhigh in Hg by (auto; apply lookup_lt_Some in Hg; lia).
    injection Hg as <-. exact Hthr.
Qed.
End Split.

Section MeanGradient.
Context {F : Type} `{!Scalar F} `{!Transcendental F} `{!Helpers F}.
Variable randn : nat -> nat -> F.
Implicit Types m : GaussianModel F.

Lemma columns_same_shape (xs ys : list (list F)) :
  length xs = length ys ->
  Forall (fun r => length r = 1) xs ->
  Forall (fun r => length r = 1) ys ->
  Forall2 (fun a b => length a = length b) xs ys.
Proof.
  intros Hlen Hx Hy. apply Forall2_same_length_lookup_2; [exact Hlen|].
  intros i a b Ha Hb.
  rewrite (proj1 (Forall_lookup _ _) Hx i a Ha).
  rewrite (proj1 (Forall_lookup _ _) Hy i b Hb). reflexivity.
Qed.

(** C5: [Densify_and_prune] starts from the quotient of the accumulated
    gradient by the count in which every NaN is replaced by zero; no entry
    of the result is NaN, and it is this result that cloning, splitting and
    the final pruning run with. *)
Theorem mean_gradient_absorbs_nan (max_grad min_opacity extent max_screen_size : F) m :
  fisnan fzero = false ->
  length (rows (_xyz_gradient_accum m)) = length (rows (_denom m)) ->
  Forall (fun r => length r = 1) (rows (_xyz_gradient_accum m)) ->
  Forall (fun r => length r = 1) (rows (_denom m)) ->
  exists grads,
    mean_gradient m = Some grads
    /\ length grads = length (rows (_xyz_gradient_accum m))
    /\ (forall i a d,
          rows (_xyz_gradient_accum m) !! i = Some [a] ->
          rows (_denom m) !! i = Some [d] ->
          grads !! i = Some [if fisnan (fdiv a d) then fzero else fdiv a d])
    /\ Forall (Forall (fun g => fisnan g = false)) grads
    /\ Densify_and_prune randn max_grad min_opacity extent max_screen_size m
       = densify_and_prune_with randn grads max_grad min_opacity extent
           max_screen_size m.
Proof.
  intros Hzero Hlen Hacc Hden.
  pose proof (tensor_op2_same_shape fdiv _ _ (columns_same_shape _ _ Hlen Hacc Hden))
    as Hquot.
  eexists. split; [unfold mean_gradient; rewrite Hquot; reflexivity|].
  split; [|split; [|split]].
  - rewrite length_map, length_zip_with. lia.
  - intros i a d Ha Hd.
    rewrite list_lookup_fmap, lookup_zip_with, Ha, Hd. reflexivity.
  - apply Forall_forall. intros row Hrow.
    apply list_elem_of_fmap in Hrow as (q & -> & _).
    apply Forall_forall. intros g Hg.
    apply list_elem_of_fmap in Hg as (x & -> & _).
    destruct (fisnan x) eqn:Hx; [exact Hzero | exact Hx].
  - unfold Densify_and_prune. run_step.
    unfold mean_gradient. rewrite Hquot. run_step. reflexivity.
Qed.
End MeanGradient.

(** ** Structural mutations *)

Section Mutations.
Context {F : Type} `{!Scalar F} `{!Transcendental F} `{!Helpers F}.
Implicit Types m : GaussianModel F.

Lemma optimizer_kept_trans m1 m2 m3 :
  optimizer_kept m1 m2 -> optimizer_kept m2 m3 -> optimizer_kept m1 m3.
Proof.
  intros (o1 & o2 & H1 & H2 & Hs & Hl) (o2' & o3 & H2' & H3 & Hs' & Hl').
  rewrite H2 in H2'. injection H2' as <-.
  exists o1, o3. repeat split; auto; congruence.
Qed.

Lemma replace_member_Returns (f : member) (pos : nat) (data : list (list F)) m m' :
  (t <- new_tensor data ;;
   modify (set_member f t) ;;
   set_group_param pos t) m = (Returns tt, m') ->
  rows (get_member f m') = data
  /\ (forall g, g <> f -> get_member g m' = get_member g m)
  /\ bookkeeping_kept m m'
  /\ optimizer_kept m m'
  /\ _percent_dense m' = _percent_dense m.
Proof.
  intros Hrun.
  apply bind_Returns in Hrun as (t & s1 & [= <- <-] & Hrun).
  apply bind_Returns in Hrun as ([] & s2 & [= <-] & Hrun).
  apply set_group_param_Returns in Hrun as (opt & head & others & Hopt & Hgroup & ->).
  split; [destruct f; reflexivity|].
  split; [intros g Hg; destruct f, g; try reflexivity; congruence|].
  split; [destruct f; repeat split|].
  split; [|destruct f; reflexivity].
  exists opt. eexists. split; [destruct f; exact Hopt|].
  split; [destruct f; reflexivity|]. cbn.
  split; [reflexivity | apply length_insert].
Qed.

Lemma prune_optimizer_Returns (idx : list nat) (f : member) (pos : nat) m m' :
  prune_optimizer idx f pos m = (Returns tt, m') ->
  index_select (rows (get_member f m)) idx = Some (rows (get_member f m'))
  /\ (forall g, g <> f -> get_member g m' = get_member g m)
  /\ bookkeeping_kept m m'
  /\ optimizer_kept m m'
  /\ _percent_dense m' = _percent_dense m.
Proof.
  unfold prune_optimizer. intros Hrun.
  apply bind_Returns in Hrun as (old & s1 & [= <- <-] & Hrun).
  apply bind_Returns in Hrun as (data & s2 & Hsel & Hrun).
  apply torch_try_Returns in Hsel as [Hsel ->].
  apply replace_member_Returns in Hrun as (Hrows & Hrest).
  rewrite Hrows. auto.
Qed.

Lemma cat_tensors_to_optimizer_Returns (ext : list (list F)) (f : member)
    (name : string) (pos : nat) m m' :
  cat_tensors_to_optimizer ext f name pos m = (Returns tt, m') ->
  rows (get_member f m') = rows (get_member f m) ++ ext
  /\ (forall g, g <> f -> get_member g m' = get_member g m)
  /\ bookkeeping_kept m m'
  /\ optimizer_kept m m'
  /\ _percent_dense m' = _percent_dense m.
Proof.
  unfold cat_tensors_to_optimizer. intros Hrun.
  apply bind_Returns in Hrun as (old & s1 & [= <- <-] & Hrun).
  apply replace_member_Returns in Hrun. exact Hrun.
Qed.

Lemma prune_points_Returns (mask : list bool) m m' :
  prune_points mask m = (Returns tt, m') ->
  (forall f, index_select (rows (get_member f m)) (nonzero mask)
             = Some (rows (get_member f m')))
  /\ index_select (rows (_xyz_gradient_accum m)) (nonzero (map negb mask))
     = Some (rows (_xyz_gradient_accum m'))
  /\ index_select (rows (_denom m)) (nonzero (map negb mask))
     = Some (rows (_denom m'))
  /\ index_select (rows (_max_radii2D m)) (nonzero (map negb mask))
     = Some (rows (_max_radii2D m'))
  /\ optimizer_kept m m'.
Proof.
  unfold prune_points. intros Hrun.
  apply bind_Returns in Hrun as ([] & m1 & H1 & Hrun).
  apply bind_Returns in Hrun as ([] & m2 & H2 & Hrun).
  apply bind_Returns in Hrun as ([] & m3 & H3 & Hrun).
  apply bind_Returns in Hrun as ([] & m4 & H4 & Hrun).
  apply bind_Returns in Hrun as ([] & m5 & H5 & Hrun).
  apply bind_Returns in Hrun as ([] & m6 & H6 & Hrun).
  apply prune_optimizer_Returns in H1 as (S1 & O1 & (A1 & D1 & R1) & K1 & _).
  apply prune_optimizer_Returns in H2 as (S2 & O2 & (A2 & D2 & R2) & K2 & _).
  apply prune_optimizer_Returns in H3 as (S3 & O3 & (A3 & D3 & R3) & K3 & _).
  apply prune_optimizer_Returns in H4 as (S4 & O4 & (A4 & D4 & R4) & K4 & _).
  apply prune_optimizer_Returns in H5 as (S5 & O5 & (A5 & D5 & R5) & K5 & _).
  apply prune_optimizer_Returns in H6 as (S6 & O6 & (A6 & D6 & R6) & K6 & _).
  cbv zeta in Hrun.
  apply bind_Returns in Hrun as (accum & s & [= <- <-] & Hrun).
  apply bind_Returns in Hrun as (data1 & s & Hd1 & Hrun).
  apply torch_try_Returns in Hd1 as [Hd1 ->].
  apply bind_Returns in Hrun as (t1 & s & [= <- <-] & Hrun).
  apply bind_Returns in Hrun as ([] & s & [= <-] & Hrun).
  apply bind_Returns in Hrun as (denom & s & [= <- <-] & Hrun).
  apply bind_Returns in Hrun as (data2 & s & Hd2 & Hrun).
  apply torch_try_Returns in Hd2 as [Hd2 ->].
  apply bind_Returns in Hrun as (t2 & s & [= <- <-] & Hrun).
  apply bind_Returns in Hrun as ([] & s & [= <-] & Hrun).
  apply bind_Returns in Hrun as (radii & s & [= <- <-] & Hrun).
  apply bind_Returns in Hrun as (data3 & s & Hd3 & Hrun).
  apply torch_try_Returns in Hd3 as [Hd3 ->].
  apply bind_Returns in Hrun as (t3 & s & [= <- <-] & Hrun).
  injection Hrun as <-.
  simpl_model in Hd1. simpl_model in Hd2. simpl_model in Hd3.
  rewrite A6, A5, A4, A3, A2, A1 in Hd1.
  rewrite D6, D5, D4, D3, D2, D1 in Hd2.
  rewrite R6, R5, R4, R3, R2, R1 in Hd3.
  split; [|split; [|split; [|split]]]; try assumption.
  - intros f.
    assert (Hlast : get_member f
              (set_max_radii2D
                 (mkTensor (S (S (next_impl m6))) data3 None)
                 (set_next_impl (S (S (S (next_impl m6))))
                    (set_denom (mkTensor (S (next_impl m6)) data2 None)
                       (set_next_impl (S (S (next_impl m6)))
                          (set_xyz_gradient_accum
                             (mkTensor (next_impl m6) data1 None)
                             (set_next_impl (S (next_impl m6)) m6))))))
            = get_member f m6) by (destruct f; reflexivity).
    rewrite Hlast. clear Hlast.
    destruct f.
    + rewrite O6, O5, O4, O3, O2 by discriminate. exact S1.
    + rewrite O6, O5, O4, O3 by discriminate. rewrite <- (O1 m_features_dc) by discriminate. exact S2.
    + rewrite O6, O5, O4 by discriminate.
      rewrite <- (O1 m_features_rest), <- (O2 m_features_rest) by discriminate. exact S3.
    + rewrite O6, O5 by discriminate.
      rewrite <- (O1 m_scaling), <- (O2 m_scaling), <- (O3 m_scaling) by discriminate.
      exact S4.
    + rewrite O6 by discriminate.
      rewrite <- (O1 m_rotation), <- (O2 m_rotation), <- (O3 m_rotation),
        <- (O4 m_rotation) by discriminate.
      exact S5.
    + rewrite <- (O1 m_opacity), <- (O2 m_opacity), <- (O3 m_opacity),
        <- (O4 m_opacity), <- (O5 m_opacity) by discriminate.
      exact S6.
  - pose proof (optimizer_kept_trans _ _ _ K1
                  (optimizer_kept_trans _ _ _ K2
                     (optimizer_kept_trans _ _ _ K3
                        (optimizer_kept_trans _ _ _ K4
                           (optimizer_kept_trans _ _ _ K5 K6))))) as K.
    destruct K as (o & o' & Ho & Ho' & Hs & Hl).
    exists o, o'. auto.
Qed.

Lemma postfix_check_groups_Returns groups : forall i m m',
  postfix_check_groups i groups m = (Returns tt, m') ->
  m' = m /\ Forall (fun group : list (Tensor F) => length group = 1) groups.
Proof.
  induction groups as [|g rest IH]; intros i m m' Hrun.
  - injection Hrun as <-. auto.
  - cbn [postfix_check_groups] in Hrun.
    apply bind_Returns in Hrun as (name & s1 & Hname & Hrun).
    apply defined_Returns in Hname as [_ ->].
    destruct (Nat.eqb (length g) 1) eqn:Hg; cbn [negb] in Hrun; [|discriminate].
    apply IH in Hrun as [-> Hrest]. apply Nat.eqb_eq in Hg. auto.
Qed.

Lemma densification_postfix_Returns
    (new_xyz new_features_dc new_features_rest
     new_scaling new_rotation new_opacity : list (list F)) m m' :
  densification_postfix new_xyz new_features_dc new_features_rest
    new_scaling new_rotation new_opacity m = (Returns tt, m') ->
  rows (_xyz m') = rows (_xyz m) ++ new_xyz
  /\ rows (_features_dc m') = rows (_features_dc m) ++ new_features_dc
  /\ rows (_features_rest m') = rows (_features_rest m) ++ new_features_rest
  /\ rows (_scaling m') = rows (_scaling m) ++ new_scaling
  /\ rows (_rotation m') = rows (_rotation m) ++ new_rotation
  /\ rows (_opacity m') = rows (_opacity m) ++ new_opacity
  /\ rows (_xyz_gradient_accum m') = zeros (length (rows (_xyz m')))
  /\ rows (_denom m') = zeros (length (rows (_xyz m')))
  /\ rows (_max_radii2D m') = zeros (length (rows (_xyz m')))
  /\ optimizer_kept m m'
  /\ _percent_dense m' = _percent_dense m.
Proof.
  unfold densification_postfix. intros Hrun.
  apply bind_Returns in Hrun as (m0 & s & [= <- <-] & Hrun).
  apply bind_Returns in Hrun as (opt & s & Hopt & Hrun).
  apply defined_Returns in Hopt as [Hopt ->].
  destruct (Nat.eqb (length (param_groups opt)) 6); cbn [negb] in Hrun; [|discriminate].
  apply bind_Returns in Hrun as ([] & s & Hcheck & Hrun).
  apply postfix_check_groups_Returns in Hcheck as [-> _].
  apply bind_Returns in Hrun as ([] & m1 & H1 & Hrun).
  apply bind_Returns in Hrun as ([] & m2 & H2 & Hrun).
  apply bind_Returns in Hrun as ([] & m3 & H3 & Hrun).
  apply bind_Returns in Hrun as ([] & m4 & H4 & Hrun).
  apply bind_Returns in Hrun as ([] & m5 & H5 & Hrun).
  apply bind_Returns in Hrun as ([] & m6 & H6 & Hrun).
  apply cat_tensors_to_optimizer_Returns in H1 as (S1 & O1 & _ & K1 & P1).
  apply cat_tensors_to_optimizer_Returns in H2 as (S2 & O2 & _ & K2 & P2).
  apply cat_tensors_to_optimizer_Returns in H3 as (S3 & O3 & _ & K3 & P3).
  apply cat_tensors_to_optimizer_Returns in H4 as (S4 & O4 & _ & K4 & P4).
  apply cat_tensors_to_optimizer_Returns in H5 as (S5 & O5 & _ & K5 & P5).
  apply cat_tensors_to_optimizer_Returns in H6 as (S6 & O6 & _ & K6 & P6).
  apply bind_Returns in Hrun as (x1 & s & [= <- <-] & Hrun).
  apply bind_Returns in Hrun as (t1 & s & [= <- <-] & Hrun).
  apply bind_Returns in Hrun as ([] & s & [= <-] & Hrun).
  apply bind_Returns in Hrun as (x2 & s & [= <- <-] & Hrun).
  apply bind_Returns in Hrun as (t2 & s & [= <- <-] & Hrun).
  apply bind_Returns in Hrun as ([] & s & [= <-] & Hrun).
  apply bind_Returns in Hrun as (x3 & s & [= <- <-] & Hrun).
  apply bind_Returns in Hrun as (t3 & s & [= <- <-] & Hrun).
  injection Hrun as <-.
  change (rows (get_member m_xyz m6) = rows (get_member m_xyz m) ++ new_xyz
          /\ rows (get_member m_features_dc m6)
             = rows (get_member m_features_dc m) ++ new_features_dc
          /\ rows (get_member m_features_rest m6)
             = rows (get_member m_features_rest m) ++ new_features_rest
          /\ rows (get_member m_scaling m6)
             = rows (get_member m_scaling m) ++ new_scaling
          /\ rows (get_member m_rotation m6)
             = rows (get_member m_rotation m) ++ new_rotation
          /\ rows (get_member m_opacity m6)
             = rows (get_member m_opacity m) ++ new_opacity
          /\ zeros (length (rows (_xyz m6))) = zeros (length (rows (_xyz m6)))
          /\ zeros (length (rows (_xyz m6))) = zeros (length (rows (_xyz m6)))
          /\ zeros (length (rows (_xyz m6))) = zeros (length (rows (_xyz m6)))
          /\ optimizer_kept m
               (set_max_radii2D
                  (mkTensor (S (S (next_impl m6))) (zeros (length (rows (_xyz m6)))) None)
                  (set_next_impl (S (S (S (next_impl m6))))
                     (set_denom
                        (mkTensor (S (next_impl m6)) (zeros (length (rows (_xyz m6)))) None)
                        (set_next_impl (S (S (next_impl m6)))
                           (set_xyz_gradient_accum
                              (mkTensor (next_impl m6) (zeros (length (rows (_xyz m6)))) None)
                              (set_next_impl (S (next_impl m6)) m6))))))
          /\ _percent_dense m6 = _percent_dense m).
  split.
  { rewrite (O6 m_xyz), (O5 m_xyz), (O4 m_xyz), (O3 m_xyz), (O2 m_xyz) by discriminate.
    exact S1. }
  split.
  { rewrite (O6 m_features_dc), (O5 m_features_dc), (O4 m_features_dc),
      (O3 m_features_dc) by discriminate.
    rewrite <- (O1 m_features_dc) by discriminate. exact S2. }
  split.
  { rewrite (O6 m_features_rest), (O5 m_features_rest), (O4 m_features_rest)
      by discriminate.
    rewrite <- (O1 m_features_rest), <- (O2 m_features_rest) by discriminate.
    exact S3. }
  split.
  { rewrite (O6 m_scaling), (O5 m_scaling) by discriminate.
    rewrite <- (O1 m_scaling), <- (O2 m_scaling), <- (O3 m_scaling) by discriminate.
    exact S4. }
  split.
  { rewrite (O6 m_rotation) by discriminate.
    rewrite <- (O1 m_rotation), <- (O2 m_rotation), <- (O3 m_rotation),
      <- (O4 m_rotation) by discriminate.
    exact S5. }
  split.
  { rewrite <- (O1 m_opacity), <- (O2 m_opacity), <- (O3 m_opacity),
      <- (O4 m_opacity), <- (O5 m_opacity) by discriminate.
    exact S6. }
  split; [reflexivity|]. split; [reflexivity|]. split; [reflexivity|].
  split; [|congruence].
  pose proof (optimizer_kept_trans _ _ _ K1
                (optimizer_kept_trans _ _ _ K2
                   (optimizer_kept_trans _ _ _ K3
                      (optimizer_kept_trans _ _ _ K4
                         (optimizer_kept_trans _ _ _ K5 K6))))) as K.
  destruct K as (o & o' & Ho & Ho' & Hs & Hl).
  exists o, o'. auto.
Qed.

End Mutations.

Section ListLemmas4.
Context {A B : Type}.

Lemma nonzero_from_app_false (mask : list bool) k : forall i,
  nonzero_from i (mask ++ replicate k false) = nonzero_from i mask.
Proof.
  induction mask as [|b mask IH]; intros i; cbn.
  - revert i. induction k as [|k IHk]; intros i; cbn; [reflexivity | apply IHk].
  - rewrite IH. reflexivity.
Qed.

Lemma nonzero_from_length (mask : list bool) : forall i,
  length (nonzero_from i mask) = count_true mask.
Proof.
  induction mask as [|b mask IH]; intros i; cbn; [reflexivity|].
  rewrite length_app, IH, count_true_cons. destruct b; reflexivity.
Qed.

Lemma nonzero_length (mask : list bool) : length (nonzero mask) = count_true mask.
Proof. apply nonzero_from_length. Qed.

Lemma index_select_app (t c : list A) idx v :
  index_select t idx = Some v -> index_select (t ++ c) idx = Some v.
Proof.
  unfold index_select. intros Hsel.
  apply mapM_Some. apply mapM_Some in Hsel.
  eapply Forall2_impl; [exact Hsel|].
  intros i x Hx. cbn in *. apply lookup_app_l_Some. exact Hx.
Qed.

Lemma index_select_map (g : A -> B) (t : list A) idx v :
  index_select (map g t) idx = Some v ->
  exists u, index_select t idx = Some u /\ v = map g u.
Proof.
  unfold index_select. revert v. induction idx as [|i idx IH]; intros v Hsel; cbn in *.
  - injection Hsel as <-. exists []. auto.
  - rewrite list_lookup_fmap in Hsel.
    destruct (t !! i) as [x|]; cbn in *; [|discriminate].
    destruct (mapM _ idx) as [w|] eqn:Hw; cbn in *; [|discriminate].
    injection Hsel as <-.
    destruct (IH w eq_refl) as (u & -> & ->). exists (x :: u). auto.
Qed.

Lemma index_select_length (t : list A) idx v :
  index_select t idx = Some v -> length v = length idx.
Proof. unfold index_select. intros H. symmetry. eapply length_mapM, H. Qed.

End ListLemmas4.

Section Densify.
Context {F : Type} `{!Scalar F} `{!Transcendental F} `{!Helpers F}.
Variable randn : nat -> nat -> F.
Implicit Types m : GaussianModel F.

Lemma split_selected_mask_state grads thr ext m mask m' :
  split_selected_mask grads thr ext m = (Returns mask, m') -> m' = m.
Proof.
  unfold split_selected_mask. intros Hrun.
  apply bind_Returns in Hrun as (m0 & s & [= <- <-] & Hrun).
  apply bind_Returns in Hrun as (padded & s & Hpad & Hrun).
  apply torch_try_Returns in Hpad as [_ ->].
  apply bind_Returns in Hrun as (maxs & s & Hmax & Hrun).
  apply torch_try_Returns in Hmax as [_ ->].
  apply torch_try_Returns in Hrun as [_ ->]. reflexivity.
Qed.

Lemma clone_selected_mask_state grads thr ext m mask m' :
  clone_selected_mask grads thr ext m = (Returns mask, m') -> m' = m.
Proof.
  unfold clone_selected_mask. intros Hrun. cbv zeta in Hrun.
  apply bind_Returns in Hrun as (m0 & s & [= <- <-] & Hrun).
  apply bind_Returns in Hrun as (maxs & s & Hmax & Hrun).
  apply torch_try_Returns in Hmax as [_ ->].
  apply torch_try_Returns in Hrun as [_ ->]. reflexivity.
Qed.

(** C4: whenever [densify_and_split] returns, every optimizable tensor
    is the old one gathered at the selected indices: what remains are the
    selected primitives themselves, unchanged; their children and the
    primitives that were not selected are gone.  This is the opposite of
    the replacement that the specification describes. *)
Theorem densify_and_split_keeps_parents (grads : list (list F)) (thr ext : F) (N : nat) m m' :
  densify_and_split randn grads thr ext N m = (Returns tt, m') ->
  exists mask,
    split_selected_mask grads thr ext m = (Returns mask, m)
    /\ (forall f, index_select (rows (get_member f m)) (nonzero mask)
                  = Some (rows (get_member f m')))
    /\ length (rows (_xyz_gradient_accum m'))
       = count_true (map negb (mask ++ replicate (N * count_true mask) false))
    /\ optimizer_kept m m'.
Proof.
  unfold densify_and_split. intros Hrun.
  apply bind_Returns in Hrun as (mask & s & Hmask & Hrun).
  pose proof (split_selected_mask_state _ _ _ _ _ _ Hmask) as ->.
  cbv zeta in Hrun.
  apply bind_Returns in Hrun as (m0 & s & [= <- <-] & Hrun).
  apply bind_Returns in Hrun as (scaling_sel & s & Hsc & Hrun).
  apply torch_try_Returns in Hsc as [Hsc ->].
  apply bind_Returns in Hrun as (samples & s & Hsam & Hrun).
  apply torch_try_Returns in Hsam as [_ ->].
  apply bind_Returns in Hrun as (rotation_sel & s & Hrot & Hrun).
  apply torch_try_Returns in Hrot as [Hrot ->].
  apply bind_Returns in Hrun as (xyz_sel & s & Hxyz & Hrun).
  apply torch_try_Returns in Hxyz as [Hxyz ->].
  apply bind_Returns in Hrun as (rotated & s & Hbmm & Hrun).
  apply torch_try_Returns in Hbmm as [_ ->].
  apply bind_Returns in Hrun as (new_xyz & s & Hnew & Hrun).
  apply torch_try_Returns in Hnew as [_ ->].
  apply bind_Returns in Hrun as (dc_sel & s & Hdc & Hrun).
  apply torch_try_Returns in Hdc as [Hdc ->].
  apply bind_Returns in Hrun as (rest_sel & s & Hrest & Hrun).
  apply torch_try_Returns in Hrest as [Hrest ->].
  apply bind_Returns in Hrun as (opacity_sel & s & Hop & Hrun).
  apply torch_try_Returns in Hop as [Hop ->].
  apply bind_Returns in Hrun as ([] & mp & Hpost & Hprune).
  apply densification_postfix_Returns in Hpost
    as (X1 & X2 & X3 & X4 & X5 & X6 & B1 & _ & _ & K1 & _).
  apply prune_points_Returns in Hprune as (Hsel & Hacc & _ & _ & K2).
  apply index_select_map in Hsc as (raw_sel & Hraw & _).
  exists mask. split; [exact Hmask|]. split; [|split].
  - intros f. rewrite <- (Hsel f).
    replace (nonzero (mask ++ replicate (N * count_true mask) false))
      with (nonzero mask)
      by (unfold nonzero; rewrite nonzero_from_app_false; reflexivity).
    destruct f; cbn [get_member].
    + rewrite X1, (index_select_app _ _ _ _ Hxyz). exact Hxyz.
    + rewrite X2, (index_select_app _ _ _ _ Hdc). exact Hdc.
    + rewrite X3, (index_select_app _ _ _ _ Hrest). exact Hrest.
    + rewrite X4, (index_select_app _ _ _ _ Hraw). exact Hraw.
    + rewrite X5, (index_select_app _ _ _ _ Hrot). exact Hrot.
    + rewrite X6, (index_select_app _ _ _ _ Hop). exact Hop.
  - apply index_select_length in Hacc. rewrite Hacc. apply nonzero_length.
  - eapply optimizer_kept_trans; eassumption.
Qed.
End Densify.

Section Clone.
Context {F : Type} `{!Scalar F} `{!Transcendental F} `{!Helpers F}.
Implicit Types m : GaussianModel F.

Lemma clone_selected_mask_rows (grads : list (list F)) (thr ext : F) m mask m' :
  clone_selected_mask grads thr ext m = (Returns mask, m') ->
  length grads = length (rows (_scaling m)) ->
  forall i g, grads !! i = Some [g] ->
    exists s mx,
      Get_scaling m !! i = Some s /\ row_max s = Some mx
      /\ mask !! i = Some [fge (norm grads) thr
                           && fle mx (fmul (_percent_dense m) ext)].
Proof.
  unfold clone_selected_mask. intros Hrun Hlen i g Hg. cbv zeta in Hrun.
  apply bind_Returns in Hrun as (m0 & s0 & [= <- <-] & Hrun).
  apply bind_Returns in Hrun as (maxs & s1 & Hmax & Hrun).
  apply torch_try_Returns in Hmax as [Hmax ->].
  apply torch_try_Returns in Hrun as [Hop _].
  assert (Hmaxs : length maxs = length grads).
  { apply length_mapM in Hmax. unfold Get_scaling in Hmax.
    rewrite length_map in Hmax. lia. }
  unfold tensor_op2 in Hop.
  rewrite broadcast2_same_length in Hop by (rewrite !length_map; lia).
  apply mapM_Some in Hop.
  destruct (lookup_lt_is_Some_2 maxs i) as [mx Hmx];
    [rewrite Hmaxs; eapply lookup_lt_Some; exact Hg|].
  unfold max_dim1 in Hmax. apply mapM_Some in Hmax.
  destruct (Forall2_lookup_r _ _ _ _ _ Hmax Hmx) as (s & Hs & Hrow).
  exists s, mx. split; [exact Hs|]. split; [exact Hrow|].
  assert (Hzip : zip_with (broadcast2 andb)
                   (map (map (fun _ : F => fge (norm grads) thr)) grads)
                   (map (fun s => [fle s (fmul (_percent_dense m) ext)]) maxs) !! i
                 = Some (Some [fge (norm grads) thr
                               && fle mx (fmul (_percent_dense m) ext)])).
  { rewrite lookup_zip_with, !list_lookup_fmap, Hg, Hmx. reflexivity. }
  destruct (Forall2_lookup_l _ _ _ _ _ Hop Hzip) as (row & Hrow' & Heq).
  cbn in Heq. injection Heq as <-. exact Hrow'.
Qed.

(** C3: whenever [densify_and_clone] returns, the mask entry of a
    primitive is the conjunction of the test of the norm of the whole
    gradient tensor against the threshold, the same for all primitives,
    with the test of its own largest scale; its own gradient [g] plays no
    part.  The selected rows are appended unchanged to the six optimizable
    tensors. *)
Theorem densify_and_clone_global_gradient (grads : list (list F)) (thr ext : F) m m' :
  densify_and_clone grads thr ext m = (Returns tt, m') ->
  length grads = length (rows (_scaling m)) ->
  exists mask,
    clone_selected_mask grads thr ext m = (Returns mask, m)
    /\ (forall i g, grads !! i = Some [g] ->
          exists s mx,
            Get_scaling m !! i = Some s /\ row_max s = Some mx
            /\ mask !! i = Some [fge (norm grads) thr
                                 && fle mx (fmul (_percent_dense m) ext)])
    /\ (forall f, exists new,
          index_select (rows (get_member f m)) (nonzero_rows mask) = Some new
          /\ rows (get_member f m') = rows (get_member f m) ++ new)
    /\ optimizer_kept m m'.
Proof.
  unfold densify_and_clone. intros Hrun Hlen.
  apply bind_Returns in Hrun as (mask & s & Hmask & Hrun).
  pose proof (clone_selected_mask_state _ _ _ _ _ _ Hmask) as ->.
  cbv zeta in Hrun.
  apply bind_Returns in Hrun as (m0 & s & [= <- <-] & Hrun).
  apply bind_Returns in Hrun as (new_xyz & s & H1 & Hrun).
  apply torch_try_Returns in H1 as [H1 ->].
  apply bind_Returns in Hrun as (new_dc & s & H2 & Hrun).
  apply torch_try_Returns in H2 as [H2 ->].
  apply bind_Returns in Hrun as (new_rest & s & H3 & Hrun).
  apply torch_try_Returns in H3 as [H3 ->].
  apply bind_Returns in Hrun as (new_opacity & s & H4 & Hrun).
  apply torch_try_Returns in H4 as [H4 ->].
  apply bind_Returns in Hrun as (new_scaling & s & H5 & Hrun).
  apply torch_try_Returns in H5 as [H5 ->].
  apply bind_Returns in Hrun as (new_rotation & s & H6 & Hrun).
  apply torch_try_Returns in H6 as [H6 ->].
  apply densification_postfix_Returns in Hrun
    as (X1 & X2 & X3 & X4 & X5 & X6 & _ & _ & _ & K & _).
  exists mask. split; [exact Hmask|].
  split; [exact (clone_selected_mask_rows _ _ _ _ _ _ Hmask Hlen)|].
  split; [|exact K].
  intros f. destruct f; cbn [get_member]; eauto.
Qed.
End Clone.

Section PruneClaims.
Context {F : Type} `{!Scalar F} `{!Transcendental F} `{!Helpers F}.
Implicit Types m : GaussianModel F.

(** C1: the row counts after a structural mutation.  Whenever
    [prune_points] returns, the six optimizable tensors have as many rows
    as the mask has true entries and the three bookkeeping tensors as many
    as it has false entries.  Whenever [densification_postfix] returns,
    each optimizable tensor has grown by the rows appended to it and the
    three bookkeeping tensors have the rows of the new position tensor.
    In both cases the Adam moments are those of before the call, with the
    rows they had. *)
Theorem mutation_row_counts :
  (forall (mask : list bool) m m',
     prune_points mask m = (Returns tt, m') ->
     (forall f, length (rows (get_member f m')) = count_true mask)
     /\ length (rows (_xyz_gradient_accum m')) = count_true (map negb mask)
     /\ length (rows (_denom m')) = count_true (map negb mask)
     /\ length (rows (_max_radii2D m')) = count_true (map negb mask)
     /\ optimizer_kept m m')
  /\ (forall (new_xyz new_features_dc new_features_rest
              new_scaling new_rotation new_opacity : list (list F)) m m',
        densification_postfix new_xyz new_features_dc new_features_rest
          new_scaling new_rotation new_opacity m = (Returns tt, m') ->
        length (rows (_xyz m')) = length (rows (_xyz m)) + length new_xyz
        /\ length (rows (_features_dc m'))
           = length (rows (_features_dc m)) + length new_features_dc
        /\ length (rows (_features_rest m'))
           = length (rows (_features_rest m)) + length new_features_rest
        /\ length (rows (_scaling m'))
           = length (rows (_scaling m)) + length new_scaling
        /\ length (rows (_rotation m'))
           = length (rows (_rotation m)) + length new_rotation
        /\ length (rows (_opacity m'))
           = length (rows (_opacity m)) + length new_opacity
        /\ length (rows (_xyz_gradient_accum m')) = length (rows (_xyz m'))
        /\ length (rows (_denom m')) = length (rows (_xyz m'))
        /\ length (rows (_max_radii2D m')) = length (rows (_xyz m'))
        /\ optimizer_kept m m').
Proof.
  split.
  - intros mask m m' Hrun.
    apply prune_points_Returns in Hrun as (Hsel & Hacc & Hden & Hrad & Hkept).
    split; [|split; [|split; [|split]]]; try exact Hkept.
    + intros f. rewrite <- nonzero_length. eapply index_select_length, Hsel.
    + rewrite <- nonzero_length. eapply index_select_length, Hacc.
    + rewrite <- nonzero_length. eapply index_select_length, Hden.
    + rewrite <- nonzero_length. eapply index_select_length, Hrad.
  - intros new_xyz new_features_dc new_features_rest new_scaling new_rotation
      new_opacity m m' Hrun.
    apply densification_postfix_Returns in Hrun
      as (X1 & X2 & X3 & X4 & X5 & X6 & B1 & B2 & B3 & Hkept & _).
    assert (Hzeros : forall n, length (zeros (F:=F) n) = n)
      by (intros n; apply length_replicate).
    rewrite B1, B2, B3, !Hzeros.
    rewrite X1, X2, X3, X4, X5, X6, !length_app.
    split; [reflexivity|]. split; [reflexivity|]. split; [reflexivity|].
    split; [reflexivity|]. split; [reflexivity|]. split; [reflexivity|].
    split; [reflexivity|]. split; [reflexivity|]. split; [reflexivity|].
    exact Hkept.
Qed.

(** C2: whenever [prune_points] returns on a mask as long as the
    tensors, each optimizable tensor keeps exactly the rows where the mask
    is true, the rows to be removed, while each bookkeeping tensor keeps
    the rows where the mask is false. *)
Theorem prune_points_keeps_masked (mask : list bool) m m' :
  prune_points mask m = (Returns tt, m') ->
  (forall f, length mask = length (rows (get_member f m)) ->
     rows (get_member f m') = masked_select (rows (get_member f m)) mask)
  /\ (length mask = length (rows (_xyz_gradient_accum m)) ->
      rows (_xyz_gradient_accum m')
      = masked_select (rows (_xyz_gradient_accum m)) (map negb mask))
  /\ (length mask = length (rows (_denom m)) ->
      rows (_denom m') = masked_select (rows (_denom m)) (map negb mask))
  /\ (length mask = length (rows (_max_radii2D m)) ->
      rows (_max_radii2D m')
      = masked_select (rows (_max_radii2D m)) (map negb mask)).
Proof.
  intros Hrun.
  apply prune_points_Returns in Hrun as (Hsel & Hacc & Hden & Hrad & _).
  split; [|split; [|split]].
  - intros f Hlen. specialize (Hsel f).
    rewrite index_select_nonzero in Hsel by lia. congruence.
  - intros Hlen. rewrite index_select_nonzero in Hacc by (rewrite length_map; lia).
    congruence.
  - intros Hlen. rewrite index_select_nonzero in Hden by (rewrite length_map; lia).
    congruence.
  - intros Hlen. rewrite index_select_nonzero in Hrad by (rewrite length_map; lia).
    congruence.
Qed.
End PruneClaims.

(** * Runs on three primitives

    The statements above are applied to [three_primitives].  Comparisons
    and quotients of reals do not reduce by computation; the lemmas of
    the first group decide the few that the runs meet. *)

(** ** Arithmetic of the instance *)

Lemma xle_true (a b : R) : (a <= b)%R -> xle (XReal a) (XReal b) = true.
Proof. intros H. cbn. destruct (Rle_dec a b); [reflexivity | contradiction]. Qed.

Lemma xle_false (a b : R) : (b < a)%R -> xle (XReal a) (XReal b) = false.
Proof. intros H. cbn. destruct (Rle_dec a b); [lra | reflexivity]. Qed.

Lemma xlt_true (a b : R) : (a < b)%R -> xlt (XReal a) (XReal b) = true.
Proof. intros H. cbn. destruct (Rlt_dec a b); [reflexivity | contradiction]. Qed.

Lemma xdiv_real (x y : R) : y <> 0%R -> xdiv (XReal x) (XReal y) = XReal (x / y).
Proof. intros Hy. cbn. destruct (Req_dec_T y 0); [contradiction | reflexivity]. Qed.

Lemma xdiv_zero (x : R) : xdiv (XReal x) (XReal 0) = XNaN.
Proof. cbn. destruct (Req_dec_T 0 0) as [_|Hne]; [reflexivity | contradiction]. Qed.

Lemma xreal_zero_not_nan : fisnan (fzero : xreal) = false.
Proof. reflexivity. Qed.


Lemma norm_3_4_0 : norm grads_3_4_0 = XReal 5.
Proof.
  unfold norm, grads_3_4_0.
  cbn [concat app map fsum fmul fsqrt xreal_Scalar foldr xlift2 xsqrt].
  destruct (Rlt_dec _ 0) as [Hneg|_]; [exfalso; lra|].
  f_equal. replace (3 * 3 + (4 * 4 + (0 * 0 + 0)))%R with (5 * 5)%R by lra.
  apply sqrt_square. lra.
Qed.

(** Every primitive has activated scale 1 on its three axes. *)
Lemma three_maxs :
  max_dim1 (Get_scaling three_primitives) = Some [XReal 1; XReal 1; XReal 1].
Proof.
  cbv - [exp Rmax IZR]. rewrite exp_0, !(Rmax_left 1 1) by lra. reflexivity.
Qed.

(** The moments of [three_primitives] have three rows each. *)
Lemma three_moments_rows :
  map_Forall (fun _ st => length (exp_avg st) = 3 /\ length (exp_avg_sq st) = 3)
             (state three_optimizer).
Proof.
  unfold three_optimizer. cbn [state].
  repeat (apply map_Forall_insert_2; [split; reflexivity|]).
  apply map_Forall_empty.
Qed.

Lemma Some_eq_inv {A} (x y : A) : Some x = Some y -> y = x.
Proof. intros [= ->]. reflexivity. Qed.

Lemma run_eq {S A} (r : outcome A * S) (a : A) :
  r.1 = Returns a -> r = (Returns a, r.2).
Proof. destruct r as [o s]. cbn. intros ->. reflexivity. Qed.

(** ** Pruning the first primitive, appending a fourth *)

Lemma prune_three_returns :
  prune_points [true; false; false] three_primitives = (Returns tt, pruned_three).
Proof.
  exact (run_eq (prune_points [true; false; false] three_primitives) tt eq_refl).
Qed.

Lemma extend_three_returns :
  densification_postfix [xrow [2; 2; 2]%R] [xrow [4; 4; 4]%R] [[]]
    [xrow [0; 0; 0]%R] [xrow [1; 0; 0; 0]%R] [xrow [8]%R] three_primitives
  = (Returns tt, extended_three).
Proof.
  exact (run_eq (densification_postfix [xrow [2; 2; 2]%R] [xrow [4; 4; 4]%R]
                   [[]] [xrow [0; 0; 0]%R] [xrow [1; 0; 0; 0]%R] [xrow [8]%R]
                   three_primitives) tt eq_refl).
Qed.

(** After the pruning: one row of parameters, two rows of bookkeeping,
    and the moments of three rows that the state held before.  After the
    appending: four rows everywhere, and the same moments of three
    rows. *)
Lemma mutation_row_counts_witness :
  (length (rows (get_member m_xyz pruned_three)) = 1
   /\ length (rows (get_member m_opacity pruned_three)) = 1
   /\ length (rows (_xyz_gradient_accum pruned_three)) = 2
   /\ length (rows (_denom pruned_three)) = 2
   /\ length (rows (_max_radii2D pruned_three)) = 2
   /\ exists opt',
        _optimizer pruned_three = Some opt'
        /\ map_Forall (fun _ st => length (exp_avg st) = 3
                                   /\ length (exp_avg_sq st) = 3) (state opt'))
  /\ (length (rows (_xyz extended_three)) = 4
      /\ length (rows (_opacity extended_three)) = 4
      /\ length (rows (_xyz_gradient_accum extended_three))
         = length (rows (_xyz extended_three))
      /\ exists opt',
           _optimizer extended_three = Some opt'
           /\ map_Forall (fun _ st => length (exp_avg st) = 3
                                      /\ length (exp_avg_sq st) = 3) (state opt')).
Proof.
  split.
  - destruct (proj1 mutation_row_counts [true; false; false] three_primitives
                pruned_three prune_three_returns)
      as (Hsix & Hacc & Hden & Hrad & (opt & opt' & Hopt & Hopt' & Hstate & _)).
    split; [exact (Hsix m_xyz)|]. split; [exact (Hsix m_opacity)|].
    split; [exact Hacc|]. split; [exact Hden|]. split; [exact Hrad|].
    exists opt'. split; [exact Hopt'|].
    apply Some_eq_inv in Hopt. subst opt.
    rewrite Hstate. exact three_moments_rows.
  - destruct (proj2 mutation_row_counts _ _ _ _ _ _ three_primitives
                extended_three extend_three_returns)
      as (X1 & _ & _ & _ & _ & X6 & B1 & _ & _
          & (opt & opt' & Hopt & Hopt' & Hstate & _)).
    split; [exact X1|]. split; [exact X6|]. split; [exact B1|].
    exists opt'. split; [exact Hopt'|].
    apply Some_eq_inv in Hopt. subst opt.
    rewrite Hstate. exact three_moments_rows.
Defined.

(** The survivor is the primitive that the mask marks for removal; the
    statistics that remain are those of the two others. *)
Lemma prune_points_keeps_masked_witness :
  rows (get_member m_xyz pruned_three) = [xrow [0; 0; 0]%R]
  /\ rows (get_member m_features_dc pruned_three) = [xrow [1; 1; 1]%R]
  /\ rows (get_member m_opacity pruned_three) = [xrow [5]%R]
  /\ rows (_xyz_gradient_accum pruned_three) = [[XReal 4]; [XReal 0]]
  /\ rows (_denom pruned_three) = [[XReal 1]; [XReal 0]].
Proof.
  destruct (prune_points_keeps_masked [true; false; false] three_primitives
              pruned_three prune_three_returns)
    as (Hsix & Hacc & Hden & _).
  split; [exact (Hsix m_xyz eq_refl)|].
  split; [exact (Hsix m_features_dc eq_refl)|].
  split; [exact (Hsix m_opacity eq_refl)|].
  split; [exact (Hacc eq_refl) | exact (Hden eq_refl)].
Defined.

(** ** Cloning with threshold 4.5 *)

Lemma clone_mask_example :
  clone_selected_mask grads_3_4_0 (XReal (9 / 2)) (XReal 1000) three_primitives
  = (Returns [[true]; [true]; [true]], three_primitives).
Proof.
  unfold clone_selected_mask. rewrite norm_3_4_0.
  unfold fge. cbn [fle xreal_Scalar].
  rewrite xle_true by lra.
  run_step. rewrite three_maxs. run_step.
  cbn [map _percent_dense three_primitives fmul xreal_Scalar xlift2].
  rewrite xle_true by (unfold Q2R; cbn; lra).
  reflexivity.
Qed.

Lemma clone_three_returns :
  densify_and_clone grads_3_4_0 (XReal (9 / 2)) (XReal 1000) three_primitives
  = (Returns tt, cloned_three).
Proof.
  apply run_eq. unfold densify_and_clone.
  rewrite (bind_run _ _ _ _ _ clone_mask_example).
  reflexivity.
Qed.

(** No gradient reaches the threshold, and all three primitives are
    cloned. *)
Lemma densify_and_clone_global_gradient_witness :
  fge (XReal 3) (XReal (9 / 2)) = false
  /\ fge (XReal 4) (XReal (9 / 2)) = false
  /\ fge (XReal 0) (XReal (9 / 2)) = false
  /\ rows (get_member m_xyz cloned_three) = map xrow (three_xyz ++ three_xyz)
  /\ rows (get_member m_opacity cloned_three)
     = map xrow (three_opacity ++ three_opacity).
Proof.
  destruct (densify_and_clone_global_gradient grads_3_4_0 (XReal (9 / 2))
              (XReal 1000) three_primitives cloned_three
              clone_three_returns eq_refl)
    as (mask & Hmask & _ & Hcat & _).
  rewrite clone_mask_example in Hmask. injection Hmask as <-.
  destruct (Hcat m_xyz) as (new1 & Hsel1 & Hcat1).
  destruct (Hcat m_opacity) as (new2 & Hsel2 & Hcat2).
  change (Some (map xrow three_xyz) = Some new1) in Hsel1.
  change (Some (map xrow three_opacity) = Some new2) in Hsel2.
  apply Some_eq_inv in Hsel1. apply Some_eq_inv in Hsel2. subst new1 new2.
  unfold fge. cbn [fle xreal_Scalar].
  rewrite !xle_false by lra.
  split; [reflexivity|]. split; [reflexivity|]. split; [reflexivity|].
  split.
  - rewrite map_app. exact Hcat1.
  - rewrite map_app. exact Hcat2.
Defined.

(** ** Splitting with threshold 3.5 *)

Lemma split_mask_example :
  split_selected_mask grads_3_4_0 (XReal (7 / 2)) (XReal 1) three_primitives
  = (Returns [false; true; false], three_primitives).
Proof.
  unfold split_selected_mask. run_step.
  assert (Hpad : padded_grad (length (rows (_xyz three_primitives))) grads_3_4_0
                 = Some [XReal 3; XReal 4; XReal 0]) by reflexivity.
  rewrite Hpad. run_step. rewrite three_maxs. run_step.
  unfold fge, fgt.
  cbn [map _percent_dense three_primitives fmul fle flt xreal_Scalar xlift2].
  rewrite !xlt_true by (unfold Q2R; cbn; lra).
  rewrite (xle_true (7 / 2) 4) by lra.
  rewrite !xle_false by lra.
  reflexivity.
Qed.

Lemma split_three_returns :
  densify_and_split unit_noise grads_3_4_0 (XReal (7 / 2)) (XReal 1) 2
    three_primitives
  = (Returns tt, split_three).
Proof.
  apply run_eq. unfold densify_and_split.
  rewrite (bind_run _ _ _ _ _ split_mask_example).
  reflexivity.
Qed.

(** The second primitive is selected; afterwards it is the only one left,
    with the scale it had, and the bookkeeping has four rows. *)
Lemma densify_and_split_keeps_parents_witness :
  rows (get_member m_xyz split_three) = [xrow [1; 0; 0]%R]
  /\ rows (get_member m_scaling split_three) = [xrow [0; 0; 0]%R]
  /\ rows (get_member m_opacity split_three) = [xrow [6]%R]
  /\ length (rows (_xyz_gradient_accum split_three)) = 4.
Proof.
  destruct (densify_and_split_keeps_parents unit_noise grads_3_4_0
              (XReal (7 / 2)) (XReal 1) 2 three_primitives split_three
              split_three_returns)
    as (mask & Hmask & Hsel & Hacc & _).
  rewrite split_mask_example in Hmask. injection Hmask as <-.
  pose proof (Hsel m_xyz) as H1.
  pose proof (Hsel m_scaling) as H2.
  pose proof (Hsel m_opacity) as H3.
  change (Some [xrow [1; 0; 0]%R]
          = Some (rows (get_member m_xyz split_three))) in H1.
  change (Some [xrow [0; 0; 0]%R]
          = Some (rows (get_member m_scaling split_three))) in H2.
  change (Some [xrow [6]%R]
          = Some (rows (get_member m_opacity split_three))) in H3.
  split; [exact (Some_eq_inv _ _ H1)|]. split; [exact (Some_eq_inv _ _ H2)|].
  split; [exact (Some_eq_inv _ _ H3) | exact Hacc].
Defined.

(** ** Padding a gradient vector of two entries *)

Lemma split_mask_padded :
  split_selected_mask grads_3_4 (XReal 0) (XReal 1) three_primitives
  = (Returns [true; true; true], three_primitives).
Proof.
  unfold split_selected_mask. run_step.
  assert (Hpad : padded_grad (length (rows (_xyz three_primitives))) grads_3_4
                 = Some [XReal 3; XReal 4; XReal 0]) by reflexivity.
  rewrite Hpad. run_step. rewrite three_maxs. run_step.
  unfold fge, fgt.
  cbn [map _percent_dense three_primitives fmul fle flt xreal_Scalar xlift2].
  rewrite !xlt_true by (unfold Q2R; cbn; lra).
  rewrite !xle_true by lra.
  reflexivity.
Qed.

(** With threshold zero the third primitive, which has no entry in the
    gradient vector, is selected. *)
Lemma split_padding_selects_witness :
  padded_grad 3 grads_3_4 = Some [XReal 3; XReal 4; XReal 0]
  /\ fle (XReal 0) (fzero : xreal) = true.
Proof.
  destruct (split_padding_selects grads_3_4 (XReal 0) (XReal 1) three_primitives
              [true; true; true] three_primitives split_mask_padded eq_refl)
    as (padded & Hpad & _ & _ & _ & _ & Hthr).
  split; [reflexivity|].
  exact (Hthr 2 (le_n 2) eq_refl).
Defined.

(** ** The mean gradient *)

Lemma three_stats_columns :
  Forall (fun r : list xreal => length r = 1)
         (rows (_xyz_gradient_accum three_primitives))
  /\ Forall (fun r : list xreal => length r = 1) (rows (_denom three_primitives)).
Proof. split; repeat constructor. Qed.

(** The third primitive was never updated: its quotient 0 / 0 is NaN and
    becomes 0. *)
Lemma mean_gradient_three : mean_gradient three_primitives = Some grads_3_4_0.
Proof.
  unfold mean_gradient.
  assert (Hq : tensor_op2 fdiv (rows (_xyz_gradient_accum three_primitives))
                 (rows (_denom three_primitives))
               = Some [[xdiv (XReal 3) (XReal 1)]; [xdiv (XReal 4) (XReal 1)];
                       [xdiv (XReal 0) (XReal 0)]]) by reflexivity.
  rewrite Hq, !xdiv_real, xdiv_zero by lra.
  cbn [map fisnan xreal_Scalar xisnan fzero].
  unfold grads_3_4_0. repeat f_equal; lra.
Qed.

Lemma mean_gradient_absorbs_nan_witness :
  mean_gradient three_primitives = Some grads_3_4_0
  /\ Forall (Forall (fun g => fisnan g = false)) grads_3_4_0
  /\ Densify_and_prune unit_noise (XReal (7 / 2)) (XReal 0) (XReal 1) (XReal 0)
       three_primitives
     = densify_and_prune_with unit_noise grads_3_4_0 (XReal (7 / 2)) (XReal 0)
         (XReal 1) (XReal 0) three_primitives.
Proof.
  destruct (mean_gradient_absorbs_nan unit_noise (XReal (7 / 2))
              (XReal 0) (XReal 1) (XReal 0) three_primitives
              xreal_zero_not_nan eq_refl
              (proj1 three_stats_columns) (proj2 three_stats_columns))
    as (grads & Hmean & _ & _ & Hnan & Hrun).
  rewrite mean_gradient_three in Hmean. injection Hmean as <-.
  split; [exact mean_gradient_three|]. split; [exact Hnan | exact Hrun].
Defined.

(** ** Resetting the opacity *)

Lemma reset_three_returns :
  Reset_opacity three_primitives = (Returns tt, reset_three).
Proof. exact (run_eq (Reset_opacity three_primitives) tt eq_refl). Qed.


Lemma three_without_grad_faulty :
  Exists faulty_group
    (<[5 := [mkTensor 5 (map xrow three_opacity) None]]>
       (param_groups three_optimizer)).
Proof.
  do 5 apply Exists_cons_tl. apply Exists_cons_hd.
  right. eexists. split; reflexivity.
Qed.

Lemma Reset_opacity_rejects_witness :
  exists what,
    Reset_opacity three_without_grad
    = (Throws (runtime_error what), three_without_grad).
Proof.
  exact (Reset_opacity_rejects three_without_grad _ eq_refl eq_refl
           three_without_grad_faulty).
Defined.

(** * Runs in binary32

    The statistics of three primitives in the arithmetic of the device:
    the literal 0.01, the NaN of 0 / 0 and its replacement by zero, the
    norm of a view-space gradient, and one accumulation. *)

Example binary32_one_hundredth :
  fconst (1 # 100) = S754_finite false 10737418 (-30).
Proof. vm_compute. reflexivity. Qed.

Example binary32_zero_by_zero : fisnan (fdiv (fzero : binary32) fzero) = true.
Proof. reflexivity. Qed.

Example binary32_mean_gradient :
  mean_gradient b32_statistics = Some (b32_column [3; 4; 0]%Z).
Proof. vm_compute. reflexivity. Qed.

Example binary32_norm : norm [[b32_of_Z 3%Z; b32_of_Z 4%Z]] = b32_of_Z 5%Z.
Proof. vm_compute. reflexivity. Qed.

Example binary32_add_stats :
  exists m',
    Add_densification_stats b32_viewspace [true; false; true] b32_statistics
    = (Returns tt, m')
    /\ rows (_xyz_gradient_accum m') = b32_column [8; 4; 0]%Z
    /\ rows (_denom m') = b32_column [2; 1; 1]%Z.
Proof. eexists. split; [vm_compute; reflexivity|]. split; reflexivity. Qed.

(** No power of two is a multiple of five, and so 0.01 is not a number of
    binary32. *)
Lemma pow2_mod5 (k : Z) : (0 <= k)%Z -> ((2 ^ k) mod 5 <> 0)%Z.
Proof.
  revert k. apply natlike_ind; [discriminate|].
  intros k Hk IH. rewrite Z.pow_succ_r by exact Hk.
  rewrite Z.mul_mod by discriminate.
  pose proof (Z.mod_pos_bound (2 ^ k) 5 eq_refl) as Hr.
  assert (Hcases : ((2 ^ k) mod 5 = 1 \/ (2 ^ k) mod 5 = 2
                    \/ (2 ^ k) mod 5 = 3 \/ (2 ^ k) mod 5 = 4)%Z) by lia.
  destruct Hcases as [-> | [-> | [-> | ->]]]; discriminate.
Qed.

Lemma b32_no_hundredth (o : binary32) (q : Q) :
  b32_value o = Some q -> ~ (q == 1 # 100)%Q.
Proof.
  destruct o as [s| | |s m e]; cbn [b32_value]; try discriminate.
  - intros [= <-] Heq. discriminate.
  - intros [= <-] Heq.
    set (z := cond_Zopp s (Z.pos m)) in *.
    destruct (Z.le_gt_cases 0 e) as [Hpos|Hneg].
    + change 2%Q with (inject_Z 2) in Heq.
      rewrite <- Zpower_Qpower, <- inject_Z_mult in Heq by exact Hpos.
      unfold Qeq in Heq. cbn [Qnum Qden inject_Z] in Heq. lia.
    + replace e with (- (- e))%Z in Heq by lia.
      rewrite Qpower_opp in Heq.
      change 2%Q with (inject_Z 2) in Heq.
      rewrite <- Zpower_Qpower in Heq by lia.
      assert (Hp : (0 < 2 ^ (- e))%Z) by (apply Z.pow_pos_nonneg; lia).
      destruct (2 ^ (- e))%Z as [|p|p] eqn:Hpow; try lia.
      unfold Qeq, Qmult, Qinv in Heq. cbn [Qnum Qden inject_Z] in Heq.
      apply (pow2_mod5 (- e)); [lia|].
      rewrite Hpow.
      replace (Z.pos p) with (z * 20 * 5)%Z by lia.
      apply Z_mod_mult.
Qed.

(** ** One iteration of statistics *)

Lemma list_of_three {A} (l : list A) (a b c : A) :
  length l = 3 -> l !! 0 = Some a -> l !! 1 = Some b -> l !! 2 = Some c ->
  l = [a; b; c].
Proof.
  destruct l as [|x [|y [|z [|w l]]]]; try discriminate.
  intros _ [= ->] [= ->] [= ->]. reflexivity.
Qed.

(** The first and the third of three primitives are visible; the first
    has view-space gradient (3, 4, 9), whose first two components have norm
    5, the third has gradient zero.  The accumulated gradients 3, 4, 0
    become 8, 4, 0 and the counts 1, 1, 0 become 2, 1, 1. *)
Lemma Add_densification_stats_filtered_witness :
  exists m',
    Add_densification_stats b32_viewspace [true; false; true] (b32_three 0)
    = (Returns tt, m')
    /\ stats_frame (b32_three 0) m'
    /\ rows (_xyz_gradient_accum m') = b32_column [8; 4; 0]%Z
    /\ rows (_denom m') = b32_column [2; 1; 1]%Z.
Proof.
  destruct (Add_densification_stats_filtered b32_viewspace [true; false; true]
              (b32_three 0) _ eq_refl eq_refl eq_refl (le_n 3))
    as (m' & Hrun & Hframe & Hla & Hld & Hkeep & Hadd).
  exists m'. split; [exact Hrun|]. split; [exact Hframe|].
  destruct (Hadd 0 _ _ _ eq_refl eq_refl eq_refl eq_refl) as [Hacc0 Hden0].
  destruct (Hkeep 1 eq_refl) as [Hacc1 Hden1].
  destruct (Hadd 2 _ _ _ eq_refl eq_refl eq_refl eq_refl) as [Hacc2 Hden2].
  split.
  - apply (list_of_three _ _ _ _ Hla); [exact Hacc0 | exact Hacc1 | exact Hacc2].
  - apply (list_of_three _ _ _ _ Hld); [exact Hden0 | exact Hden1 | exact Hden2].
Defined.

(** * The rest of the interface *)

(** ** The degree of the spherical harmonics *)

Section Degree.
Context {F : Type}.
Implicit Types m : GaussianModel F.

Lemma One_up_sh_degree_run m :
  (_max_sh_degree m <= INT_MAX)%Z ->
  One_up_sh_degree m
  = (Returns tt,
     if (_active_sh_degree m <? _max_sh_degree m)%Z
     then set_active_sh_degree (_active_sh_degree m + 1) m else m).
Proof.
  intros Hmax. unfold One_up_sh_degree. rewrite bind_get.
  destruct (Z.ltb_spec (_active_sh_degree m) (_max_sh_degree m)) as [Hlt|Hge];
    [|reflexivity].
  destruct (Z.leb_spec (_active_sh_degree m + 1) INT_MAX) as [_|Hover];
    [reflexivity | lia].
Qed.

(** X1: for a maximal degree within the range of an [int], any number of
    calls of [One_up_sh_degree] returns; the active degree has grown by the
    number of calls but not beyond the maximal degree, an active degree
    already above it stays, the increment never overflows, and nothing
    else of the model changes. *)
Theorem One_up_sh_degree_saturates (n : nat) : forall m,
  int_range (_max_sh_degree m) ->
  exists m',
    times n One_up_sh_degree m = (Returns tt, m')
    /\ _active_sh_degree m'
       = Z.max (_active_sh_degree m)
               (Z.min (_active_sh_degree m + Z.of_nat n) (_max_sh_degree m))
    /\ m' = set_active_sh_degree (_active_sh_degree m') m.
Proof.
  induction n as [|n IH]; intros m Hmax.
  - exists m. split; [reflexivity|]. split; [lia|]. destruct m; reflexivity.
  - cbn [times].
    rewrite (bind_run _ _ m tt _ (One_up_sh_degree_run m (proj2 Hmax))).
    destruct (Z.ltb_spec (_active_sh_degree m) (_max_sh_degree m)) as [Hlt|Hge].
    + destruct (IH (set_active_sh_degree (_active_sh_degree m + 1) m) Hmax)
        as (m' & Hrun & Hdeg & Hframe).
      exists m'. split; [exact Hrun|]. cbn in Hdeg. split; [lia|].
      rewrite Hframe at 1. reflexivity.
    + destruct (IH m Hmax) as (m' & Hrun & Hdeg & Hframe).
      exists m'. split; [exact Hrun|]. split; [lia | exact Hframe].
Qed.
End Degree.

(** ** The binding of the optimizer through the mutations *)

(** A model written out member by member. *)
Ltac normalize_model :=
  lazy [set_member set_xyz set_features_dc set_features_rest set_scaling
        set_rotation set_opacity set_optimizer set_next_impl set_denom
        set_xyz_gradient_accum set_max_radii2D set_active_sh_degree
        set_spatial_lr_scale set_percent_dense get_member
        _active_sh_degree _max_sh_degree _spatial_lr_scale _percent_dense
        _xyz _features_dc _features_rest _scaling _rotation _opacity
        _max_radii2D _xyz_gradient_accum _denom _optimizer next_impl].

(** The steps of a call, unfolded on a model written out. *)
Ltac unfold_calls :=
  cbv [bind gets get modify ret defined torch_try throw new_tensor].

Section Binding.
Context {F : Type} `{!Scalar F} `{!Transcendental F} `{!Helpers F}.
Implicit Types m : GaussianModel F.

Lemma prune_points_run (mask : list bool) m opt
    (d : member -> list (list F)) (a dn r : list (list F)) :
  _optimizer m = Some opt ->
  param_groups opt = map (fun f => [get_member f m]) members ->
  (forall f, index_select (rows (get_member f m)) (nonzero mask) = Some (d f)) ->
  index_select (rows (_xyz_gradient_accum m)) (nonzero (map negb mask)) = Some a ->
  index_select (rows (_denom m)) (nonzero (map negb mask)) = Some dn ->
  index_select (rows (_max_radii2D m)) (nonzero (map negb mask)) = Some r ->
  prune_points mask m
  = (Returns tt,
     let n := next_impl m in
     let t f := mkTensor (position f + n) (d f) None in
     mkGaussianModel (_active_sh_degree m) (_max_sh_degree m)
       (_spatial_lr_scale m) (_percent_dense m)
       (t m_xyz) (t m_features_dc) (t m_features_rest)
       (t m_scaling) (t m_rotation) (t m_opacity)
       (mkTensor (8 + n) r None) (mkTensor (6 + n) a None) (mkTensor (7 + n) dn None)
       (Some (mkAdam (map (fun f => [t f]) members) (state opt)))
       (9 + n)).
Proof.
  intros Hopt Hgroups Hd Ha Hdn Hr.
  destruct m as [act mx sc pd xyz fdc frest scal rot opa rad acc den o n].
  destruct opt as [groups st].
  cbn in *. subst o groups.
  pose proof (Hd m_xyz) as H0. pose proof (Hd m_features_dc) as H1.
  pose proof (Hd m_features_rest) as H2. pose proof (Hd m_scaling) as H3.
  pose proof (Hd m_rotation) as H4. pose proof (Hd m_opacity) as H5.
  cbn in H0, H1, H2, H3, H4, H5.
  unfold prune_points, prune_optimizer, set_group_param. unfold_calls.
  cbn. rewrite H0. cbn. rewrite H1. cbn. rewrite H2. cbn. rewrite H3. cbn.
  rewrite H4. cbn. rewrite H5. cbn. rewrite Ha. cbn. rewrite Hdn. cbn. rewrite Hr. cbn.
  normalize_model. reflexivity.
Qed.

Lemma densification_postfix_run
    (new_xyz new_features_dc new_features_rest
     new_scaling new_rotation new_opacity : list (list F)) m opt :
  _optimizer m = Some opt ->
  param_groups opt = map (fun f => [get_member f m]) members ->
  densification_postfix new_xyz new_features_dc new_features_rest
    new_scaling new_rotation new_opacity m
  = (Returns tt,
     let n := next_impl m in
     let t f ext := mkTensor (position f + n) (rows (get_member f m) ++ ext) None in
     let count := length (rows (_xyz m) ++ new_xyz) in
     mkGaussianModel (_active_sh_degree m) (_max_sh_degree m)
       (_spatial_lr_scale m) (_percent_dense m)
       (t m_xyz new_xyz) (t m_features_dc new_features_dc)
       (t m_features_rest new_features_rest)
       (t m_scaling new_scaling) (t m_rotation new_rotation)
       (t m_opacity new_opacity)
       (mkTensor (8 + n) (zeros count) None) (mkTensor (6 + n) (zeros count) None)
       (mkTensor (7 + n) (zeros count) None)
       (Some (mkAdam
                [[t m_xyz new_xyz]; [t m_features_dc new_features_dc];
                 [t m_features_rest new_features_rest];
                 [t m_scaling new_scaling]; [t m_rotation new_rotation];
                 [t m_opacity new_opacity]]
                (state opt)))
       (9 + n)).
Proof.
  intros Hopt Hgroups.
  destruct m as [act mx sc pd xyz fdc frest scal rot opa rad acc den o n].
  destruct opt as [groups st].
  cbn in *. subst o groups.
  vm_compute. reflexivity.
Qed.

Lemma reset_check_groups_passes (groups : list (list (Tensor F))) : forall i m,
  i + length groups <= 6 ->
  Forall (fun group => exists p, group = [p] /\ is_Some (grad p)) groups ->
  reset_check_groups i groups m = (Returns tt, m).
Proof.
  induction groups as [|g rest IH]; intros i m Hlen Hall; [reflexivity|].
  cbn in Hlen. inversion Hall as [|? ? (p & -> & [gp Hgp]) Hrest]; subst.
  cbn [reset_check_groups].
  assert (Hi : i < length mapping) by (cbn; lia).
  destruct (lookup_lt_is_Some_2 _ _ Hi) as [name Hname].
  rewrite (bind_run _ _ m name m) by (rewrite Hname; reflexivity).
  cbn. rewrite Hgp. apply IH; [lia | assumption].
Qed.

Lemma allocated_lookup m opt k :
  allocated m -> _optimizer m = Some opt -> next_impl m <= k -> state opt !! k = None.
Proof.
  intros Halloc Hopt Hk. destruct (state opt !! k) eqn:Hst; [|reflexivity].
  specialize (Halloc opt k Hopt (ex_intro _ _ Hst)). lia.
Qed.


(** X3: when [densification_postfix] returns on a model bound to its
    optimizer, the optimizer is bound to the six extended tensors; each of
    them is a new handle, with no gradient and with no entry in the
    optimizer state, whose entries are the ones before the call. *)
Theorem densification_postfix_rebinds
    (new_xyz new_features_dc new_features_rest
     new_scaling new_rotation new_opacity : list (list F)) m m' opt :
  _optimizer m = Some opt ->
  param_groups opt = map (fun f => [get_member f m]) members ->
  allocated m ->
  densification_postfix new_xyz new_features_dc new_features_rest
    new_scaling new_rotation new_opacity m = (Returns tt, m') ->
  bound m'
  /\ allocated m'
  /\ (exists opt', _optimizer m' = Some opt' /\ state opt' = state opt)
  /\ forall f opt', _optimizer m' = Some opt' ->
       grad (get_member f m') = None
       /\ state opt' !! impl (get_member f m') = None.
Proof.
  intros Hopt Hgroups Halloc Hrun.
  rewrite (densification_postfix_run _ _ _ _ _ _ m opt Hopt Hgroups) in Hrun.
  injection Hrun as <-. cbv zeta. split; [|split; [|split]].
  - eexists. split; reflexivity.
  - intros opt' k [= <-] Hk. cbn in *.
    specialize (Halloc opt k Hopt Hk). lia.
  - eexists. split; reflexivity.
  - intros f opt' [= <-]. split; [destruct f; reflexivity|].
    cbn [state]. apply (allocated_lookup m opt _ Halloc Hopt).
    destruct f; cbn; lia.
Qed.

(** X4: after a [prune_points] or a [densification_postfix] that
    returned on a model bound to its optimizer, [Reset_opacity] throws
    "param grad not defined: xyz" and changes nothing: the tensors that the
    mutation made have no gradient. *)
Theorem Reset_opacity_after_mutation (mask : list bool)
    (new_xyz new_features_dc new_features_rest
     new_scaling new_rotation new_opacity : list (list F)) m m' opt :
  _optimizer m = Some opt ->
  param_groups opt = map (fun f => [get_member f m]) members ->
  prune_points mask m = (Returns tt, m')
  \/ densification_postfix new_xyz new_features_dc new_features_rest
       new_scaling new_rotation new_opacity m = (Returns tt, m') ->
  Reset_opacity m' = (Throws (runtime_error "param grad not defined: xyz"), m').
Proof.
  intros Hopt Hgroups [Hrun|Hrun].
  - pose proof (prune_points_Returns mask m m' Hrun) as (Hd & Ha & Hdn & Hr & _).
    rewrite (prune_points_run mask m opt _ _ _ _ Hopt Hgroups Hd Ha Hdn Hr) in Hrun.
    injection Hrun as <-. reflexivity.
  - rewrite (densification_postfix_run _ _ _ _ _ _ m opt Hopt Hgroups) in Hrun.
    injection Hrun as <-. reflexivity.
Qed.

Lemma Reset_opacity_run m opt (g : member -> list (list F)) :
  _optimizer m = Some opt ->
  param_groups opt = map (fun f => [get_member f m]) members ->
  (forall f, grad (get_member f m) = Some (g f)) ->
  Reset_opacity m
  = let n := next_impl m in
    let new_opacity :=
      mkTensor n
        (map (map (fun _ => inverse_sigmoid (fmul fone (fconst (1 # 100)))))
             (Get_opacity m)) None in
    match state opt !! impl (_opacity m) with
    | Some st =>
        (Returns tt,
         mkGaussianModel (_active_sh_degree m) (_max_sh_degree m)
           (_spatial_lr_scale m) (_percent_dense m)
           (_xyz m) (_features_dc m) (_features_rest m)
           (_scaling m) (_rotation m) new_opacity
           (_max_radii2D m) (_xyz_gradient_accum m) (_denom m)
           (Some (mkAdam
                    [[_xyz m]; [_features_dc m]; [_features_rest m];
                     [_scaling m]; [_rotation m]; [new_opacity]]
                    (<[impl (_opacity m) :=
                         mkAdamParamState (step st)
                           (zeros_like (rows new_opacity))
                           (zeros_like (rows new_opacity))]> (state opt))))
           (S n))
    | None => (Throws undefined_behaviour, set_next_impl (S n) m)
    end.
Proof.
  intros Hopt Hgroups Hgrad.
  pose proof (Hgrad m_xyz) as G0. pose proof (Hgrad m_features_dc) as G1.
  pose proof (Hgrad m_features_rest) as G2. pose proof (Hgrad m_scaling) as G3.
  pose proof (Hgrad m_rotation) as G4. pose proof (Hgrad m_opacity) as G5.
  destruct m as [act mx sc pd xyz fdc frest scal rot opa rad acc den o n].
  destruct opt as [groups st].
  destruct xyz, fdc, frest, scal, rot, opa.
  cbn in *. subst.
  unfold Reset_opacity. unfold_calls. cbn.
  destruct (st !! _) as [s|]; reflexivity.
Qed.

(** X5: on a model bound to its optimizer whose six parameters have a
    gradient, [Reset_opacity] is undefined when the optimizer state has no
    entry for the opacity parameter, as before the first step of the
    optimizer: the source dereferences the null pointer that the lookup
    inserts. *)
Theorem Reset_opacity_without_moments m opt :
  _optimizer m = Some opt ->
  param_groups opt = map (fun f => [get_member f m]) members ->
  (forall f, is_Some (grad (get_member f m))) ->
  state opt !! impl (_opacity m) = None ->
  Reset_opacity m
  = (Throws undefined_behaviour, set_next_impl (S (next_impl m)) m).
Proof.
  intros Hopt Hgroups Hgrad Hst.
  assert (Hg : forall f, grad (get_member f m)
                         = Some (default [] (grad (get_member f m)))).
  { intros f. destruct (Hgrad f) as [x ->]. reflexivity. }
  rewrite (Reset_opacity_run m opt _ Hopt Hgroups Hg). cbv zeta.
  rewrite Hst. reflexivity.
Qed.

(** X6: when [Reset_opacity] returns on a model bound to its optimizer,
    the optimizer is bound to the six tensors again, but the new opacity
    tensor has no gradient and no entry in the optimizer state: the zeroed
    moments stay under the key of the tensor that was replaced.  A second
    [Reset_opacity] throws "param grad not defined: opacity" and changes
    nothing. *)
Theorem Reset_opacity_rebinds m m' opt :
  _optimizer m = Some opt ->
  param_groups opt = map (fun f => [get_member f m]) members ->
  allocated m ->
  Reset_opacity m = (Returns tt, m') ->
  bound m'
  /\ allocated m'
  /\ grad (_opacity m') = None
  /\ (forall opt', _optimizer m' = Some opt' ->
        state opt' !! impl (_opacity m') = None
        /\ is_Some (state opt' !! impl (_opacity m)))
  /\ Reset_opacity m'
     = (Throws (runtime_error "param grad not defined: opacity"), m').
Proof.
  intros Hopt Hgroups Halloc Hrun.
  assert (Hg : forall f, grad (get_member f m)
                         = Some (default [] (grad (get_member f m)))).
  { unfold Reset_opacity in Hrun.
    apply bind_Returns in Hrun as (m0 & s0 & [= <- <-] & Hrun).
    apply bind_Returns in Hrun as (opt0 & s1 & Hopt0 & Hrun).
    apply defined_Returns in Hopt0 as [Hopt0 ->].
    rewrite Hopt in Hopt0. injection Hopt0 as <-.
    apply bind_Returns in Hrun as ([] & s2 & Hcheck & _).
    apply reset_check_groups_Returns in Hcheck. rewrite Hgroups in Hcheck.
    intros f.
    assert (Hf : [get_member f m] ∈ map (fun f => [get_member f m]) members)
      by (destruct f; cbn; set_solver).
    destruct (proj1 (Forall_forall _ _) Hcheck _ Hf) as (p & [= <-] & [x ->]).
    reflexivity. }
  rewrite (Reset_opacity_run m opt _ Hopt Hgroups Hg) in Hrun. cbv zeta in Hrun.
  destruct (state opt !! impl (_opacity m)) as [st|] eqn:Hst; [|discriminate].
  injection Hrun as <-.
  split; [eexists; split; reflexivity|].
  split.
  { intros opt' k [= <-] Hk. cbn in *.
    destruct (decide (k = impl (_opacity m))) as [->|Hne].
    - specialize (Halloc opt _ Hopt (ex_intro _ _ Hst)). lia.
    - rewrite lookup_insert_ne in Hk by congruence.
      specialize (Halloc opt k Hopt Hk). lia. }
  split; [reflexivity|].
  split.
  { intros opt' [= <-]. cbn.
    assert (Hlt : impl (_opacity m) < next_impl m)
      by (apply (Halloc opt _ Hopt); eexists; exact Hst).
    split.
    - rewrite lookup_insert_ne by lia.
      apply (allocated_lookup m opt _ Halloc Hopt). lia.
    - rewrite lookup_insert_eq. eexists. reflexivity. }
  pose proof (Hg m_xyz) as G0. pose proof (Hg m_features_dc) as G1.
  pose proof (Hg m_features_rest) as G2. pose proof (Hg m_scaling) as G3.
  pose proof (Hg m_rotation) as G4.
  destruct m as [act mx sc pd xyz fdc frest scal rot opa rad acc den o n].
  destruct xyz as [? ? [?|]], fdc as [? ? [?|]], frest as [? ? [?|]],
    scal as [? ? [?|]], rot as [? ? [?|]]; try discriminate.
  reflexivity.
Qed.

(** X7: [densification_postfix] on an optimizer whose groups are not six
    throws "optimizer param groups size not 6"; with six groups of which
    one does not hold exactly one parameter it throws "too many params:
    xyz", whichever group that is, because the counter of the loop is never
    advanced.  In both cases the model is the one before the call. *)
Theorem densification_postfix_rejects
    (new_xyz new_features_dc new_features_rest
     new_scaling new_rotation new_opacity : list (list F)) m opt :
  _optimizer m = Some opt ->
  (length (param_groups opt) <> 6 ->
   densification_postfix new_xyz new_features_dc new_features_rest
     new_scaling new_rotation new_opacity m
   = (Throws (runtime_error "optimizer param groups size not 6"), m))
  /\ (length (param_groups opt) = 6 ->
      Exists (fun group => length group <> 1) (param_groups opt) ->
      densification_postfix new_xyz new_features_dc new_features_rest
        new_scaling new_rotation new_opacity m
      = (Throws (runtime_error "too many params: xyz"), m)).
Proof.
  intros Hopt. unfold densification_postfix.
  run_step. rewrite Hopt. run_step. split.
  - intros Hlen. apply Nat.eqb_neq in Hlen. rewrite Hlen. reflexivity.
  - intros Hlen Hex. rewrite Hlen. cbn [Nat.eqb negb].
    apply bind_throw. clear Hlen Hopt.
    induction Hex as [g rest Hg|g rest Hex IH]; cbn [postfix_check_groups].
    + change (mapping !! 0) with (Some "xyz"%string). run_step.
      destruct (Nat.eqb (length g) 1) eqn:Hg1;
        [apply Nat.eqb_eq in Hg1; contradiction|].
      reflexivity.
    + change (mapping !! 0) with (Some "xyz"%string). run_step.
      destruct (Nat.eqb (length g) 1); [exact IH | reflexivity].
Qed.
End Binding.

Section Edges.
Context {F : Type} `{!Scalar F} `{!Transcendental F} `{!Helpers F}.
Implicit Types m : GaussianModel F.

(** X8: whatever its arguments, [Add_densification_stats] either returns
    or throws the error of a libtorch call, and in both cases the model
    afterwards is the one before except for the rows of the two statistics
    tensors; when the view-space tensor has no gradient it throws and
    changes nothing. *)
Theorem Add_densification_stats_frame (v : Tensor F) (update_filter : list bool) m :
  stats_frame m (Add_densification_stats v update_filter m).2
  /\ ((Add_densification_stats v update_filter m).1 = Returns tt
      \/ (Add_densification_stats v update_filter m).1 = Throws c10_error)
  /\ match grad v with
     | None => Add_densification_stats v update_filter m = (Throws c10_error, m)
     | Some _ => True
     end.
Proof.
  destruct m as [act mx sc pd xyz fdc frest scal rot opa rad acc den o n].
  destruct acc as [ia ra ga], den as [id rd gd].
  unfold Add_densification_stats, stats_frame. unfold_calls. cbn.
  destruct (index_select ra (nonzero update_filter)) as [accum_sel|]; cbn;
    [|destruct (grad v); auto].
  destruct (grad v) as [g|]; cbn; [|auto].
  destruct (index_select g (nonzero update_filter)) as [grad_sel|]; cbn; [|auto].
  destruct (tensor_op2 fadd accum_sel _) as [values|]; cbn; [|auto].
  destruct (index_put_ ra update_filter values) as [updated|]; cbn; [|auto].
  destruct (index_select rd (nonzero update_filter)) as [denom_sel|]; cbn; [|auto].
  destruct (index_put_ rd update_filter _) as [updated2|]; cbn; auto.
Qed.

(** X9: a gradient tensor with more rows than there are primitives, and
    more than one row, makes [densify_and_split] throw the error of the
    copy into [padded_grad] before anything is changed. *)
Theorem densify_and_split_rejects_long_grads (randn : nat -> nat -> F)
    (grads : list (list F)) (grad_threshold scene_extent : F) (N : nat) m :
  length (rows (_xyz m)) < length grads ->
  length grads <> 1 ->
  densify_and_split randn grads grad_threshold scene_extent N m
  = (Throws c10_error, m).
Proof.
  intros Hlong Hone. unfold densify_and_split. apply bind_throw.
  unfold split_selected_mask. run_step.
  assert (Hpad : padded_grad (length (rows (_xyz m))) grads = None).
  { unfold padded_grad. destruct (squeeze_column grads) as [g|] eqn:Hsq; [|reflexivity].
    apply squeeze_column_length in Hsq. rewrite Hsq.
    destruct (Nat.leb_spec (length grads) (length (rows (_xyz m)))) as [Hle|_]; [lia|].
    destruct (Nat.eqb_spec (length grads) 1) as [Heq|_]; [lia | reflexivity]. }
  rewrite Hpad. reflexivity.
Qed.

End Edges.

(** ** Cloning on a well-formed model *)

Lemma nonzero_rows_from_lt (mask : list (list bool)) : forall i,
  Forall (fun j => j < i + length mask) (nonzero_rows_from i mask).
Proof.
  induction mask as [|row mask IH]; intros i; cbn [nonzero_rows_from];
    [constructor|].
  apply Forall_app. split.
  - apply Forall_forall. intros j Hj. apply elem_of_replicate in Hj as [-> _].
    cbn. lia.
  - eapply Forall_impl; [apply IH|]. intros j Hj. cbn in *. lia.
Qed.

Lemma index_select_is_Some {A} (t : list A) (idx : list nat) :
  Forall (fun j => j < length t) idx -> is_Some (index_select t idx).
Proof.
  intros Hidx. unfold index_select. apply mapM_is_Some.
  eapply Forall_impl; [exact Hidx|]. intros j Hj. cbn.
  apply lookup_lt_is_Some_2. exact Hj.
Qed.

Section CloneReturns.
Context {F : Type} `{!Scalar F} `{!Transcendental F} `{!Helpers F}.
Implicit Types m : GaussianModel F.

Lemma max_dim1_is_Some (t : list (list F)) :
  Forall (fun r => r <> []) t ->
  exists maxs, max_dim1 t = Some maxs /\ length maxs = length t.
Proof.
  intros Hrows. unfold max_dim1.
  destruct (mapM row_max t) as [maxs|] eqn:Hmax.
  - exists maxs. split; [reflexivity|]. symmetry. eapply length_mapM, Hmax.
  - exfalso. assert (Hsome : is_Some (mapM row_max t)).
    { apply mapM_is_Some. eapply Forall_impl; [exact Hrows|].
      intros [|x r] Hr; [contradiction|]. eexists. reflexivity. }
    rewrite Hmax in Hsome. destruct Hsome as [? [=]].
Qed.

Lemma clone_selected_mask_run (grads : list (list F)) (thr ext : F) m :
  length grads = length (rows (_scaling m)) ->
  Forall (fun r => r <> []) (rows (_scaling m)) ->
  exists mask,
    clone_selected_mask grads thr ext m = (Returns mask, m)
    /\ length mask = length grads.
Proof.
  intros Hlen Hrows.
  destruct (max_dim1_is_Some (Get_scaling m)) as (maxs & Hmax & Hmaxs).
  { unfold Get_scaling. apply Forall_forall. intros r Hr.
    apply list_elem_of_fmap in Hr as (r0 & -> & Hr0).
    pose proof (proj1 (Forall_forall _ _) Hrows r0 Hr0) as Hne.
    destruct r0; [contradiction | discriminate]. }
  unfold Get_scaling in Hmaxs. rewrite length_map in Hmaxs.
  unfold clone_selected_mask. cbv zeta.
  eexists. split.
  - run_step. rewrite Hmax. run_step.
    rewrite <- (map_map (fun s => fle s (fmul (_percent_dense m) ext))
                        (fun b => [b])).
    rewrite tensor_op2_columns by (rewrite !length_map; lia).
    reflexivity.
  - rewrite length_zip_with, !length_map. lia.
Qed.

(** X11: on a model bound to its optimizer, with at least one primitive,
    three scales per primitive and a gradient row per primitive,
    [densify_and_clone] returns: every optimizable tensor is the one before
    followed by its rows at the selected indices, the three statistics
    tensors are zero with a row per primitive, and the optimizer is bound to
    the six new tensors. *)
Theorem densify_and_clone_returns (grads : list (list F)) (thr ext : F) m opt :
  _optimizer m = Some opt ->
  param_groups opt = map (fun f => [get_member f m]) members ->
  rows (_scaling m) <> [] ->
  Forall (fun r => length r = 3) (rows (_scaling m)) ->
  length grads = length (rows (_scaling m)) ->
  (forall f, length grads <= length (rows (get_member f m))) ->
  exists m' mask,
    densify_and_clone grads thr ext m = (Returns tt, m')
    /\ clone_selected_mask grads thr ext m = (Returns mask, m)
    /\ (forall f, exists selected,
          index_select (rows (get_member f m)) (nonzero_rows mask) = Some selected
          /\ rows (get_member f m') = rows (get_member f m) ++ selected)
    /\ rows (_xyz_gradient_accum m') = zeros (length (rows (_xyz m')))
    /\ rows (_denom m') = zeros (length (rows (_xyz m')))
    /\ rows (_max_radii2D m') = zeros (length (rows (_xyz m')))
    /\ bound m'.
Proof.
  intros Hopt Hgroups _ Hwidth Hlen Hsix.
  assert (Hrows : Forall (fun r => r <> []) (rows (_scaling m))).
  { eapply Forall_impl; [exact Hwidth|]. intros [|x r] Hr; [discriminate Hr|].
    discriminate. }
  destruct (clone_selected_mask_run grads thr ext m Hlen Hrows)
    as (mask & Hmask & Hmasklen).
  assert (Hsel : forall f,
            is_Some (index_select (rows (get_member f m)) (nonzero_rows mask))).
  { intros f. apply index_select_is_Some.
    eapply Forall_impl; [apply (nonzero_rows_from_lt mask 0)|].
    intros j Hj. cbn in Hj. specialize (Hsix f). lia. }
  destruct (Hsel m_xyz) as [s0 H0]. destruct (Hsel m_features_dc) as [s1 H1].
  destruct (Hsel m_features_rest) as [s2 H2]. destruct (Hsel m_scaling) as [s3 H3].
  destruct (Hsel m_rotation) as [s4 H4]. destruct (Hsel m_opacity) as [s5 H5].
  cbn [get_member] in H0, H1, H2, H3, H4, H5.
  eexists. exists mask. split.
  - unfold densify_and_clone.
    rewrite (bind_run _ _ m mask m Hmask). cbv zeta. run_step.
    rewrite H0. run_step. rewrite H1. run_step. rewrite H2. run_step.
    rewrite H5. run_step. rewrite H3. run_step. rewrite H4. run_step.
    apply (densification_postfix_run _ _ _ _ _ _ m opt Hopt Hgroups).
  - cbv zeta. split; [exact Hmask|].
    split; [intros []; cbn [get_member]; eexists; (split; [eassumption | reflexivity])|].
    split; [reflexivity|]. split; [reflexivity|]. split; [reflexivity|].
    eexists. split; reflexivity.
Qed.
End CloneReturns.

(** ** The first statistics after a reset *)

Section FirstStatistics.
Context {F : Type} `{!Scalar F} `{!Transcendental F} `{!Helpers F}.
Implicit Types m : GaussianModel F.

Lemma Add_densification_stats_run (v : Tensor F) (update_filter : list bool)
    m (g : list (list F)) :
  grad v = Some g ->
  length update_filter = length (rows (_xyz_gradient_accum m)) ->
  length update_filter = length (rows (_denom m)) ->
  length update_filter <= length g ->
  Add_densification_stats v update_filter m
  = (Returns tt,
     let accum := _xyz_gradient_accum m in
     let denom := _denom m in
     set_denom
       (mkTensor (impl denom)
          (masked_put (rows denom) update_filter
             (map (map (fun d => fadd d fone))
                  (masked_select (rows denom) update_filter)))
          (grad denom))
       (set_xyz_gradient_accum
          (mkTensor (impl accum)
             (masked_put (rows accum) update_filter
                (zip_with (fun a n => map (fun x => fadd x n) a)
                   (masked_select (rows accum) update_filter)
                   (map (fun r => norm [take 2 r])
                        (masked_select g update_filter))))
             (grad accum)) m)).
Proof.
  intros Hg Hacc Hden Hgl. cbv zeta.
  unfold Add_densification_stats. run_step.
  rewrite index_select_nonzero by lia. run_step.
  rewrite Hg. run_step.
  rewrite index_select_nonzero by lia. run_step.
  rewrite <- (map_map (fun r => norm [take 2 r]) (fun n => [n])).
  rewrite tensor_op2_columns
    by (rewrite length_map, !masked_select_length by lia; reflexivity).
  run_step. unfold index_put_.
  rewrite (proj2 (Nat.eqb_eq _ _) Hacc).
  rewrite length_zip_with, length_map, !masked_select_length by lia.
  rewrite Nat.min_id, Nat.eqb_refl. cbn [andb].
  do 3 run_step. simpl_model.
  rewrite index_select_nonzero by lia. run_step.
  unfold index_put_.
  rewrite (proj2 (Nat.eqb_eq _ _) Hden).
  rewrite length_map, masked_select_length by lia.
  rewrite Nat.eqb_refl. cbn [andb].
  run_step. reflexivity.
Qed.

Lemma first_statistics_rows (v : Tensor F) (update_filter : list bool)
    m (g : list (list F)) (i : nat) (b : bool) (gi : list F) :
  rows (_xyz_gradient_accum m) = zeros (length update_filter) ->
  rows (_denom m) = zeros (length update_filter) ->
  length update_filter <= length g ->
  update_filter !! i = Some b -> g !! i = Some gi ->
  masked_put (rows (_xyz_gradient_accum m)) update_filter
    (zip_with (fun a n => map (fun x => fadd x n) a)
       (masked_select (rows (_xyz_gradient_accum m)) update_filter)
       (map (fun r => norm [take 2 r]) (masked_select g update_filter))) !! i
  = Some [if b then fadd fzero (norm [take 2 gi]) else fzero]
  /\ masked_put (rows (_denom m)) update_filter
       (map (map (fun d => fadd d fone))
            (masked_select (rows (_denom m)) update_filter)) !! i
     = Some [if b then fadd fzero fone else fzero].
Proof.
  intros Hacc Hden Hgl Hi Hgi.
  assert (Hlt : i < length update_filter) by (eapply lookup_lt_Some; exact Hi).
  assert (Hzero : zeros (length update_filter) !! i = Some [fzero])
    by (apply lookup_replicate_2; exact Hlt).
  rewrite Hacc, Hden.
  rewrite !masked_put_lookup, Hi.
  2:{ rewrite length_map, masked_select_length
        by (unfold zeros; rewrite length_replicate; lia). reflexivity. }
  2:{ rewrite length_zip_with, length_map, !masked_select_length
        by (unfold zeros; rewrite ?length_replicate; lia). lia. }
  destruct b.
  - destruct (decide (i < length (zeros (length update_filter)))) as [_|Hn];
      [|unfold zeros in Hn; rewrite length_replicate in Hn; lia].
    rewrite lookup_zip_with, !list_lookup_fmap.
    rewrite !masked_select_lookup
      by (auto; unfold zeros; rewrite ?length_replicate; lia).
    rewrite Hzero, Hgi. split; reflexivity.
  - rewrite Hzero. split; reflexivity.
Qed.
End FirstStatistics.

(** X12: in real arithmetic, on statistics that are zero, as
    [densification_postfix] and [Training_setup] leave them,
    [Add_densification_stats] followed by the quotient of
    [Densify_and_prune] gives every visible primitive the norm of the
    first two components of its view-space gradient, or zero when that
    norm is not a number, and every other primitive zero. *)
Theorem first_statistics_mean_gradient (v : Tensor xreal)
    (update_filter : list bool) (m : GaussianModel xreal) (g : list (list xreal)) :
  grad v = Some g ->
  rows (_xyz_gradient_accum m) = zeros (length update_filter) ->
  rows (_denom m) = zeros (length update_filter) ->
  length update_filter <= length g ->
  exists m' grads,
    Add_densification_stats v update_filter m = (Returns tt, m')
    /\ mean_gradient m' = Some grads
    /\ length grads = length update_filter
    /\ forall (i : nat) (b : bool) (gi : list xreal),
         update_filter !! i = Some b -> g !! i = Some gi ->
         grads !! i
         = Some [if b
                 then if fisnan (norm [take 2 gi]) then fzero
                      else norm [take 2 gi]
                 else fzero].
Proof.
  intros Hg Hacc Hden Hgl.
  assert (Hla : length update_filter = length (rows (_xyz_gradient_accum m)))
    by (rewrite Hacc; unfold zeros; rewrite length_replicate; reflexivity).
  assert (Hld : length update_filter = length (rows (_denom m)))
    by (rewrite Hden; unfold zeros; rewrite length_replicate; reflexivity).
  eexists. eexists.
  split; [apply (Add_densification_stats_run v update_filter m g Hg Hla Hld Hgl)|].
  cbv zeta. unfold mean_gradient. simpl_model.
  set (A := masked_put (rows (_xyz_gradient_accum m)) update_filter _).
  set (D := masked_put (rows (_denom m)) update_filter _).
  assert (HlA : length A = length update_filter).
  { apply Nat.le_antisymm.
    - apply Nat.nlt_ge. intros Hlt.
      destruct (lookup_lt_is_Some_2 A (length update_filter) Hlt) as [x Hx].
      unfold A in Hx. rewrite masked_put_lookup in Hx.
      + rewrite (lookup_ge_None_2 update_filter) in Hx by lia.
        apply lookup_lt_Some in Hx. lia.
      + rewrite length_zip_with, length_map, !masked_select_length by lia. lia.
    - apply Nat.nlt_ge. intros Hlt.
      destruct (lookup_lt_is_Some_2 update_filter (length A) Hlt) as [b Hb].
      destruct (lookup_lt_is_Some_2 g (length A)) as [gi Hgi]; [lia|].
      destruct (first_statistics_rows v update_filter m g _ b gi Hacc Hden Hgl Hb Hgi)
        as [HA _].
      fold A in HA. apply lookup_lt_Some in HA. lia. }
  assert (HlD : length D = length update_filter).
  { apply Nat.le_antisymm.
    - apply Nat.nlt_ge. intros Hlt.
      destruct (lookup_lt_is_Some_2 D (length update_filter) Hlt) as [x Hx].
      unfold D in Hx. rewrite masked_put_lookup in Hx.
      + rewrite (lookup_ge_None_2 update_filter) in Hx by lia.
        apply lookup_lt_Some in Hx. lia.
      + rewrite length_map, masked_select_length by lia. reflexivity.
    - apply Nat.nlt_ge. intros Hlt.
      destruct (lookup_lt_is_Some_2 update_filter (length D) Hlt) as [b Hb].
      destruct (lookup_lt_is_Some_2 g (length D)) as [gi Hgi]; [lia|].
      destruct (first_statistics_rows v update_filter m g _ b gi Hacc Hden Hgl Hb Hgi)
        as [_ HD].
      fold D in HD. apply lookup_lt_Some in HD. lia. }
  assert (Hshape : Forall2 (fun a b => length a = length b) A D).
  { apply Forall2_same_length_lookup_2; [congruence|].
    intros i a d Ha Hd.
    assert (Hi : i < length update_filter) by (apply lookup_lt_Some in Ha; lia).
    destruct (lookup_lt_is_Some_2 update_filter i Hi) as [b Hb].
    destruct (lookup_lt_is_Some_2 g i) as [gi Hgi]; [lia|].
    destruct (first_statistics_rows v update_filter m g _ b gi Hacc Hden Hgl Hb Hgi)
      as [HA HD].
    fold A in HA. fold D in HD.
    rewrite HA in Ha. rewrite HD in Hd.
    injection Ha as <-. injection Hd as <-. reflexivity. }
  rewrite (tensor_op2_same_shape fdiv A D Hshape).
  subst A D.
  split; [reflexivity|]. split.
  - rewrite length_map, length_zip_with, HlA, HlD. apply Nat.min_id.
  - intros i b gi Hb Hgi.
    destruct (first_statistics_rows v update_filter m g _ b gi Hacc Hden Hgl Hb Hgi)
      as [HA HD].
    rewrite list_lookup_fmap, lookup_zip_with, HA, HD.
    cbn [bind option_bind mbind option_fmap fmap list_fmap zip_with map].
    cbn [option_map map]. f_equal. f_equal.
    destruct b.
    + cbn [fadd fzero fone xreal_Scalar].
      destruct (norm [take 2 gi]) as [|x]; cbn [xlift2 fdiv xreal_Scalar].
      * reflexivity.
      * rewrite xdiv_real by lra. cbn [fisnan xreal_Scalar xisnan].
        f_equal. field.
    + cbn [fdiv fzero xreal_Scalar]. rewrite xdiv_zero. reflexivity.
Qed.

Lemma index_select_zip_with {A B C} (f : A -> B -> C) (a : list A) (b : list B) idx :
  forall a' b',
  index_select a idx = Some a' -> index_select b idx = Some b' ->
  index_select (zip_with f a b) idx = Some (zip_with f a' b').
Proof.
  unfold index_select. induction idx as [|i idx IH]; intros a' b' Ha Hb; cbn in *.
  - injection Ha as <-. injection Hb as <-. reflexivity.
  - rewrite lookup_zip_with.
    destruct (a !! i) as [x|]; cbn in *; [|discriminate].
    destruct (b !! i) as [y|]; cbn in *; [|discriminate].
    destruct (mapM (fun j => a !! j) idx) as [u|]; cbn in *; [|discriminate].
    destruct (mapM (fun j => b !! j) idx) as [w|]; cbn in *; [|discriminate].
    injection Ha as <-. injection Hb as <-.
    rewrite (IH u w eq_refl eq_refl). reflexivity.
Qed.

Section Features.
Context {F : Type} `{!Scalar F} `{!Transcendental F} `{!Helpers F}.
Implicit Types m : GaussianModel F.

Lemma cat_dim1_Some (a b fs : list (list F)) :
  cat_dim1 a b = Some fs -> length a = length b /\ fs = zip_with app a b.
Proof.
  unfold cat_dim1. destruct (Nat.eqb_spec (length a) (length b)); [|discriminate].
  intros [= <-]. auto.
Qed.

(** X13: the features follow the primitives through the mutations.  On a
    model with at least one primitive whose features [Get_features] gives:
    after a [densification_postfix] that returned, [Get_features] gives the
    features of before followed by the concatenated rows of the two
    extensions; after a [prune_points] that returned, it gives the features
    of before gathered at the rows that the mask marks. *)
Theorem Get_features_follows_mutations (mask : list bool)
    (new_xyz new_features_dc new_features_rest
     new_scaling new_rotation new_opacity : list (list F)) m fs :
  Get_features m = Some fs ->
  fs <> [] ->
  (forall m',
     densification_postfix new_xyz new_features_dc new_features_rest
       new_scaling new_rotation new_opacity m = (Returns tt, m') ->
     length new_features_dc = length new_features_rest ->
     Get_features m' = Some (fs ++ zip_with app new_features_dc new_features_rest))
  /\ (forall m',
        prune_points mask m = (Returns tt, m') ->
        Get_features m' = index_select fs (nonzero mask)).
Proof.
  unfold Get_features. cbv zeta. intros Hfs _.
  apply cat_dim1_Some in Hfs as [Hlen ->]. split.
  - intros m' Hrun Hnew.
    apply densification_postfix_Returns in Hrun as (_ & Hdc & Hrest & _).
    rewrite Hdc, Hrest. unfold cat_dim1.
    rewrite !length_app, Hlen, Hnew, Nat.eqb_refl.
    rewrite zip_with_app by exact Hlen. reflexivity.
  - intros m' Hrun.
    apply prune_points_Returns in Hrun as (Hsix & _).
    pose proof (Hsix m_features_dc) as Hdc. pose proof (Hsix m_features_rest) as Hrest.
    cbn [get_member] in Hdc, Hrest.
    rewrite (index_select_zip_with app _ _ _ _ _ Hdc Hrest).
    unfold cat_dim1.
    rewrite (index_select_length _ _ _ Hdc), (index_select_length _ _ _ Hrest).
    rewrite Nat.eqb_refl. reflexivity.
Qed.
End Features.

Section Initialisation.
Context {F : Type} `{!Scalar F} `{!Transcendental F} `{!Helpers F}.
Variable RGB2SH : F -> F.
Variable distCUDA2 : list (list F) -> list F.
Implicit Types m : GaussianModel F.

Lemma Create_from_pcd_run (pcd : PointCloud F) (spatial_lr_scale : F) m :
  (0 <= _max_sh_degree m < INT_MAX)%Z ->
  Create_from_pcd RGB2SH distCUDA2 pcd spatial_lr_scale m
  = (Returns tt,
     let n := next_impl m in
     let fused_point_cloud := map (fun p => [p.1.1; p.1.2; p.2]) (_points pcd) in
     let fused_color :=
       map (fun c => map (fun b => RGB2SH (fdiv (of_byte b) (fconst 255)))
                         [c.1.1; c.1.2; c.2]) (_colors pcd) in
     let coefficients := Z.to_nat ((_max_sh_degree m + 1) ^ 2) in
     mkGaussianModel (_active_sh_degree m) (_max_sh_degree m)
       spatial_lr_scale (_percent_dense m)
       (mkTensor n fused_point_cloud None)
       (mkTensor (1 + n) fused_color None)
       (mkTensor (2 + n)
          (map (fun _ => replicate (3 * (coefficients - 1)) fzero) fused_color) None)
       (mkTensor (3 + n)
          (map (fun d => replicate 3 (torch_log (fsqrt d)))
               (map (fun d => fmax d (fconst (1 # 10000000)))
                    (distCUDA2 fused_point_cloud))) None)
       (mkTensor (4 + n)
          (map (fun _ => [fone; fzero; fzero; fzero]) fused_point_cloud) None)
       (mkTensor (5 + n)
          (map (fun _ => [inverse_sigmoid (fmul (fconst (1 # 2)) fone)])
               fused_point_cloud) None)
       (mkTensor (6 + n) (zeros (length fused_point_cloud)) None)
       (_xyz_gradient_accum m) (_denom m) (_optimizer m) (7 + n)).
Proof.
  intros Hdeg. unfold Create_from_pcd. cbv zeta. do 2 run_step.
  change (_max_sh_degree (set_spatial_lr_scale spatial_lr_scale m))
    with (_max_sh_degree m).
  destruct (Z.leb_spec (_max_sh_degree m + 1) INT_MAX) as [_|Hover]; [|lia].
  cbn [negb].
  destruct (Nat.eqb_spec (Z.to_nat ((_max_sh_degree m + 1) ^ 2)) 0) as [Hzero|_];
    [nia|].
  destruct m as [act mx sc pd xyz fdc frest scal rot opa rad acc den o n].
  reflexivity.
Qed.

(** X14: for a maximal degree from 0 up and below the largest [int],
    [Create_from_pcd] returns.  The position tensor holds the points; the
    two feature tensors have a row per colour, the rotation, opacity and
    radius tensors a row per point and the scaling tensor a row per
    distance; every rotation is the identity quaternion, every higher
    coefficient is zero, every scaling row holds one value three times.
    The two statistics tensors and the optimizer are the ones before the
    call. *)
Theorem Create_from_pcd_seeds (pcd : PointCloud F) (spatial_lr_scale : F) m :
  (0 <= _max_sh_degree m < INT_MAX)%Z ->
  exists m',
    Create_from_pcd RGB2SH distCUDA2 pcd spatial_lr_scale m = (Returns tt, m')
    /\ rows (_xyz m') = map (fun p => [p.1.1; p.1.2; p.2]) (_points pcd)
    /\ length (rows (_features_dc m')) = length (_colors pcd)
    /\ length (rows (_features_rest m')) = length (_colors pcd)
    /\ length (rows (_scaling m')) = length (distCUDA2 (rows (_xyz m')))
    /\ length (rows (_rotation m')) = length (_points pcd)
    /\ length (rows (_opacity m')) = length (_points pcd)
    /\ rows (_max_radii2D m') = zeros (length (_points pcd))
    /\ Forall (fun q => q = [fone; fzero; fzero; fzero]) (rows (_rotation m'))
    /\ Forall (Forall (fun c => c = fzero)) (rows (_features_rest m'))
    /\ Forall (fun r => exists s, r = [s; s; s]) (rows (_scaling m'))
    /\ _xyz_gradient_accum m' = _xyz_gradient_accum m
    /\ _denom m' = _denom m
    /\ _optimizer m' = _optimizer m.
Proof.
  intros Hdeg. eexists. split; [apply Create_from_pcd_run, Hdeg|].
  cbv zeta. cbn [_xyz _features_dc _features_rest _scaling _rotation _opacity
                 _max_radii2D _xyz_gradient_accum _denom _optimizer rows].
  rewrite !length_map.
  repeat split.
  - apply Forall_forall. intros q Hq.
    apply list_elem_of_fmap in Hq as (x & -> & _). reflexivity.
  - apply Forall_forall. intros r Hr.
    apply list_elem_of_fmap in Hr as (x & -> & _).
    apply Forall_forall. intros c Hc. apply elem_of_replicate in Hc as [-> _].
    reflexivity.
  - apply Forall_forall. intros r Hr.
    apply list_elem_of_fmap in Hr as (x & -> & _). eexists. reflexivity.
Qed.
End Initialisation.

Section Setup.
Context {F : Type} `{!Scalar F} `{!Transcendental F} `{!Helpers F}.
Implicit Types (m : GaussianModel F) (t : Training F).

Lemma Training_setup_run (parameters : OptimizationParameters F) t :
  _optimizer_params_groups t = [] ->
  Training_setup parameters t
  = (Returns tt,
     let g := gaussians t in
     let n := next_impl g in
     let count := length (rows (_xyz g)) in
     let group p rate :=
       mkOptimizerParamGroup [p]
         (mkAdamOptions rate (fconst (1 # 1000000000000000))) in
     let groups :=
       [group (_xyz g) (fmul (position_lr_init parameters) (_spatial_lr_scale g));
        group (_features_dc g) (feature_lr parameters);
        group (_features_rest g) (fdiv (feature_lr parameters) (fconst 20));
        group (_scaling g) (fmul (scaling_lr parameters) (_spatial_lr_scale g));
        group (_rotation g) (rotation_lr parameters);
        group (_opacity g) (opacity_lr parameters)] in
     mkTraining
       (mkGaussianModel (_active_sh_degree g) (_max_sh_degree g)
          (_spatial_lr_scale g) (percent_dense parameters)
          (_xyz g) (_features_dc g) (_features_rest g)
          (_scaling g) (_rotation g) (_opacity g)
          (_max_radii2D g)
          (mkTensor n (zeros count) None) (mkTensor (1 + n) (zeros count) None)
          (Some (mkAdam (map params groups) ∅)) (2 + n))
       [fmul (position_lr_init parameters) (_spatial_lr_scale g);
        fmul (position_lr_final parameters) (_spatial_lr_scale g);
        position_lr_delay_mult parameters;
        position_lr_max_steps parameters]
       groups (map options groups)).
Proof.
  destruct t as [g args groups opts].
  destruct g as [act mx sc pd xyz fdc frest scal rot opa rad acc den o n].
  cbn. intros ->. reflexivity.
Qed.

(** X15: the first [Training_setup] returns and binds the optimizer: six
    groups, each with the handle that the member holds, an empty state,
    the epsilon 1e-15, and the rates of the parameters, the one of the
    positions and the one of the scalings multiplied by the spatial scale
    and the one of the higher coefficients divided by 20.  The six tensors
    are untouched, and the two statistics tensors are zero with a row per
    position. *)
Theorem Training_setup_binds (parameters : OptimizationParameters F) t :
  _optimizer_params_groups t = [] ->
  exists t',
    Training_setup parameters t = (Returns tt, t')
    /\ bound (gaussians t')
    /\ (exists opt, _optimizer (gaussians t') = Some opt /\ state opt = ∅)
    /\ (forall f, get_member f (gaussians t') = get_member f (gaussians t))
    /\ rows (_xyz_gradient_accum (gaussians t'))
       = zeros (length (rows (_xyz (gaussians t))))
    /\ rows (_denom (gaussians t')) = zeros (length (rows (_xyz (gaussians t))))
    /\ _max_radii2D (gaussians t') = _max_radii2D (gaussians t)
    /\ _percent_dense (gaussians t') = percent_dense parameters
    /\ map lr (optimizer_options t')
       = [fmul (position_lr_init parameters) (_spatial_lr_scale (gaussians t));
          feature_lr parameters;
          fdiv (feature_lr parameters) (fconst 20);
          fmul (scaling_lr parameters) (_spatial_lr_scale (gaussians t));
          rotation_lr parameters;
          opacity_lr parameters]
    /\ Forall (fun o => eps o = fconst (1 # 1000000000000000))
              (optimizer_options t').
Proof.
  intros Hfirst. eexists. split; [apply Training_setup_run, Hfirst|].
  cbv zeta. cbn.
  split; [eexists; split; reflexivity|].
  split; [eexists; split; reflexivity|].
  split; [intros []; reflexivity|].
  repeat split. repeat constructor.
Qed.

(** X16: [Training_setup] appends to [_optimizer_params_groups]: after a
    second call the optimizer holds twelve groups, the six new ones with
    the default epsilon of libtorch, and every [densification_postfix]
    throws "optimizer param groups size not 6" and changes nothing. *)
Theorem Training_setup_twice (p q : OptimizationParameters F)
    (new_xyz new_features_dc new_features_rest
     new_scaling new_rotation new_opacity : list (list F)) t :
  _optimizer_params_groups t = [] ->
  exists t' opt,
    (Training_setup p ;; Training_setup q) t = (Returns tt, t')
    /\ _optimizer (gaussians t') = Some opt
    /\ length (param_groups opt) = 12
    /\ map eps (optimizer_options t')
       = replicate 6 (fconst (1 # 1000000000000000))
         ++ replicate 6 (fconst (1 # 100000000))
    /\ densification_postfix new_xyz new_features_dc new_features_rest
         new_scaling new_rotation new_opacity (gaussians t')
       = (Throws (runtime_error "optimizer param groups size not 6"),
          gaussians t').
Proof.
  intros Hfirst.
  destruct t as [g args groups opts].
  destruct g as [act mx sc pd xyz fdc frest scal rot opa rad acc den o n].
  cbn in Hfirst. subst groups.
  eexists. eexists. split; [vm_compute; reflexivity|].
  split; [reflexivity|]. split; [reflexivity|].
  split; [reflexivity|]. vm_compute. reflexivity.
Qed.

Variable Expon_lr_func : list F -> F -> F.

(** X17: [Update_learning_rate] after the first [Training_setup] returns
    and sets the rate of group 0 to the value of the schedule, constructed
    with the initial and the final position rate multiplied by the spatial
    scale, at the iteration; the rates of the other five groups, every
    epsilon and the model are the ones of the setup.  On a model whose
    optimizer is null the call is undefined. *)
Theorem Update_learning_rate_first_group (parameters : OptimizationParameters F)
    (iteration : F) t :
  _optimizer_params_groups t = [] ->
  exists t1 t2,
    Training_setup parameters t = (Returns tt, t1)
    /\ Update_learning_rate Expon_lr_func iteration t1 = (Returns tt, t2)
    /\ t2 = set_optimizer_options (optimizer_options t2) t1
    /\ map lr (optimizer_options t2)
       = Expon_lr_func
           [fmul (position_lr_init parameters) (_spatial_lr_scale (gaussians t));
            fmul (position_lr_final parameters) (_spatial_lr_scale (gaussians t));
            position_lr_delay_mult parameters;
            position_lr_max_steps parameters] iteration
         :: tail (map lr (optimizer_options t1))
    /\ map eps (optimizer_options t2) = map eps (optimizer_options t1)
    /\ forall t0, _optimizer (gaussians t0) = None ->
         Update_learning_rate Expon_lr_func iteration t0
         = (Throws undefined_behaviour, t0).
Proof.
  intros Hfirst. eexists. eexists.
  split; [apply Training_setup_run, Hfirst|].
  cbv zeta. split; [vm_compute; reflexivity|].
  split; [reflexivity|]. split; [reflexivity|]. split; [reflexivity|].
  intros t0 Hnull. unfold Update_learning_rate. run_step. rewrite Hnull.
  reflexivity.
Qed.
End Setup.

Section Start.
Context {F : Type} `{!Scalar F} `{!Transcendental F} `{!Helpers F}.
Variable RGB2SH : F -> F.
Variable distCUDA2 : list (list F) -> list F.

(** X18: [Create_from_pcd] followed by the first [Training_setup], on a
    cloud with a colour per point and a distance per point, returns with
    the same number of rows, the number of points, in all nine tensors;
    the optimizer is bound to the six tensors and its state is empty.
    Until a gradient reaches the parameters [Reset_opacity] throws "param
    grad not defined: xyz". *)
Theorem initialisation_row_counts (pcd : PointCloud F) (spatial_lr_scale : F)
    (parameters : OptimizationParameters F) (t : Training F) :
  (0 <= _max_sh_degree (gaussians t) < INT_MAX)%Z ->
  length (_colors pcd) = length (_points pcd) ->
  length (distCUDA2 (map (fun p => [p.1.1; p.1.2; p.2]) (_points pcd)))
  = length (_points pcd) ->
  _optimizer_params_groups t = [] ->
  exists t',
    (on_gaussians (Create_from_pcd RGB2SH distCUDA2 pcd spatial_lr_scale) ;;
     Training_setup parameters) t = (Returns tt, t')
    /\ (forall f, length (rows (get_member f (gaussians t')))
                  = length (_points pcd))
    /\ length (rows (_xyz_gradient_accum (gaussians t'))) = length (_points pcd)
    /\ length (rows (_denom (gaussians t'))) = length (_points pcd)
    /\ length (rows (_max_radii2D (gaussians t'))) = length (_points pcd)
    /\ bound (gaussians t')
    /\ (exists opt, _optimizer (gaussians t') = Some opt /\ state opt = ∅)
    /\ Reset_opacity (gaussians t')
       = (Throws (runtime_error "param grad not defined: xyz"), gaussians t').
Proof.
  intros Hdeg Hcol Hdist Hfirst.
  eexists. split.
  - erewrite bind_run; cycle 1.
    + unfold on_gaussians.
      rewrite (Create_from_pcd_run RGB2SH distCUDA2 pcd spatial_lr_scale _ Hdeg).
      reflexivity.
    + apply Training_setup_run. exact Hfirst.
  - cbv zeta.
    cbn [gaussians set_gaussians _xyz _features_dc _features_rest _scaling
         _rotation _opacity _max_radii2D _xyz_gradient_accum _denom _optimizer
         next_impl rows get_member].
    unfold zeros. rewrite !length_replicate, !length_map.
    split; [intros []; cbn [get_member _xyz _features_dc _features_rest _scaling
                            _rotation _opacity rows]; rewrite ?length_map; auto|].
    split; [reflexivity|]. split; [reflexivity|]. split; [reflexivity|].
    split; [eexists; split; reflexivity|].
    split; [eexists; split; reflexivity|].
    reflexivity.
Qed.
End Start.

Lemma bind_assoc_run {S B} (c1 : M S unit) (c2 : M S unit) (c3 : M S B)
    (s s1 : S) :
  (c1 ;; c2) s = (Returns tt, s1) ->
  c3 s1 = (c1 ;; c2 ;; c3) s.
Proof.
  unfold bind. destruct (c1 s) as [[[]|e] s0]; [|discriminate].
  intros ->. reflexivity.
Qed.

Section EmptyCloud.
Context {F : Type} `{!Scalar F} `{!Transcendental F} `{!Helpers F}.
Variable RGB2SH : F -> F.
Variable distCUDA2 : list (list F) -> list F.
Variable randn : nat -> nat -> F.

(** X10: a cloud without points survives a densification.
    [Create_from_pcd] on it, when [distCUDA2] gives no distance for no
    point, followed by the first [Training_setup] and by
    [Densify_and_prune], returns, whatever the thresholds; the model still
    has no primitive in any of its nine tensors and is bound to its
    optimizer. *)
Theorem Densify_and_prune_empty (pcd : PointCloud F) (spatial_lr_scale : F)
    (parameters : OptimizationParameters F)
    (max_grad min_opacity extent max_screen_size : F) (t : Training F) :
  (0 <= _max_sh_degree (gaussians t) < INT_MAX)%Z ->
  _points pcd = [] ->
  _colors pcd = [] ->
  distCUDA2 [] = [] ->
  _optimizer_params_groups t = [] ->
  exists t',
    (on_gaussians (Create_from_pcd RGB2SH distCUDA2 pcd spatial_lr_scale) ;;
     Training_setup parameters ;;
     on_gaussians (Densify_and_prune randn max_grad min_opacity extent
                     max_screen_size)) t
    = (Returns tt, t')
    /\ bound (gaussians t')
    /\ (forall f, rows (get_member f (gaussians t')) = [])
    /\ rows (_xyz_gradient_accum (gaussians t')) = []
    /\ rows (_denom (gaussians t')) = []
    /\ rows (_max_radii2D (gaussians t')) = [].
Proof.
  intros Hdeg Hpoints Hcolors Hdist Hfirst.
  destruct t as [g args groups opts].
  destruct g as [act mx sc pd xyz fdc frest scal rot opa rad acc den o n].
  cbn [_optimizer_params_groups] in Hfirst. subst groups.
  cbn [gaussians _max_sh_degree] in Hdeg.
  assert (Hrun : exists t',
            (on_gaussians (Create_from_pcd RGB2SH distCUDA2 pcd spatial_lr_scale) ;;
             Training_setup parameters)
              (mkTraining
                 (mkGaussianModel act mx sc pd xyz fdc frest scal rot opa rad acc
                    den o n) args [] opts)
            = (Returns tt, t')
            /\ gaussians t'
               = mkGaussianModel act mx spatial_lr_scale (percent_dense parameters)
                   (mkTensor n [] None) (mkTensor (1 + n) [] None)
                   (mkTensor (2 + n) [] None) (mkTensor (3 + n) [] None)
                   (mkTensor (4 + n) [] None) (mkTensor (5 + n) [] None)
                   (mkTensor (6 + n) [] None)
                   (mkTensor (7 + n) [] None) (mkTensor (8 + n) [] None)
                   (Some (mkAdam
                            [[mkTensor n [] None]; [mkTensor (1 + n) [] None];
                             [mkTensor (2 + n) [] None]; [mkTensor (3 + n) [] None];
                             [mkTensor (4 + n) [] None]; [mkTensor (5 + n) [] None]]
                            ∅))
                   (9 + n)).
  { eexists. split.
    - erewrite bind_run; cycle 1.
      + unfold on_gaussians.
        rewrite (Create_from_pcd_run RGB2SH distCUDA2 pcd spatial_lr_scale
                   (mkGaussianModel act mx sc pd xyz fdc frest scal rot opa rad acc
                      den o n) Hdeg).
        reflexivity.
      + apply Training_setup_run. reflexivity.
    - cbv zeta. rewrite Hpoints, Hcolors. cbn [map]. rewrite Hdist. reflexivity. }
  destruct Hrun as (t1 & Hrun & Hmodel).
  destruct t1 as [g1 args1 groups1 opts1]. cbn [gaussians] in Hmodel. subst g1.
  destruct (fgt max_screen_size fzero) eqn:Hscreen.
  - eexists. split.
    + rewrite <- (bind_assoc_run _ _ _ _ _ Hrun).
      unfold on_gaussians, Densify_and_prune, densify_and_prune_with.
      rewrite Hscreen. vm_compute. reflexivity.
    + split; [eexists; split; reflexivity|].
      split; [intros []; reflexivity|]. auto.
  - eexists. split.
    + rewrite <- (bind_assoc_run _ _ _ _ _ Hrun).
      unfold on_gaussians, Densify_and_prune, densify_and_prune_with.
      rewrite Hscreen. vm_compute. reflexivity.
    + split; [eexists; split; reflexivity|].
      split; [intros []; reflexivity|]. auto.
Qed.
End EmptyCloud.

(** X19: whatever the sizes of the tensor that [build_scaling_rotation]
    gives, [Get_covariance] throws: [transpose(1, 2)] needs a third
    dimension, and [torch::mm] refuses a tensor that has one. *)
Theorem Get_covariance_never_returns
    (strip_symmetric : list nat -> outcome (list nat)) (L : list nat) :
  Get_covariance_sizes strip_symmetric L = Throws c10_error.
Proof.
  unfold Get_covariance_sizes, transpose_sizes.
  destruct L as [|s0 [|s1 [|s2 L]]]; try reflexivity.
Qed.

(** ** The seeds in real arithmetic *)

Lemma xreal_sigmoid_inverse_half :
  torch_sigmoid (inverse_sigmoid (fmul (fconst (1 # 2)) fone))
  = (XReal (1 / 2) : xreal).
Proof.
  cbn [fmul fone fconst xreal_Scalar inverse_sigmoid xreal_Helpers xlift2
       torch_sigmoid xreal_Transcendental xlift1].
  assert (Ha : (Q2R (1 # 2) * 1 = 1 / 2)%R) by (unfold Q2R; cbn; lra).
  rewrite Ha, xdiv_real by lra.
  unfold xlog.
  destruct (Rlt_dec 0 (1 / 2 / (1 - 1 / 2))) as [Hpos|Hneg];
    [|exfalso; apply Hneg; lra].
  cbn [xlift1]. f_equal.
  replace (1 / 2 / (1 - 1 / 2))%R with 1%R by field.
  rewrite ln_1, Ropp_0, exp_0. lra.
Qed.

Lemma xreal_seed_scale (x : R) :
  let floor := Q2R (1 # 10000000) in
  torch_exp (torch_log (fsqrt (fmax (XReal x) (fconst (1 # 10000000)))))
  = XReal (sqrt (Rmax x floor))
  /\ (0 < sqrt floor <= sqrt (Rmax x floor))%R.
Proof.
  cbv zeta.
  assert (Hfloor : (0 < Q2R (1 # 10000000))%R) by (unfold Q2R; cbn; lra).
  assert (Hmax : (Q2R (1 # 10000000) <= Rmax x (Q2R (1 # 10000000)))%R)
    by apply Rmax_r.
  assert (Hsqrt : (0 < sqrt (Q2R (1 # 10000000)))%R) by (apply sqrt_lt_R0, Hfloor).
  assert (Hle : (sqrt (Q2R (1 # 10000000))
                 <= sqrt (Rmax x (Q2R (1 # 10000000))))%R)
    by (apply sqrt_le_1_alt, Hmax).
  split; [|lra].
  cbn [fmax fconst fsqrt xreal_Scalar xlift2 torch_exp torch_log
       xreal_Transcendental xsqrt].
  destruct (Rlt_dec (Rmax x (Q2R (1 # 10000000))) 0) as [Hneg|_]; [lra|].
  unfold xlog.
  destruct (Rlt_dec 0 (sqrt (Rmax x (Q2R (1 # 10000000))))) as [Hpos|Hn]; [|lra].
  cbn [xlift1]. rewrite exp_ln by exact Hpos. reflexivity.
Qed.

(** X20: in real arithmetic, after [Create_from_pcd] on distances that
    are numbers, every activated opacity is exactly 1/2 and every
    activated scale is a number, at least the square root of the clamp
    1e-7 and so above zero: coincident points give no primitive of size
    zero. *)
Theorem Create_from_pcd_activated (RGB2SH : xreal -> xreal)
    (distCUDA2 : list (list xreal) -> list xreal)
    (pcd : PointCloud xreal) (spatial_lr_scale : xreal) (m : GaussianModel xreal) :
  (0 <= _max_sh_degree m < INT_MAX)%Z ->
  Forall (fun d => xisnan d = false)
         (distCUDA2 (map (fun p => [p.1.1; p.1.2; p.2]) (_points pcd))) ->
  exists m',
    Create_from_pcd RGB2SH distCUDA2 pcd spatial_lr_scale m = (Returns tt, m')
    /\ Forall (fun o => o = [XReal (1 / 2)]) (Get_opacity m')
    /\ Forall (Forall (fun s => exists x,
                 s = XReal x /\ (0 < sqrt (Q2R (1 # 10000000)) <= x)%R))
              (Get_scaling m').
Proof.
  intros Hdeg Hreal. eexists. split; [apply Create_from_pcd_run, Hdeg|].
  cbv zeta. unfold Get_opacity, Get_scaling. cbn [_opacity _scaling rows]. split.
  - apply Forall_forall. intros o Ho.
    apply list_elem_of_fmap in Ho as (r & -> & Hr).
    apply list_elem_of_fmap in Hr as (p & -> & _).
    cbn [map]. rewrite xreal_sigmoid_inverse_half. reflexivity.
  - apply Forall_forall. intros row Hrow.
    apply list_elem_of_fmap in Hrow as (r & -> & Hr).
    apply list_elem_of_fmap in Hr as (d & -> & Hd).
    apply list_elem_of_fmap in Hd as (d0 & -> & Hd0).
    pose proof (proj1 (Forall_forall _ _) Hreal d0 Hd0) as Hnan.
    destruct d0 as [|x]; [discriminate|].
    destruct (xreal_seed_scale x) as [Heq Hbound]. cbv zeta in Heq, Hbound.
    cbn [replicate map]. rewrite Heq.
    repeat constructor; eexists; (split; [reflexivity | exact Hbound]).
Qed.

(** ** Camera utilities *)

Lemma b64_add_opp (x : binary64) :
  b64_iszero (SFadd 53 1024 x (SFopp x)) || b64_isnan (SFadd 53 1024 x (SFopp x))
  = true.
Proof.
  destruct x as [[]|[]| |s m e]; try reflexivity.
  cbn [SFopp SFadd]. rewrite Z.min_id. unfold shl_align.
  assert (Hd : IntDef.Z.sub e e = 0%Z) by apply Z.sub_diag.
  rewrite Hd. cbn [fst].
  assert (Hz : IntDef.Z.add (cond_Zopp s (Z.pos m)) (cond_Zopp (negb s) (Z.pos m))
               = 0%Z).
  { destruct s; cbn [cond_Zopp negb];
      [apply Z.add_opp_diag_l | apply Z.add_opp_diag_r]. }
  rewrite Hz. reflexivity.
Qed.

Lemma b64_sub_same (x : binary64) :
  b64_iszero (SFsub 53 1024 x x) || b64_isnan (SFsub 53 1024 x x) = true.
Proof.
  destruct x as [[]|[]| |s m e]; try reflexivity.
  cbn [SFsub]. rewrite Z.min_id. unfold shl_align.
  assert (Hd : IntDef.Z.sub e e = 0%Z) by apply Z.sub_diag.
  rewrite Hd. cbn [fst].
  assert (Hz : IntDef.Z.sub (cond_Zopp s (Z.pos m)) (cond_Zopp s (Z.pos m)) = 0%Z)
    by apply Z.sub_diag.
  rewrite Hz. reflexivity.
Qed.

Lemma b64_div_of_zero (x y : binary64) :
  b64_iszero x || b64_isnan x = true ->
  b64_iszero (SFdiv 53 1024 x y) || b64_isnan (SFdiv 53 1024 x y) = true.
Proof. destruct x as [?|?| |? ? ?], y as [?|?| |? ? ?]; try discriminate; reflexivity. Qed.

Lemma b64_div_by_zero (x y : binary64) :
  b64_iszero y || b64_isnan y = true ->
  b64_isinf (SFdiv 53 1024 x y) || b64_isnan (SFdiv 53 1024 x y) = true.
Proof. destruct x as [?|?| |? ? ?], y as [?|?| |? ? ?]; try discriminate; reflexivity. Qed.

(** X23: on doubles, whatever the planes, the fields of view and the
    tangent of the C library: the two off-centre terms of the matrix of
    [getProjectionMatrix] are never a number other than zero, each is a
    zero or a NaN; the bottom row is (0, 0, 1, 0), which copies z into w;
    and when the far plane is the near plane the two depth coefficients
    are infinite or NaN, never a finite number. *)
Theorem getProjectionMatrix_centred (tan : binary64 -> binary64)
    (znear zfar fovX fovY : binary64) :
  let P := getProjectionMatrix tan znear zfar fovX fovY in
  let Q := getProjectionMatrix tan znear znear fovX fovY in
  b64_iszero (coeff P 0 2) || b64_isnan (coeff P 0 2) = true
  /\ b64_iszero (coeff P 1 2) || b64_isnan (coeff P 1 2) = true
  /\ coeff P 3 0 = S754_zero false
  /\ coeff P 3 1 = S754_zero false
  /\ coeff P 3 2 = b64_of_Z 1
  /\ coeff P 3 3 = S754_zero false
  /\ b64_isinf (coeff Q 2 2) || b64_isnan (coeff Q 2 2) = true
  /\ b64_isinf (coeff Q 2 3) || b64_isnan (coeff Q 2 3) = true.
Proof.
  cbv zeta. unfold getProjectionMatrix, coeff, set_coeff. cbn [Nat.eqb andb].
  split; [apply b64_div_of_zero, b64_add_opp|].
  split; [apply b64_div_of_zero, b64_add_opp|].
  split; [reflexivity|]. split; [reflexivity|].
  split; [reflexivity|]. split; [reflexivity|].
  split; apply b64_div_by_zero, b64_sub_same.
Qed.

(** X24: on doubles, the scalar of the quaternion that [rotmat2qvec]
    returns is never below zero, whatever quaternion Eigen makes of the
    matrix. *)
Theorem rotmat2qvec_not_negative {Matrix3d : Type}
    (Quaterniond_of_matrix : Matrix3d -> Quaterniond) (Rot : Matrix3d) :
  SFltb (qw (rotmat2qvec Quaterniond_of_matrix Rot)) (b64_of_Z 0) = false.
Proof.
  unfold rotmat2qvec. cbv zeta.
  destruct (SFltb (qw (Quaterniond_of_matrix Rot)) (b64_of_Z 0)) eqn:Hneg;
    [|exact Hneg].
  cbn [qw].
  change (b64_of_Z (-1)) with (S754_finite true 4503599627370496 (-52)).
  change (b64_of_Z 0) with (S754_zero false) in *.
  destruct (qw (Quaterniond_of_matrix Rot)) as [[]|[]| |[] m e];
    try discriminate; try reflexivity.
  cbn [SFmul xorb]. unfold binary_round_aux.
  destruct (shr_fexp 53 1024 _ _ _) as [mrs' e'].
  destruct (shr_fexp 53 1024 _ _ _) as [mrs'' e''].
  destruct (shr_m mrs'') as [|p|p]; try reflexivity.
  destruct (e'' <=? 1024 - 53)%Z; reflexivity.
Qed.

(** * Runs of the interface *)

(** ** The degree *)

(** Five calls on a model of degree 3 stop at 3. *)
Lemma One_up_sh_degree_saturates_witness :
  exists m',
    times 5 One_up_sh_degree (b32_three 3) = (Returns tt, m')
    /\ _active_sh_degree m' = 3%Z
    /\ m' = set_active_sh_degree (_active_sh_degree m') (b32_three 3).
Proof.
  apply (One_up_sh_degree_saturates 5 (b32_three 3)).
  unfold int_range, INT_MIN, INT_MAX. cbn. lia.
Defined.

(** ** The binding *)


Lemma three_primitives_allocated : allocated three_primitives.
Proof.
  intros opt k [= <-] [st Hst]. cbn [next_impl three_primitives].
  destruct (decide (k < 9)) as [Hlt|Hge]; [exact Hlt|].
  exfalso. unfold three_optimizer in Hst. cbn [state] in Hst.
  rewrite !lookup_insert_ne, lookup_empty in Hst by lia. discriminate.
Qed.



(** Appending a fourth primitive. *)
Lemma densification_postfix_rebinds_witness :
  bound extended_three
  /\ allocated extended_three
  /\ (exists opt', _optimizer extended_three = Some opt'
                   /\ state opt' = state three_optimizer)
  /\ forall f opt', _optimizer extended_three = Some opt' ->
       grad (get_member f extended_three) = None
       /\ state opt' !! impl (get_member f extended_three) = None.
Proof.
  exact (densification_postfix_rebinds _ _ _ _ _ _ three_primitives extended_three
           three_optimizer eq_refl eq_refl three_primitives_allocated
           extend_three_returns).
Defined.

(** After the pruning of the first primitive. *)
Lemma Reset_opacity_after_mutation_witness :
  Reset_opacity pruned_three
  = (Throws (runtime_error "param grad not defined: xyz"), pruned_three).
Proof.
  exact (Reset_opacity_after_mutation [true; false; false] [] [] [] [] [] []
           three_primitives pruned_three three_optimizer eq_refl eq_refl
           (or_introl prune_three_returns)).
Defined.

Lemma three_gradients (f : member) : is_Some (grad (get_member f three_primitives)).
Proof. destruct f; eexists; reflexivity. Qed.

Lemma Reset_opacity_without_moments_witness :
  Reset_opacity three_before_step
  = (Throws undefined_behaviour,
     set_next_impl (S (next_impl three_before_step)) three_before_step).
Proof.
  exact (Reset_opacity_without_moments three_before_step
           (mkAdam (param_groups three_optimizer) ∅) eq_refl eq_refl
           three_gradients (lookup_empty _)).
Defined.

Lemma Reset_opacity_rebinds_witness :
  bound reset_three
  /\ allocated reset_three
  /\ grad (_opacity reset_three) = None
  /\ (forall opt', _optimizer reset_three = Some opt' ->
        state opt' !! impl (_opacity reset_three) = None
        /\ is_Some (state opt' !! impl (_opacity three_primitives)))
  /\ Reset_opacity reset_three
     = (Throws (runtime_error "param grad not defined: opacity"), reset_three).
Proof.
  exact (Reset_opacity_rebinds three_primitives reset_three three_optimizer
           eq_refl eq_refl three_primitives_allocated reset_three_returns).
Defined.

Lemma b32_three_gradients (f : member) :
  grad (get_member f (b32_three 0))
  = Some (map (map (fun _ => b32_of_Z 0%Z)) (rows (get_member f (b32_three 0)))).
Proof. destruct f; vm_compute; reflexivity. Qed.

(** In binary32, the format of the opacity tensor, [Reset_opacity]
    returns on three primitives whatever the sigmoid and its inverse
    compute, and none of the three activated opacities is the number
    0.01. *)
Lemma Reset_opacity_binary32 (T : Transcendental binary32) (H : Helpers binary32) :
  exists m',
    Reset_opacity (b32_three 0) = (Returns tt, m')
    /\ length (Get_opacity m') = 3
    /\ Forall (Forall (fun o => forall q,
                 b32_value o = Some q -> ~ (q == 1 # 100)%Q))
              (Get_opacity m').
Proof.
  rewrite (Reset_opacity_run (b32_three 0) b32_optimizer _ eq_refl eq_refl
             b32_three_gradients).
  cbv zeta.
  change (state b32_optimizer !! impl (_opacity (b32_three 0)))
    with (state b32_optimizer !! 5).
  unfold b32_optimizer at 1. cbn [state].
  rewrite !lookup_insert_ne, lookup_insert_eq by lia.
  eexists. split; [reflexivity|].
  unfold Get_opacity. cbn [_opacity rows]. split.
  - rewrite !length_map. reflexivity.
  - apply Forall_forall. intros row _. apply Forall_forall. intros o _ q.
    apply b32_no_hundredth.
Qed.


(** An optimizer without groups, and one whose second group holds two
    parameters. *)
Lemma densification_postfix_rejects_witness :
  densification_postfix [] [] [] [] [] []
    (set_optimizer (Some (mkAdam [] ∅)) three_primitives)
  = (Throws (runtime_error "optimizer param groups size not 6"),
     set_optimizer (Some (mkAdam [] ∅)) three_primitives)
  /\ densification_postfix [] [] [] [] [] []
       (set_optimizer
          (Some (mkAdam
                   (<[1 := [xtensor 1 three_features_dc; xtensor 1 three_features_dc]]>
                      (param_groups three_optimizer)) ∅))
          three_primitives)
     = (Throws (runtime_error "too many params: xyz"),
        set_optimizer
          (Some (mkAdam
                   (<[1 := [xtensor 1 three_features_dc; xtensor 1 three_features_dc]]>
                      (param_groups three_optimizer)) ∅))
          three_primitives).
Proof.
  split.
  - apply (proj1 (densification_postfix_rejects [] [] [] [] [] []
                    (set_optimizer (Some (mkAdam [] ∅)) three_primitives)
                    (mkAdam [] ∅) eq_refl)).
    cbn. lia.
  - apply (proj2 (densification_postfix_rejects [] [] [] [] [] []
                    (set_optimizer
                       (Some (mkAdam
                                (<[1 := [xtensor 1 three_features_dc;
                                         xtensor 1 three_features_dc]]>
                                   (param_groups three_optimizer)) ∅))
                       three_primitives)
                    (mkAdam
                       (<[1 := [xtensor 1 three_features_dc;
                                xtensor 1 three_features_dc]]>
                          (param_groups three_optimizer)) ∅)
                    eq_refl)).
    + reflexivity.
    + apply Exists_cons_tl, Exists_cons_hd. cbn. lia.
Defined.

(** ** Edges of the densification *)

(** Four gradients for three primitives. *)
Lemma densify_and_split_rejects_long_grads_witness :
  densify_and_split unit_noise
    [[XReal 3]; [XReal 4]; [XReal 0]; [XReal 1]] (XReal 1) (XReal 1) 2
    three_primitives
  = (Throws c10_error, three_primitives).
Proof.
  apply (densify_and_split_rejects_long_grads unit_noise
           [[XReal 3]; [XReal 4]; [XReal 0]; [XReal 1]] (XReal 1) (XReal 1) 2
           three_primitives).
  - change (3 < 4). lia.
  - change (4 <> 1). lia.
Defined.

(** ** Cloning *)

Lemma three_scaling_width :
  Forall (fun r : list xreal => length r = 3) (rows (_scaling three_primitives)).
Proof. repeat constructor. Qed.

Lemma three_scaling_rows : rows (_scaling three_primitives) <> [].
Proof. discriminate. Qed.

Lemma three_rows (f : member) :
  length grads_3_4_0 <= length (rows (get_member f three_primitives)).
Proof. destruct f; change (3 <= 3); lia. Qed.

(** The gradients 3, 4 and 0 with the threshold 4.5. *)
Lemma densify_and_clone_returns_witness :
  exists m' mask,
    densify_and_clone grads_3_4_0 (XReal (9 / 2)) (XReal 1000) three_primitives
    = (Returns tt, m')
    /\ clone_selected_mask grads_3_4_0 (XReal (9 / 2)) (XReal 1000) three_primitives
       = (Returns mask, three_primitives)
    /\ (forall f, exists selected,
          index_select (rows (get_member f three_primitives)) (nonzero_rows mask)
          = Some selected
          /\ rows (get_member f m')
             = rows (get_member f three_primitives) ++ selected)
    /\ rows (_xyz_gradient_accum m') = zeros (length (rows (_xyz m')))
    /\ rows (_denom m') = zeros (length (rows (_xyz m')))
    /\ rows (_max_radii2D m') = zeros (length (rows (_xyz m')))
    /\ bound m'.
Proof.
  exact (densify_and_clone_returns grads_3_4_0 (XReal (9 / 2)) (XReal 1000)
           three_primitives three_optimizer eq_refl eq_refl three_scaling_rows
           three_scaling_width eq_refl three_rows).
Defined.

(** ** The first statistics *)

Lemma viewspace_three_rows :
  length [true; false; true] <= length (map xrow [[3; 4; 9]; [1; 1; 1]; [0; 0; 0]]%R).
Proof. change (3 <= 3). lia. Qed.

(** The first and the third primitive are visible. *)
Lemma first_statistics_mean_gradient_witness :
  exists m' grads,
    Add_densification_stats viewspace_three [true; false; true]
      three_zero_statistics = (Returns tt, m')
    /\ mean_gradient m' = Some grads
    /\ length grads = length [true; false; true]
    /\ forall (i : nat) (b : bool) (gi : list xreal),
         [true; false; true] !! i = Some b ->
         map xrow [[3; 4; 9]; [1; 1; 1]; [0; 0; 0]]%R !! i = Some gi ->
         grads !! i
         = Some [if b
                 then if fisnan (norm [take 2 gi]) then fzero
                      else norm [take 2 gi]
                 else fzero].
Proof.
  exact (first_statistics_mean_gradient viewspace_three [true; false; true]
           three_zero_statistics _ eq_refl eq_refl eq_refl viewspace_three_rows).
Defined.

(** ** Features *)

Lemma three_features :
  Get_features three_primitives = Some (map xrow three_features_dc).
Proof. reflexivity. Qed.

Lemma three_features_rows : map xrow three_features_dc <> [].
Proof. discriminate. Qed.

(** The features of the three primitives, of the four after the appending
    of (4, 4, 4), and of the one that the pruning with (true, false, false)
    leaves. *)
Lemma Get_features_follows_mutations_witness :
  Get_features three_primitives = Some (map xrow three_features_dc)
  /\ Get_features extended_three
     = Some (map xrow (three_features_dc ++ [[4; 4; 4]%R]))
  /\ Get_features pruned_three = Some [xrow [1; 1; 1]%R].
Proof.
  destruct (Get_features_follows_mutations [true; false; false]
              [xrow [2; 2; 2]%R] [xrow [4; 4; 4]%R] [[]]
              [xrow [0; 0; 0]%R] [xrow [1; 0; 0; 0]%R] [xrow [8]%R]
              three_primitives _ three_features three_features_rows)
    as [Hcat Hprune].
  split; [exact three_features|]. split.
  - exact (Hcat extended_three extend_three_returns eq_refl).
  - exact (Hprune pruned_three prune_three_returns).
Defined.

(** ** Initialisation and setup *)

Lemma three_degree : (0 <= _max_sh_degree three_primitives < INT_MAX)%Z.
Proof. unfold INT_MAX. cbn. lia. Qed.

(** Three white points on the model of degree 0. *)
Lemma Create_from_pcd_seeds_witness :
  exists m',
    Create_from_pcd (fun c => c) unit_distances three_points (XReal 1)
      three_primitives = (Returns tt, m')
    /\ rows (_xyz m') = map (fun p => [p.1.1; p.1.2; p.2]) (_points three_points)
    /\ length (rows (_features_dc m')) = length (_colors three_points)
    /\ length (rows (_features_rest m')) = length (_colors three_points)
    /\ length (rows (_scaling m')) = length (unit_distances (rows (_xyz m')))
    /\ length (rows (_rotation m')) = length (_points three_points)
    /\ length (rows (_opacity m')) = length (_points three_points)
    /\ rows (_max_radii2D m') = zeros (length (_points three_points))
    /\ Forall (fun q => q = [fone; fzero; fzero; fzero]) (rows (_rotation m'))
    /\ Forall (Forall (fun c => c = fzero)) (rows (_features_rest m'))
    /\ Forall (fun r => exists s, r = [s; s; s]) (rows (_scaling m'))
    /\ _xyz_gradient_accum m' = _xyz_gradient_accum three_primitives
    /\ _denom m' = _denom three_primitives
    /\ _optimizer m' = _optimizer three_primitives.
Proof.
  exact (Create_from_pcd_seeds (fun c => c) unit_distances three_points (XReal 1)
           three_primitives three_degree).
Defined.

Lemma unit_distances_numbers :
  Forall (fun d => xisnan d = false)
         (unit_distances (map (fun p => [p.1.1; p.1.2; p.2]) (_points three_points))).
Proof. repeat constructor. Qed.

Lemma Create_from_pcd_activated_witness :
  exists m',
    Create_from_pcd (fun c => c) unit_distances three_points (XReal 1)
      three_primitives = (Returns tt, m')
    /\ Forall (fun o => o = [XReal (1 / 2)]) (Get_opacity m')
    /\ Forall (Forall (fun s => exists x,
                 s = XReal x /\ (0 < sqrt (Q2R (1 # 10000000)) <= x)%R))
              (Get_scaling m').
Proof.
  exact (Create_from_pcd_activated (fun c => c) unit_distances three_points
           (XReal 1) three_primitives three_degree unit_distances_numbers).
Defined.

Lemma Training_setup_binds_witness :
  exists t',
    Training_setup xparameters three_before_setup = (Returns tt, t')
    /\ bound (gaussians t')
    /\ (exists opt, _optimizer (gaussians t') = Some opt /\ state opt = ∅)
    /\ (forall f, get_member f (gaussians t')
                  = get_member f (gaussians three_before_setup))
    /\ rows (_xyz_gradient_accum (gaussians t'))
       = zeros (length (rows (_xyz (gaussians three_before_setup))))
    /\ rows (_denom (gaussians t'))
       = zeros (length (rows (_xyz (gaussians three_before_setup))))
    /\ _max_radii2D (gaussians t') = _max_radii2D (gaussians three_before_setup)
    /\ _percent_dense (gaussians t') = percent_dense xparameters
    /\ map lr (optimizer_options t')
       = [fmul (position_lr_init xparameters)
               (_spatial_lr_scale (gaussians three_before_setup));
          feature_lr xparameters;
          fdiv (feature_lr xparameters) (fconst 20);
          fmul (scaling_lr xparameters)
               (_spatial_lr_scale (gaussians three_before_setup));
          rotation_lr xparameters;
          opacity_lr xparameters]
    /\ Forall (fun o => eps o = fconst (1 # 1000000000000000))
              (optimizer_options t').
Proof.
  exact (Training_setup_binds xparameters three_before_setup eq_refl).
Defined.

Lemma Training_setup_twice_witness :
  exists t' opt,
    (Training_setup xparameters ;; Training_setup xparameters) three_before_setup
    = (Returns tt, t')
    /\ _optimizer (gaussians t') = Some opt
    /\ length (param_groups opt) = 12
    /\ map eps (optimizer_options t')
       = replicate 6 (fconst (1 # 1000000000000000))
         ++ replicate 6 (fconst (1 # 100000000))
    /\ densification_postfix [] [] [] [] [] [] (gaussians t')
       = (Throws (runtime_error "optimizer param groups size not 6"),
          gaussians t').
Proof.
  exact (Training_setup_twice xparameters xparameters [] [] [] [] [] []
           three_before_setup eq_refl).
Defined.

Lemma Update_learning_rate_first_group_witness :
  exists t1 t2,
    Training_setup xparameters three_before_setup = (Returns tt, t1)
    /\ Update_learning_rate (fun _ iteration => iteration) (XReal 7) t1
       = (Returns tt, t2)
    /\ t2 = set_optimizer_options (optimizer_options t2) t1
    /\ map lr (optimizer_options t2)
       = XReal 7 :: tail (map lr (optimizer_options t1))
    /\ map eps (optimizer_options t2) = map eps (optimizer_options t1)
    /\ forall t0, _optimizer (gaussians t0) = None ->
         Update_learning_rate (fun _ iteration => iteration) (XReal 7) t0
         = (Throws undefined_behaviour, t0).
Proof.
  exact (Update_learning_rate_first_group (fun _ iteration => iteration)
           xparameters (XReal 7) three_before_setup eq_refl).
Defined.

Lemma initialisation_row_counts_witness :
  exists t',
    (on_gaussians (Create_from_pcd (fun c => c) unit_distances three_points (XReal 1)) ;;
     Training_setup xparameters) three_before_setup = (Returns tt, t')
    /\ (forall f, length (rows (get_member f (gaussians t')))
                  = length (_points three_points))
    /\ length (rows (_xyz_gradient_accum (gaussians t')))
       = length (_points three_points)
    /\ length (rows (_denom (gaussians t'))) = length (_points three_points)
    /\ length (rows (_max_radii2D (gaussians t'))) = length (_points three_points)
    /\ bound (gaussians t')
    /\ (exists opt, _optimizer (gaussians t') = Some opt /\ state opt = ∅)
    /\ Reset_opacity (gaussians t')
       = (Throws (runtime_error "param grad not defined: xyz"), gaussians t').
Proof.
  exact (initialisation_row_counts (fun c => c) unit_distances three_points
           (XReal 1) xparameters three_before_setup three_degree
           eq_refl eq_refl eq_refl).
Defined.

(** ** The empty cloud *)

Lemma Densify_and_prune_empty_witness :
  exists t',
    (on_gaussians (Create_from_pcd (fun c => c) unit_distances no_points (XReal 1)) ;;
     Training_setup xparameters ;;
     on_gaussians (Densify_and_prune unit_noise (XReal 1) (XReal 1) (XReal 1)
                     (XReal 0))) three_before_setup
    = (Returns tt, t')
    /\ bound (gaussians t')
    /\ (forall f, rows (get_member f (gaussians t')) = [])
    /\ rows (_xyz_gradient_accum (gaussians t')) = []
    /\ rows (_denom (gaussians t')) = []
    /\ rows (_max_radii2D (gaussians t')) = [].
Proof.
  exact (Densify_and_prune_empty (fun c => c) unit_distances unit_noise no_points
           (XReal 1) xparameters (XReal 1) (XReal 1) (XReal 1) (XReal 0)
           three_before_setup three_degree eq_refl eq_refl eq_refl eq_refl).
Defined.

(** ** The camera *)

(** With fields of view of one radian and planes at 1 and 100 the
    off-centre terms are zero, and the depth coefficients are the rounded
    quotients of 100 and of -100 by 99. *)
Example getProjectionMatrix_doubles :
  coeff b64_example 0 2 = S754_zero false
  /\ coeff b64_example 1 2 = S754_zero false
  /\ coeff b64_example 2 2 = SFdiv 53 1024 (b64_of_Z 100) (b64_of_Z 99)
  /\ coeff b64_example 2 3 = SFdiv 53 1024 (b64_of_Z (-100)) (b64_of_Z 99).
Proof. vm_compute. repeat split. Qed.
